(** * State risk scoring and health-cost projection

    A shallow embedding of the two computational pipelines of the
    dashboard:

    - [streamlit_app/pages/state_risk.py]: [annual_state_aqi_calendar],
      [project_mpce_2425], [get_population_by_year],
      [extract_high_aqi_areas] and [compute_state_risk];
    - [streamlit_app/pages/health_cost_proj.py]:
      [compute_health_cost_impacts];

    and of the places of the dashboard pages that call them:

    - [streamlit_app/pages/executive_summary.py], [app]: the table of the
      most polluted areas;
    - [streamlit_app/pages/market_prioritization.py], [app]: the national
      cost table [df_india].

    Data frames are lists of records, one record per row, in row order.
    The library layers the code stands on are embedded next to it: the
    pandas operations it calls ([groupby(...).mean()], [merge],
    [sort_values], [groupby(...).head]), scikit-learn's [MinMaxScaler],
    and the float64 cells they compute on.

    Modelling choices.

    - Numbers.  A float64 cell is a [num]: an exact rational or the
      non-numeric value [NaN].  Arithmetic on [num] is exact: it neither
      rounds nor overflows, and the infinities of float64 are among the
      non-numeric values.  The statements are the ones that rounding and
      overflow leave true.  What the risk pipeline returns is stated for
      the case that it returns: on float64 the scaler also refuses an
      array that holds an infinity, which no array of rationals does.
      Orders between computed cells are not strict, and a cell is equated
      with a number only where float64 computes it without rounding.  The
      scaler and the weighted sum are written over the [Arith] interface
      and are also run on IEEE binary64 ([PrimFloat]) where rounding
      decides a statement.
    - Strings.  Names are byte strings with the ASCII case mapping; a
      statement that depends on the case mapping of Python beyond ASCII
      takes names written in ASCII.
    - Inputs.  The pipelines take the frames they read from the CSV
      files as arguments; the files are complete (no missing cell).
      Row counts ([top_n], [top_states], ...) are natural numbers.
    - [numpy.argsort] with the default kind, behind [sort_values] on one
      column, is a parameter with the contract numpy documents (a sorted
      permutation), since the order it gives to equal cells depends on
      the algorithm numpy selects.
    - The float power [**] is a parameter; the statements name the laws
      of it they use, laws that the float power keeps under rounding,
      overflow and underflow. *)

From Stdlib Require Import List String Ascii Bool Arith ZArith.
From Stdlib Require Import QArith Qreduction Qround Qpower Lia Lqa.
From Stdlib Require Import Sorting.Sorted Sorting.Permutation.
From Stdlib Require Import Floats Uint63.
Import ListNotations.

Local Open Scope Q_scope.
Local Open Scope list_scope.

(* ================================================================== *)
(** ** Exceptions *)

(** Once the CSV files have been read, the only exception in the two
    pipelines is the [ValueError] of scikit-learn's input validation
    ([check_array]), which the risk pipeline can meet. *)
Inductive value_error : Type :=
| NoSamples     (* "Found array with 0 sample(s) ... while a minimum of 1 is required" *)
| NotFinite.    (* "Input contains infinity or a value too large" *)

Inductive exn : Type :=
| ValueError (why : value_error).

Inductive result (T : Type) : Type :=
| Ok (v : T)
| Raise (e : exn).
Arguments Ok {T} v.
Arguments Raise {T} e.

Definition bind {T U : Type} (r : result T) (k : T -> result U) : result U :=
  match r with
  | Ok v => k v
  | Raise e => Raise e
  end.

Notation "x <- r ;; k" := (bind r (fun x => k))
  (at level 61, r at next level, right associativity).

(* ================================================================== *)
(** ** Float64 cells *)

(** [Fin q] is the number [q]; [NaN] is pandas' missing / non-numeric
    value.  Division by zero, which float64 answers with an infinity or
    NaN, gives [NaN]: the model does not tell the non-numeric values
    apart.  An operation that overflows in float64 gives a number here.
    Results are kept in lowest terms ([Qred]) so that equal numbers are
    equal terms on closed inputs. *)
Inductive num : Type :=
| Fin (q : Q)
| NaN.

Definition num_lift2 (f : Q -> Q -> Q) (x y : num) : num :=
  match x, y with
  | Fin a, Fin b => Fin (Qred (f a b))
  | _, _ => NaN
  end.

Definition num_add : num -> num -> num := num_lift2 Qplus.
Definition num_sub : num -> num -> num := num_lift2 Qminus.
Definition num_mul : num -> num -> num := num_lift2 Qmult.

Definition num_div (x y : num) : num :=
  match x, y with
  | Fin a, Fin b => if Qeq_bool b 0 then NaN else Fin (Qred (a / b))
  | _, _ => NaN
  end.

(** Comparisons follow IEEE 754: any comparison with NaN is false. *)
Definition num_ltb (x y : num) : bool :=
  match x, y with
  | Fin a, Fin b => negb (Qle_bool b a)
  | _, _ => false
  end.

Definition num_isnan (x : num) : bool :=
  match x with
  | NaN => true
  | Fin _ => false
  end.

(** Equality and order of cells as propositions: numbers are compared as
    rationals, [NaN] is related to nothing by the order. *)
Definition num_eq (x y : num) : Prop :=
  match x, y with
  | Fin a, Fin b => a == b
  | NaN, NaN => True
  | _, _ => False
  end.

Definition num_le (x y : num) : Prop :=
  match x, y with
  | Fin a, Fin b => a <= b
  | _, _ => False
  end.

Definition num_lt (x y : num) : Prop :=
  match x, y with
  | Fin a, Fin b => a < b
  | _, _ => False
  end.

Definition is_fin (x : num) : Prop :=
  match x with
  | Fin _ => True
  | NaN => False
  end.

Declare Scope num_scope.
Delimit Scope num_scope with num.
Infix "==" := num_eq (at level 70, no associativity) : num_scope.
Infix "<=" := num_le : num_scope.
Infix "<" := num_lt : num_scope.
Notation "x <= y <= z" := (num_le x y /\ num_le y z) : num_scope.

(* ================================================================== *)
(** ** The arithmetic interface

    The operations the numeric kernels use, so that one definition can be
    read on exact cells ([num]) and on binary64 ([float]).  [lit q] is
    the value of a numeric literal of the source. *)
Class Arith (A : Type) : Type := {
  lit : Q -> A;
  nan : A;
  add : A -> A -> A;
  sub : A -> A -> A;
  mul : A -> A -> A;
  div : A -> A -> A;
  ltb : A -> A -> bool;
  isnan : A -> bool;
  isinf : A -> bool
}.

#[export] Instance num_arith : Arith num := {|
  lit := fun q => Fin (Qred q);
  nan := NaN;
  add := num_add;
  sub := num_sub;
  mul := num_mul;
  div := num_div;
  ltb := num_ltb;
  isnan := num_isnan;
  isinf := fun _ => false
|}.

(** Binary64: a literal [n/d] is the correctly rounded quotient of the two
    integers, which for the literals of the source (0.7, 0.2, 0.1, 10,
    2^-52, ...) is the float Python reads. *)
Definition float_of_Z (z : Z) : float :=
  match z with
  | Zneg p => PrimFloat.opp (PrimFloat.of_uint63 (Uint63.of_Z (Zpos p)))
  | _ => PrimFloat.of_uint63 (Uint63.of_Z z)
  end.

Definition float_lit (q : Q) : float :=
  PrimFloat.div (float_of_Z (Qnum q)) (float_of_Z (Zpos (Qden q))).

#[export] Instance binary64_arith : Arith float := {|
  lit := float_lit;
  nan := PrimFloat.nan;
  add := PrimFloat.add;
  sub := PrimFloat.sub;
  mul := PrimFloat.mul;
  div := PrimFloat.div;
  ltb := PrimFloat.ltb;
  isnan := PrimFloat.is_nan;
  isinf := PrimFloat.is_infinity
|}.

(* ================================================================== *)
(** ** scikit-learn: [MinMaxScaler] (default [feature_range=(0, 1)])

    [fit] computes, per column,
    [data_min = nanmin(X)], [data_max = nanmax(X)],
    [data_range = data_max - data_min],
    [scale_ = (1 - 0) / _handle_zeros_in_scale(data_range)],
    [min_ = 0 - data_min * scale_];
    [transform] maps every cell [x] to [x * scale_ + min_].
    [_handle_zeros_in_scale] replaces a range below [10 * eps] (a
    constant or near-constant column) by [1.0].  Input validation
    refuses an array with no rows and an array holding an infinity. *)
Section MinMaxScaler.
Context {A : Type} `{Arith A}.

(** [numpy.fmin] / [fmax] fold: NaN cells are skipped. *)
Definition fmin (m x : A) : A :=
  if isnan m then x else if ltb x m then x else m.
Definition fmax (m x : A) : A :=
  if isnan m then x else if ltb m x then x else m.

Definition nanmin (xs : list A) : A := fold_left fmin xs nan.
Definition nanmax (xs : list A) : A := fold_left fmax xs nan.

(** [np.finfo(np.float64).eps] *)
Definition eps : A := lit (1 # 4503599627370496).

Definition handle_zeros_in_scale (scale : A) : A :=
  if ltb scale (mul (lit 10) eps) then lit 1 else scale.

Record minmax_params : Type := {
  scale_ : A;
  min_ : A
}.

Definition fit (xs : list A) : minmax_params :=
  let data_min := nanmin xs in
  let data_max := nanmax xs in
  let data_range := sub data_max data_min in
  let scale := div (sub (lit 1) (lit 0)) (handle_zeros_in_scale data_range) in
  {| scale_ := scale;
     min_ := sub (lit 0) (mul data_min scale) |}.

Definition transform (p : minmax_params) (xs : list A) : list A :=
  map (fun x => add (mul x (scale_ p)) (min_ p)) xs.

(** [check_array]: no infinity (NaN is allowed), at least one sample. *)
Definition check_array (X : list (A * A * A)) : result unit :=
  if existsb (fun '(a, b, c) => isinf a || isinf b || isinf c) X
  then Raise (ValueError NotFinite)
  else match X with
       | [] => Raise (ValueError NoSamples)
       | _ :: _ => Ok tt
       end.

(** [MinMaxScaler().fit_transform(X)] on a three-column array, given by
    its rows. *)
Definition fit_transform (X : list (A * A * A)) : result (list (A * A * A)) :=
  _ <- check_array X ;;
  let c1 := map (fun r => fst (fst r)) X in
  let c2 := map (fun r => snd (fst r)) X in
  let c3 := map (fun r => snd r) X in
  Ok (combine (combine (transform (fit c1) c1) (transform (fit c2) c2))
              (transform (fit c3) c3)).

End MinMaxScaler.

(* ================================================================== *)
(** ** Python strings: [str.lower], [str.strip], [str.title],
       [str.replace]

    Strings are byte strings and case mapping is the ASCII one: on names
    written in ASCII the functions below are Python's; beyond ASCII
    Python follows the Unicode tables. *)

Definition is_upper (c : ascii) : bool :=
  let n := nat_of_ascii c in (65 <=? n)%nat && (n <=? 90)%nat.
Definition is_lower (c : ascii) : bool :=
  let n := nat_of_ascii c in (97 <=? n)%nat && (n <=? 122)%nat.
Definition to_lower (c : ascii) : ascii :=
  if is_upper c then ascii_of_nat (nat_of_ascii c + 32) else c.
Definition to_upper (c : ascii) : ascii :=
  if is_lower c then ascii_of_nat (nat_of_ascii c - 32) else c.

(** [str.isspace] on ASCII: TAB, LF, VT, FF, CR, FS, GS, RS, US, space. *)
Definition is_space (c : ascii) : bool :=
  let n := nat_of_ascii c in
  ((9 <=? n)%nat && (n <=? 13)%nat) || ((28 <=? n)%nat && (n <=? 32)%nat).

Fixpoint str_map (f : ascii -> ascii) (s : string) : string :=
  match s with
  | EmptyString => EmptyString
  | String c s' => String (f c) (str_map f s')
  end.

Definition str_lower : string -> string := str_map to_lower.

Fixpoint str_lstrip (s : string) : string :=
  match s with
  | EmptyString => EmptyString
  | String c s' => if is_space c then str_lstrip s' else s
  end.

Fixpoint str_rstrip (s : string) : string :=
  match s with
  | EmptyString => EmptyString
  | String c s' =>
      let r := str_rstrip s' in
      if is_space c && String.eqb r EmptyString then EmptyString else String c r
  end.

Definition str_strip (s : string) : string := str_rstrip (str_lstrip s).

(** [str.replace("_", " ")] *)
Definition str_replace_char (old new : ascii) : string -> string :=
  str_map (fun c => if Ascii.eqb c old then new else c).

(** [str.title]: the first letter of every run of letters in upper case,
    the other letters of the run in lower case. *)
Fixpoint str_title_from (previous_is_cased : bool) (s : string) : string :=
  match s with
  | EmptyString => EmptyString
  | String c s' =>
      if is_lower c then
        String (if previous_is_cased then c else to_upper c) (str_title_from true s')
      else if is_upper c then
        String (if previous_is_cased then to_lower c else c) (str_title_from true s')
      else String c (str_title_from false s')
  end.

Definition str_title : string -> string := str_title_from false.

(** The join key of the pipelines: [.str.lower().str.strip()]. *)
Definition normalize (s : string) : string := str_strip (str_lower s).

(* ================================================================== *)
(** ** pandas: the data-frame operations the pipelines call *)

(** [Series.mean()] of a column without missing cells; the mean of no
    cell is NaN. *)
Definition Qsum (xs : list Q) : Q := fold_left Qplus xs 0.

Definition mean (xs : list Q) : num :=
  match xs with
  | [] => NaN
  | _ :: _ => Fin (Qred (Qsum xs / inject_Z (Z.of_nat (List.length xs))))
  end.

(** A stable sort: insertion of every row, last to first, in front of the
    first row it may precede. *)
Fixpoint insert_sorted {T : Type} (before : T -> T -> bool) (x : T) (l : list T) : list T :=
  match l with
  | [] => [x]
  | y :: l' => if before x y then x :: l else y :: insert_sorted before x l'
  end.

Definition insertion_sort {T : Type} (before : T -> T -> bool) (l : list T) : list T :=
  fold_right (insert_sorted before) [] l.

(** [Series.unique()]: the distinct values in order of first appearance. *)
Fixpoint unique {K : Type} (eqb : K -> K -> bool) (ks : list K) : list K :=
  match ks with
  | [] => []
  | k :: ks' => k :: filter (fun k' => negb (eqb k' k)) (unique eqb ks')
  end.

(** [df.groupby(keys, as_index=False)[col].mean()]: one row per distinct
    key, keys in ascending order ([sort=True]), with the mean of the
    group's cells. *)
Definition groupby_mean {R K : Type} (eqb leb : K -> K -> bool)
    (key : R -> K) (col : R -> Q) (df : list R) : list (K * num) :=
  map (fun k => (k, mean (map col (filter (fun r => eqb (key r) k) df))))
      (insertion_sort leb (unique eqb (map key df))).

(** [left.merge(right, on=key, how="inner")]: for every left row, in
    order, its matches in the right frame, in order. *)
Definition merge_inner {L R : Type} (on : L -> R -> bool)
    (left : list L) (right : list R) : list (L * R) :=
  flat_map (fun l => map (pair l) (filter (on l) right)) left.

(** [how="left"]: a left row without a match is kept, with missing cells
    for the right columns. *)
Definition merge_left {L R : Type} (on : L -> R -> bool)
    (left : list L) (right : list R) : list (L * option R) :=
  flat_map (fun l =>
              match filter (on l) right with
              | [] => [(l, None)]
              | ms => map (fun r => (l, Some r)) ms
              end) left.

(** [how="cross"]: every left row with every right row. *)
Definition merge_cross {L R : Type} (left : list L) (right : list R) : list (L * R) :=
  flat_map (fun l => map (pair l) right) left.

(** [df.iloc[indexer]] for an indexer of valid positions. *)
Definition take {T : Type} (df : list T) (indexer : list nat) : list T :=
  flat_map (fun i => match nth_error df i with
                     | Some r => [r]
                     | None => []
                     end) indexer.

(** [df.groupby(key).head(n)]: the rows that are among the first [n] of
    their group, in frame order.  [seen] holds the keys of the rows
    already passed. *)
Fixpoint groupby_head_from {R K : Type} (eqb : K -> K -> bool) (key : R -> K)
    (n : nat) (seen : list K) (df : list R) : list R :=
  match df with
  | [] => []
  | r :: df' =>
      let cumcount := List.length (filter (eqb (key r)) seen) in
      let rest := groupby_head_from eqb key n (key r :: seen) df' in
      if (cumcount <? n)%nat then r :: rest else rest
  end.

Definition groupby_head {R K : Type} (eqb : K -> K -> bool) (key : R -> K)
    (n : nat) (df : list R) : list R :=
  groupby_head_from eqb key n [] df.

(** Orders on keys. *)
Definition str_leb (a b : string) : bool := String.leb a b.

Definition pair_eqb {K1 K2 : Type} (eqb1 : K1 -> K1 -> bool) (eqb2 : K2 -> K2 -> bool)
    (a b : K1 * K2) : bool :=
  eqb1 (fst a) (fst b) && eqb2 (snd a) (snd b).

Definition pair_leb {K1 K2 : Type} (eqb1 leb1 : K1 -> K1 -> bool) (leb2 : K2 -> K2 -> bool)
    (a b : K1 * K2) : bool :=
  if eqb1 (fst a) (fst b) then leb2 (snd a) (snd b) else leb1 (fst a) (fst b).

(** [sort_values(..., ascending=False)] compares cells in descending
    order with missing cells last ([na_position="last"]). *)
Definition num_desc_leb (x y : num) : bool :=
  match x, y with
  | Fin a, Fin b => Qle_bool b a
  | _, NaN => true
  | NaN, Fin _ => false
  end.

(* ================================================================== *)
(** ** The source tables

    The rows of the cleaned CSV files as [pd.read_csv] returns them.
    The files are taken to be complete: every cell is present, and a
    numeric cell is a number.  Missing cells only arise inside the
    pipelines, from left joins and from arithmetic. *)

(** A parsed date ([pd.to_datetime(..., dayfirst=True)]). *)
Record timestamp : Type := {
  ts_day : Z;
  ts_month : Z;
  ts_year : Z
}.

(** aqi_clean.csv *)
Module Aqi.
Record row : Type := {
  date : timestamp;
  state : string;
  area : string;
  aqi_value : Q
}.
End Aqi.

(** population_clean.csv; [has_month] tells whether the file has a
    [month] column, in which case [month] holds its cells. *)
Module Pop.
Record row : Type := {
  state : string;
  year : Z;
  month : string;
  pop_total : Q
}.
Record frame : Type := {
  has_month : bool;
  rows : list row
}.
End Pop.

(** mpce_clean.csv *)
Module Mpce.
Record row : Type := {
  State_UT : string;
  average_mpce_2023_2024_rural : Q;
  average_mpce_2023_2024_urban : Q;
  percentage_increase_mpce_2023_24_from_2022_23_rural : Q;
  percentage_increase_mpce_2023_24_from_2022_23_urban : Q
}.
End Mpce.

(** health_params_clean.csv *)
Module Hp.
Record row : Type := {
  outcome : string;
  rr_per_10ug : Q;
  baseline_incidence : Q;
  cost_min : Q;
  cost_mean : Q;
  cost_max : Q
}.
End Hp.

(* ================================================================== *)
(** ** state_risk.py *)

(** *** [annual_state_aqi_calendar] *)
Module AqiAnn.
Record row : Type := {
  state : string;
  year : Z;
  avg_aqi : num
}.
End AqiAnn.

Definition state_year_eqb : string * Z -> string * Z -> bool :=
  pair_eqb String.eqb Z.eqb.
Definition state_year_leb : string * Z -> string * Z -> bool :=
  pair_leb String.eqb str_leb Z.leb.

Definition annual_state_aqi_calendar (df_aqi : list Aqi.row) : list AqiAnn.row :=
  map (fun g => {| AqiAnn.state := fst (fst g);
                   AqiAnn.year := snd (fst g);
                   AqiAnn.avg_aqi := snd g |})
      (groupby_mean state_year_eqb state_year_leb
         (fun r => (Aqi.state r, ts_year (Aqi.date r))) Aqi.aqi_value df_aqi).

(** *** [project_mpce_2425] *)
Module MpceProj.
Record row : Type := {
  state : string;
  mpce_2024_25 : num
}.
End MpceProj.

Definition proj_rural_2425 (r : Mpce.row) : Q :=
  Mpce.average_mpce_2023_2024_rural r
  * (1 + Mpce.percentage_increase_mpce_2023_24_from_2022_23_rural r / 100).

Definition proj_urban_2425 (r : Mpce.row) : Q :=
  Mpce.average_mpce_2023_2024_urban r
  * (1 + Mpce.percentage_increase_mpce_2023_24_from_2022_23_urban r / 100).

Definition project_mpce_2425 (mpce_df : list Mpce.row) : list MpceProj.row :=
  map (fun r => {| MpceProj.state := normalize (Mpce.State_UT r);
                   MpceProj.mpce_2024_25 := mean [proj_rural_2425 r; proj_urban_2425 r] |})
      mpce_df.

(** *** [get_population_by_year] *)
Module PopYear.
Record row : Type := {
  state : string;
  population : num
}.
End PopYear.

Definition month_map : list (string * Z) :=
  [("january", 1); ("february", 2); ("march", 3); ("april", 4);
   ("may", 5); ("june", 6); ("july", 7); ("august", 8);
   ("september", 9); ("october", 10); ("november", 11); ("december", 12)]%Z%string.

(** [Series.map(dict)]: a key that is not in the dictionary maps to a
    missing cell. *)
Definition dict_get (d : list (string * Z)) (k : string) : option Z :=
  option_map snd (find (fun kv => String.eqb (fst kv) k) d).

(** [Series.max()] skips missing cells; it is missing when all are. *)
Definition series_max (xs : list (option Z)) : option Z :=
  fold_left (fun m x => match m, x with
                        | Some a, Some b => Some (Z.max a b)
                        | None, _ => x
                        | _, None => m
                        end) xs None.

(** [==] on cells: a missing cell is equal to nothing. *)
Definition cell_eqb (x y : option Z) : bool :=
  match x, y with
  | Some a, Some b => Z.eqb a b
  | _, _ => false
  end.

(** The month selection shared by the two pipelines: keep the rows of the
    latest month present in the frame. *)
Definition latest_month (df_year : list Pop.row) : list Pop.row :=
  let month_num := fun r => dict_get month_map (str_lower (Pop.month r)) in
  let max_m := series_max (map month_num df_year) in
  filter (fun r => cell_eqb (month_num r) max_m) df_year.

Definition normalize_pop_state (r : Pop.row) : Pop.row :=
  {| Pop.state := normalize (Pop.state r);
     Pop.year := Pop.year r;
     Pop.month := Pop.month r;
     Pop.pop_total := Pop.pop_total r |}.

Definition get_population_by_year (pop_df : Pop.frame) (year : Z) : list PopYear.row :=
  let df := map normalize_pop_state (Pop.rows pop_df) in
  let df_year := filter (fun r => Z.eqb (Pop.year r) year) df in
  let df_sel := if Pop.has_month pop_df then latest_month df_year else df_year in
  map (fun r => {| PopYear.state := Pop.state r;
                   PopYear.population := Fin (Pop.pop_total r) |}) df_sel.

(** *** [extract_high_aqi_areas] *)
Module Area.
Record row : Type := {
  state : string;
  area : string;
  avg_aqi : num
}.
End Area.

Definition state_area_eqb : string * string -> string * string -> bool :=
  pair_eqb String.eqb String.eqb.
Definition state_area_leb : string * string -> string * string -> bool :=
  pair_leb String.eqb str_leb str_leb.

(** [sort_values(["state", "avg_aqi"], ascending=[True, False])]: with
    several keys pandas sorts stably, by state ascending and then by
    average descending. *)
Definition state_asc_avg_desc (a b : Area.row) : bool :=
  if String.eqb (Area.state a) (Area.state b)
  then num_desc_leb (Area.avg_aqi a) (Area.avg_aqi b)
  else str_leb (Area.state a) (Area.state b).

(** [top_n] is a row count, a natural number (the callers pass
    non-negative literals). *)
Definition extract_high_aqi_areas (aqi_df : list Aqi.row) (states : list string)
    (year : Z) (top_n : nat) : list Area.row :=
  let df := map (fun r => {| Aqi.date := Aqi.date r;
                             Aqi.state := normalize (Aqi.state r);
                             Aqi.area := normalize (Aqi.area r);
                             Aqi.aqi_value := Aqi.aqi_value r |}) aqi_df in
  let df := filter (fun r => Z.eqb (ts_year (Aqi.date r)) year
                             && existsb (String.eqb (Aqi.state r)) states) df in
  let avg_area :=
    map (fun g => {| Area.state := fst (fst g);
                     Area.area := snd (fst g);
                     Area.avg_aqi := snd g |})
        (groupby_mean state_area_eqb state_area_leb
           (fun r => (Aqi.state r, Aqi.area r)) Aqi.aqi_value df) in
  let top_areas :=
    groupby_head String.eqb Area.state top_n
      (insertion_sort state_asc_avg_desc avg_area) in
  top_areas.

(** *** [compute_state_risk] *)

(** The weighted sum of the risk score:
    [w_aqi * aqi_n + w_pop * pop_n + w_mpce * (1 - mpce_n)]
    with [w_aqi, w_pop, w_mpce = 0.7, 0.2, 0.1]. *)
Section WeightedSum.
Context {A : Type} `{Arith A}.

Definition w_aqi : A := lit 0.7.
Definition w_pop : A := lit 0.2.
Definition w_mpce : A := lit 0.1.

Definition weighted_sum (aqi_n pop_n mpce_n : A) : A :=
  add (add (mul w_aqi aqi_n) (mul w_pop pop_n))
      (mul w_mpce (sub (lit 1) mpce_n)).

End WeightedSum.

Module Risk.
Record row : Type := {
  state : string;
  year : Z;
  avg_aqi : num;
  population : num;
  mpce_2024_25 : num;
  aqi_n : num;
  pop_n : num;
  mpce_n : num;
  risk_score : num
}.
End Risk.

Section StateRisk.

(** [numpy.argsort(kind="quicksort")], which [sort_values] on one column
    calls by default: the positions of the cells in ascending order of
    the cells.  numpy promises no order among equal cells for this kind,
    so the function is a parameter. *)
Variable argsort : list num -> list nat.

(** [df.sort_values(by, ascending=False)] on one column ([nargsort]): the
    rows without a missing key are reversed, sorted ascending through
    [argsort] and reversed again; the rows with a missing key follow. *)
Definition sort_values_desc {R : Type} (by_ : R -> num) (df : list R) : list R :=
  let non_nans := rev (filter (fun r => negb (num_isnan (by_ r))) df) in
  let nans := filter (fun r => num_isnan (by_ r)) df in
  rev (take non_nans (argsort (map by_ non_nans))) ++ nans.

(** The function reads the three CSV files itself; here they are its
    first three arguments.  It returns the risk table, the top areas of
    the [top_states] highest-risk states, and the top areas of all
    states.  The three counts are natural numbers (the callers pass
    non-negative literals). *)
Definition compute_state_risk (aqi_df : list Aqi.row) (pop_df : Pop.frame)
    (mpce_df : list Mpce.row) (target_year : Z)
    (top_states top_areas_per_state top_global_areas : nat)
  : result (list Risk.row * list Area.row * list Area.row) :=
  (* annualize AQI & filter to target year *)
  let aqi_ann := annual_state_aqi_calendar aqi_df in
  let aqi_target := filter (fun r => Z.eqb (AqiAnn.year r) target_year) aqi_ann in
  (* project MPCE & extract population *)
  let mpce_proj := project_mpce_2425 mpce_df in
  let pop_target := get_population_by_year pop_df target_year in
  (* merge all drivers *)
  let df :=
    merge_inner (fun ap m => String.eqb (AqiAnn.state (fst ap)) (MpceProj.state m))
      (merge_inner (fun a p => String.eqb (AqiAnn.state a) (PopYear.state p))
         aqi_target pop_target)
      mpce_proj in
  (* normalize each metric to [0, 1] *)
  scaled <- fit_transform
              (map (fun apm => (AqiAnn.avg_aqi (fst (fst apm)),
                                PopYear.population (snd (fst apm)),
                                MpceProj.mpce_2024_25 (snd apm))) df) ;;
  (* weighted-sum risk score *)
  let df :=
    map (fun row =>
           let apm := fst row in
           let n := snd row in
           {| Risk.state := AqiAnn.state (fst (fst apm));
              Risk.year := AqiAnn.year (fst (fst apm));
              Risk.avg_aqi := AqiAnn.avg_aqi (fst (fst apm));
              Risk.population := PopYear.population (snd (fst apm));
              Risk.mpce_2024_25 := MpceProj.mpce_2024_25 (snd apm);
              Risk.aqi_n := fst (fst n);
              Risk.pop_n := snd (fst n);
              Risk.mpce_n := snd n;
              Risk.risk_score := weighted_sum (fst (fst n)) (snd (fst n)) (snd n) |})
        (combine df scaled) in
  let risk_df := sort_values_desc Risk.risk_score df in
  (* identify top N high-risk states *)
  let high_states := map Risk.state (firstn top_states risk_df) in
  (* extract their top areas by avg AQI *)
  let areas_df :=
    extract_high_aqi_areas aqi_df high_states target_year top_areas_per_state in
  let all_states := unique String.eqb (map (fun r => normalize (Aqi.state r)) aqi_df) in
  let global_areas_df :=
    extract_high_aqi_areas aqi_df all_states target_year top_global_areas in
  Ok (risk_df, areas_df, global_areas_df).

End StateRisk.

(** A sorting function with the contract of [numpy.argsort], to run the
    pipeline on closed inputs: the positions sorted by insertion, equal
    cells kept in position order (as [kind="stable"] does). *)
Definition argsort_with (before : num -> num -> bool) (ks : list num) : list nat :=
  map fst (insertion_sort (fun a b => before (snd a) (snd b))
             (combine (seq 0 (List.length ks)) ks)).

Definition argsort_stable : list num -> list nat :=
  argsort_with (fun x y => negb (num_ltb y x)).

(* ================================================================== *)
(** ** health_cost_proj.py *)

Module Cost.
Record row : Type := {
  state : string;
  outcome : string;
  rr_per_10ug : num;
  baseline_incidence : num;
  cost_min : num;
  cost_mean : num;
  cost_max : num;
  avg_aqi : num;
  delta_aqi : num;
  population : num;
  rr_total : num;
  paf : num;
  attr_rate : num;
  attr_cases : num;
  cost_mean_total : num;
  cost_min_total : num;
  cost_max_total : num;
  cost_mean_person : num;
  cost_min_person : num;
  cost_max_person : num
}.
End Cost.

(** The annual AQI frame of the cost pipeline carries [delta_aqi]. *)
Module AqiDelta.
Record row : Type := {
  state : string;
  year : Z;
  avg_aqi : num;
  delta_aqi : num
}.
End AqiDelta.

(** A missing right row of a left join gives missing cells. *)
Definition cell_of {R : Type} (col : R -> num) (r : option R) : num :=
  match r with
  | Some r => col r
  | None => NaN
  end.

Section HealthCost.

(** The float power [x ** y] of numpy.  Its values are irrational in
    general, so the function is a parameter of the model. *)
Variable power : num -> num -> num.

(** The three frames read from [data_dir] are the last three arguments. *)
Definition compute_health_cost_impacts (target_year : Z) (cf_aqi : Q)
    (hp_df : list Hp.row) (pop_df : Pop.frame) (aqi_df : list Aqi.row)
  : list Cost.row :=
  (* standardize state names & dates *)
  let pop_rows := map normalize_pop_state (Pop.rows pop_df) in
  let aqi_df := map (fun r => {| Aqi.date := Aqi.date r;
                                 Aqi.state := normalize (Aqi.state r);
                                 Aqi.area := Aqi.area r;
                                 Aqi.aqi_value := Aqi.aqi_value r |}) aqi_df in
  (* filter population to target year *)
  let pop_year := filter (fun r => Z.eqb (Pop.year r) target_year) pop_rows in
  let pop_year := if Pop.has_month pop_df then latest_month pop_year else pop_year in
  let pop_year := map (fun r => {| PopYear.state := Pop.state r;
                                   PopYear.population := Fin (Pop.pop_total r) |})
                      pop_year in
  (* annual AQI per state *)
  let aqi_ann :=
    map (fun g => {| AqiDelta.state := fst (fst g);
                     AqiDelta.year := snd (fst g);
                     AqiDelta.avg_aqi := snd g;
                     AqiDelta.delta_aqi := num_sub (snd g) (Fin cf_aqi) |})
        (groupby_mean state_year_eqb state_year_leb
           (fun r => (Aqi.state r, ts_year (Aqi.date r))) Aqi.aqi_value aqi_df) in
  (* build state x outcome grid *)
  let aqi_target := filter (fun r => Z.eqb (AqiDelta.year r) target_year) aqi_ann in
  let states := unique String.eqb (map AqiDelta.state aqi_target) in
  let combo := merge_cross states hp_df in
  (* merge inputs *)
  let combo :=
    merge_left (fun sha p => String.eqb (fst (fst sha)) (PopYear.state p))
      (merge_left (fun sh a => String.eqb (fst sh) (AqiDelta.state a)) combo aqi_target)
      pop_year in
  map (fun row =>
         let state := fst (fst (fst row)) in
         let hp := snd (fst (fst row)) in
         let avg_aqi := cell_of AqiDelta.avg_aqi (snd (fst row)) in
         let delta_aqi := cell_of AqiDelta.delta_aqi (snd (fst row)) in
         let population := cell_of PopYear.population (snd row) in
         let rr_per_10ug := Fin (Hp.rr_per_10ug hp) in
         let baseline_incidence := Fin (Hp.baseline_incidence hp) in
         let cost_min := Fin (Hp.cost_min hp) in
         let cost_mean := Fin (Hp.cost_mean hp) in
         let cost_max := Fin (Hp.cost_max hp) in
         (* PAF & cases *)
         let rr_total := power rr_per_10ug (num_div delta_aqi (Fin 10)) in
         let paf := num_div (num_sub rr_total (Fin 1)) rr_total in
         let attr_rate := num_mul paf baseline_incidence in
         let attr_cases := num_div (num_mul attr_rate population) (Fin 100000) in
         {| Cost.state := str_title state;
            Cost.outcome := str_title (str_replace_char "_" " " (Hp.outcome hp));
            Cost.rr_per_10ug := rr_per_10ug;
            Cost.baseline_incidence := baseline_incidence;
            Cost.cost_min := cost_min;
            Cost.cost_mean := cost_mean;
            Cost.cost_max := cost_max;
            Cost.avg_aqi := avg_aqi;
            Cost.delta_aqi := delta_aqi;
            Cost.population := population;
            Cost.rr_total := rr_total;
            Cost.paf := paf;
            Cost.attr_rate := attr_rate;
            Cost.attr_cases := attr_cases;
            (* cost impacts (total) *)
            Cost.cost_mean_total := num_mul attr_cases cost_mean;
            Cost.cost_min_total := num_mul attr_cases cost_min;
            Cost.cost_max_total := num_mul attr_cases cost_max;
            (* cost impacts per person *)
            Cost.cost_mean_person := cost_mean;
            Cost.cost_min_person := cost_min;
            Cost.cost_max_person := cost_max |})
      combo.

End HealthCost.

(** An executable instance of the power, to run the pipeline on closed
    inputs.  It has the special cases of IEEE 754 ([x ** 0 = 1] for every
    [x], NaN included; [1 ** y = 1]); it is exact where the exponent is an
    integer; for a positive base and any other exponent it interpolates
    linearly between the two neighbouring integer powers. *)
Definition power_interp (x y : num) : num :=
  match x, y with
  | _, Fin e =>
      if Qeq_bool e 0 then Fin 1
      else match x with
           | NaN => NaN
           | Fin b =>
               if Qle_bool b 0 then
                 match Qred e with
                 | Qmake n 1 =>
                     if Qeq_bool b 0 && (n <? 0)%Z then NaN else Fin (Qred (b ^ n))
                 | _ => if Qeq_bool b 0 && Qle_bool 0 e then Fin 0 else NaN
                 end
               else
                 let n := Qfloor e in
                 Fin (Qred (b ^ n * (1 + (e - inject_Z n) * (b - 1))))
           end
  | Fin b, NaN => if Qeq_bool b 1 then Fin 1 else NaN
  | NaN, NaN => NaN
  end.

(* ================================================================== *)
(** ** The callers of the two pipelines *)

(** *** executive_summary.py, [app]: "Top 20 Polluted Areas Across India"

    [compute_state_risk(target_year=risk_year, top_states=0,
    top_areas_per_state=0, top_global_areas=1)]; of the three tables only
    the third is kept, and its [Area] and [State] columns are
    title-cased. *)
Definition title_area (r : Area.row) : Area.row :=
  {| Area.state := str_title (Area.state r);
     Area.area := str_title (Area.area r);
     Area.avg_aqi := Area.avg_aqi r |}.

Section ExecutiveSummary.
Variable argsort : list num -> list nat.

Definition executive_summary_global_areas (aqi_df : list Aqi.row) (pop_df : Pop.frame)
    (mpce_df : list Mpce.row) (risk_year : Z) : result (list Area.row) :=
  out <- compute_state_risk argsort aqi_df pop_df mpce_df risk_year 0 0 1 ;;
  let global_areas_df := snd out in
  Ok (map title_area global_areas_df).

End ExecutiveSummary.

(** *** market_prioritization.py, [app]: the national cost table
        [df_india] *)
Module India.
Record row : Type := {
  state : string;
  outcome : string;
  attr_cases : num;
  cost_min_person : num;
  cost_mean_person : num;
  cost_max_person : num
}.
End India.

(** [GroupBy.sum] skips missing cells; the sum of no cell is 0. *)
Definition groupby_sum (xs : list num) : num :=
  fold_left (fun acc x => if num_isnan x then acc else num_add acc x) xs (Fin 0).

(** [GroupBy.first]: the first cell of the group that is not missing. *)
Definition groupby_first (xs : list num) : num :=
  match filter (fun x => negb (num_isnan x)) xs with
  | x :: _ => x
  | [] => NaN
  end.

Definition state_outcome_eqb : string * string -> string * string -> bool :=
  pair_eqb String.eqb String.eqb.
Definition state_outcome_leb : string * string -> string * string -> bool :=
  pair_leb String.eqb str_leb str_leb.

Definition df_india (cost_df : list Cost.row) : list India.row :=
  (* .assign(state="India") *)
  let key := fun r : Cost.row => ("India"%string, Cost.outcome r) in
  (* .groupby(["state","outcome"], as_index=False).agg({...}) *)
  let agg :=
    map (fun k =>
           let g := filter (fun r => state_outcome_eqb (key r) k) cost_df in
           {| India.state := fst k;
              India.outcome := snd k;
              India.attr_cases := groupby_sum (map Cost.attr_cases g);
              India.cost_min_person := groupby_first (map Cost.cost_min_person g);
              India.cost_mean_person := groupby_first (map Cost.cost_mean_person g);
              India.cost_max_person := groupby_first (map Cost.cost_max_person g) |})
        (insertion_sort state_outcome_leb
           (unique state_outcome_eqb (map key cost_df))) in
  (* .query("attr_cases > 0") *)
  let agg := filter (fun r => num_ltb (Fin 0) (India.attr_cases r)) agg in
  (* .dropna(subset=[...], how="all") *)
  filter (fun r => negb (num_isnan (India.cost_min_person r)
                         && num_isnan (India.cost_mean_person r)
                         && num_isnan (India.cost_max_person r))) agg.

(* ================================================================== *)
(** ** Sample tables

    Small closed inputs on which the definitions are run. *)

Definition mk_date (d m y : Z) : timestamp :=
  {| ts_day := d; ts_month := m; ts_year := y |}.

Definition reading (d m y : Z) (state area : string) (v : Q) : Aqi.row :=
  {| Aqi.date := mk_date d m y; Aqi.state := state; Aqi.area := area; Aqi.aqi_value := v |}.

Definition census (state : string) (y : Z) (month : string) (p : Q) : Pop.row :=
  {| Pop.state := state; Pop.year := y; Pop.month := month; Pop.pop_total := p |}.

Definition spending (state : string) (rural urban pct_rural pct_urban : Q) : Mpce.row :=
  {| Mpce.State_UT := state;
     Mpce.average_mpce_2023_2024_rural := rural;
     Mpce.average_mpce_2023_2024_urban := urban;
     Mpce.percentage_increase_mpce_2023_24_from_2022_23_rural := pct_rural;
     Mpce.percentage_increase_mpce_2023_24_from_2022_23_urban := pct_urban |}.

Definition sample_aqi : list Aqi.row :=
  [ reading 1 1 2025 "delhi" "Anand Vihar " 300;
    reading 2 1 2025 "delhi" "anand vihar" 320;
    reading 2 1 2025 "delhi" "rohini" 200;
    reading 1 1 2025 "kerala" "kochi" 35;
    reading 1 1 2025 "goa" "panaji" 55;
    reading 1 1 2024 "goa" "panaji" 80 ].

Definition sample_pop : Pop.frame :=
  {| Pop.has_month := true;
     Pop.rows := [ census "Delhi" 2025 "March" 20000;
                   census "Delhi" 2025 "January" 19000;
                   census " Kerala" 2025 "march" 35000;
                   census "Goa" 2025 "March" 1500 ] |}.

Definition sample_mpce : list Mpce.row :=
  [ spending "Delhi" 6000 8000 10 5;
    spending "Kerala" 5000 7000 8 4;
    spending "Goa " 7000 9000 6 3 ].

Definition hp_heart : Hp.row :=
  {| Hp.outcome := "heart_disease"; Hp.rr_per_10ug := 1.08;
     Hp.baseline_incidence := 500;
     Hp.cost_min := 100; Hp.cost_mean := 200; Hp.cost_max := 300 |}.

Definition hp_asthma : Hp.row :=
  {| Hp.outcome := "asthma"; Hp.rr_per_10ug := 1.05;
     Hp.baseline_incidence := 900;
     Hp.cost_min := 10; Hp.cost_mean := 20; Hp.cost_max := 30 |}.

Definition sample_hp : list Hp.row := [hp_heart; hp_asthma].

(* ================================================================== *)
(** ** Views of the pipelines

    The frames and relations the statements below speak about. *)

(** The interval [[0, 1]] of cells. *)
Definition in_unit_interval (x : num) : Prop := (Fin 0 <= x <= Fin 1)%num.

(** The frames inside [compute_state_risk], named so that statements can
    speak about them: the joined drivers, the array handed to the scaler,
    and the row built from a joined row and its three scaled cells. *)
Definition joined_row : Type := (AqiAnn.row * PopYear.row * MpceProj.row)%type.

Definition drivers (aqi_df : list Aqi.row) (pop_df : Pop.frame)
    (mpce_df : list Mpce.row) (target_year : Z) : list joined_row :=
  merge_inner (fun ap m => String.eqb (AqiAnn.state (fst ap)) (MpceProj.state m))
    (merge_inner (fun a p => String.eqb (AqiAnn.state a) (PopYear.state p))
       (filter (fun r => Z.eqb (AqiAnn.year r) target_year)
          (annual_state_aqi_calendar aqi_df))
       (get_population_by_year pop_df target_year))
    (project_mpce_2425 mpce_df).

Definition metrics (apm : joined_row) : num * num * num :=
  (AqiAnn.avg_aqi (fst (fst apm)),
   PopYear.population (snd (fst apm)),
   MpceProj.mpce_2024_25 (snd apm)).

Definition scored_row (row : joined_row * (num * num * num)) : Risk.row :=
  let apm := fst row in
  let n := snd row in
  {| Risk.state := AqiAnn.state (fst (fst apm));
     Risk.year := AqiAnn.year (fst (fst apm));
     Risk.avg_aqi := AqiAnn.avg_aqi (fst (fst apm));
     Risk.population := PopYear.population (snd (fst apm));
     Risk.mpce_2024_25 := MpceProj.mpce_2024_25 (snd apm);
     Risk.aqi_n := fst (fst n);
     Risk.pop_n := snd (fst n);
     Risk.mpce_n := snd n;
     Risk.risk_score := weighted_sum (fst (fst n)) (snd (fst n)) (snd n) |}.

(** One cell through a fitted scaler. *)
Definition rescale (p : minmax_params) (x : num) : num :=
  add (mul x (scale_ p)) (min_ p).

(** The three scaled cells of a row of the array [X]. *)
Definition scaled_cells (X : list (num * num * num)) (r : num * num * num)
  : num * num * num :=
  (rescale (fit (map (fun r => fst (fst r)) X)) (fst (fst r)),
   rescale (fit (map (fun r => snd (fst r)) X)) (snd (fst r)),
   rescale (fit (map (fun r => snd r) X)) (snd r)).

(** The risk frame before it is sorted. *)
Definition scored_frame (D : list joined_row) : list Risk.row :=
  map (fun apm => scored_row (apm, scaled_cells (map metrics D) (metrics apm))) D.

(** [descending by_ a b]: row [a] may stand before row [b] in a frame
    sorted by [by_] in descending order, missing keys last. *)
Definition descending {R : Type} (by_ : R -> num) (a b : R) : Prop :=
  num_desc_leb (by_ a) (by_ b) = true.

(** The result holds every position once, and on cells that are numbers
    it lists them in ascending order. *)
Record argsort_contract (argsort : list num -> list nat) : Prop := {
  argsort_perm :
    forall ks, Permutation (argsort ks) (seq 0 (List.length ks));
  argsort_sorted :
    forall ks, Forall is_fin ks -> StronglySorted num_le (take ks (argsort ks))
}.

(** The threshold of [_handle_zeros_in_scale], [10 * eps], as a number. *)
Definition near_constant : Q := 10 * (1 # 4503599627370496).

Inductive metric : Type :=
| AvgAqi        (* avg_aqi      -> aqi_n  *)
| Population    (* population   -> pop_n  *)
| Mpce.         (* mpce_2024_25 -> mpce_n *)

Definition raw (c : metric) (r : Risk.row) : num :=
  match c with
  | AvgAqi => Risk.avg_aqi r
  | Population => Risk.population r
  | Mpce => Risk.mpce_2024_25 r
  end.

Definition normalized (c : metric) (r : Risk.row) : num :=
  match c with
  | AvgAqi => Risk.aqi_n r
  | Population => Risk.pop_n r
  | Mpce => Risk.mpce_n r
  end.

Definition cell (c : metric) (t : num * num * num) : num :=
  match c with
  | AvgAqi => fst (fst t)
  | Population => snd (fst t)
  | Mpce => snd t
  end.

(** The projected value of an expenditure row as the specification
    states it: the mean of [base * (1 + pct / 100)] over the rural and
    the urban segment. *)
Definition projected_mpce (r : Mpce.row) : Q :=
  (Mpce.average_mpce_2023_2024_rural r
     * (1 + Mpce.percentage_increase_mpce_2023_24_from_2022_23_rural r / 100)
   + Mpce.average_mpce_2023_2024_urban r
     * (1 + Mpce.percentage_increase_mpce_2023_24_from_2022_23_urban r / 100))
  / 2.

(** The frames inside the function: the annual AQI of the target year
    with its delta, the states of the grid, the grid after the two left
    joins, and the output row built from a grid row. *)
Definition cost_aqi_target (target_year : Z) (cf_aqi : Q) (aqi_df : list Aqi.row)
  : list AqiDelta.row :=
  filter (fun r => Z.eqb (AqiDelta.year r) target_year)
    (map (fun g => {| AqiDelta.state := fst (fst g);
                      AqiDelta.year := snd (fst g);
                      AqiDelta.avg_aqi := snd g;
                      AqiDelta.delta_aqi := num_sub (snd g) (Fin cf_aqi) |})
       (groupby_mean state_year_eqb state_year_leb
          (fun r => (Aqi.state r, ts_year (Aqi.date r))) Aqi.aqi_value
          (map (fun r => {| Aqi.date := Aqi.date r;
                            Aqi.state := normalize (Aqi.state r);
                            Aqi.area := Aqi.area r;
                            Aqi.aqi_value := Aqi.aqi_value r |}) aqi_df))).

Definition cost_states (target_year : Z) (cf_aqi : Q) (aqi_df : list Aqi.row)
  : list string :=
  unique String.eqb (map AqiDelta.state (cost_aqi_target target_year cf_aqi aqi_df)).

Definition grid_row : Type :=
  (string * Hp.row * option AqiDelta.row * option PopYear.row)%type.

Definition cost_grid (target_year : Z) (cf_aqi : Q)
    (hp_df : list Hp.row) (pop_df : Pop.frame) (aqi_df : list Aqi.row)
  : list grid_row :=
  merge_left (fun sha p => String.eqb (fst (fst sha)) (PopYear.state p))
    (merge_left (fun sh a => String.eqb (fst sh) (AqiDelta.state a))
       (merge_cross (cost_states target_year cf_aqi aqi_df) hp_df)
       (cost_aqi_target target_year cf_aqi aqi_df))
    (get_population_by_year pop_df target_year).

Definition cost_row (power : num -> num -> num) (row : grid_row) : Cost.row :=
  let state := fst (fst (fst row)) in
  let hp := snd (fst (fst row)) in
  let avg_aqi := cell_of AqiDelta.avg_aqi (snd (fst row)) in
  let delta_aqi := cell_of AqiDelta.delta_aqi (snd (fst row)) in
  let population := cell_of PopYear.population (snd row) in
  let rr_per_10ug := Fin (Hp.rr_per_10ug hp) in
  let baseline_incidence := Fin (Hp.baseline_incidence hp) in
  let cost_min := Fin (Hp.cost_min hp) in
  let cost_mean := Fin (Hp.cost_mean hp) in
  let cost_max := Fin (Hp.cost_max hp) in
  let rr_total := power rr_per_10ug (num_div delta_aqi (Fin 10)) in
  let paf := num_div (num_sub rr_total (Fin 1)) rr_total in
  let attr_rate := num_mul paf baseline_incidence in
  let attr_cases := num_div (num_mul attr_rate population) (Fin 100000) in
  {| Cost.state := str_title state;
     Cost.outcome := str_title (str_replace_char "_" " " (Hp.outcome hp));
     Cost.rr_per_10ug := rr_per_10ug;
     Cost.baseline_incidence := baseline_incidence;
     Cost.cost_min := cost_min;
     Cost.cost_mean := cost_mean;
     Cost.cost_max := cost_max;
     Cost.avg_aqi := avg_aqi;
     Cost.delta_aqi := delta_aqi;
     Cost.population := population;
     Cost.rr_total := rr_total;
     Cost.paf := paf;
     Cost.attr_rate := attr_rate;
     Cost.attr_cases := attr_cases;
     Cost.cost_mean_total := num_mul attr_cases cost_mean;
     Cost.cost_min_total := num_mul attr_cases cost_min;
     Cost.cost_max_total := num_mul attr_cases cost_max;
     Cost.cost_mean_person := cost_mean;
     Cost.cost_min_person := cost_min;
     Cost.cost_max_person := cost_max |}.

(** [x ** 0 = 1] for every [x] (IEEE 754 [pow]). *)
Definition power_zero_exponent (power : num -> num -> num) : Prop :=
  forall x q, q == 0 -> power x (Fin q) = Fin 1.

(** [area_order a b]: [a] may stand before [b] in a frame sorted by state
    ascending and, within a state, by average AQI descending. *)
Definition area_order (a b : Area.row) : Prop :=
  String.compare (Area.state a) (Area.state b) = Lt \/
  (Area.state a = Area.state b /\ descending Area.avg_aqi a b).

(** The distinct states with an AQI reading in the target year. *)
Definition states_with_aqi (aqi_df : list Aqi.row) (target_year : Z) : list string :=
  unique String.eqb
    (map (fun r => normalize (Aqi.state r))
       (filter (fun r => Z.eqb (ts_year (Aqi.date r)) target_year) aqi_df)).

(** *** Views of the helper functions and of the callers *)

(** A string of blanks only. *)
Fixpoint all_space (s : string) : bool :=
  match s with
  | EmptyString => true
  | String c s' => is_space c && all_space s'
  end.

(** The month number [get_population_by_year] gives a population row:
    [month_map] at the lower-cased month name. *)
Definition month_number (r : Pop.row) : option Z :=
  dict_get month_map (str_lower (Pop.month r)).

(** The order of the keys of the annual AQI frame: by state, then by
    year. *)
Definition state_year_order (a b : string * Z) : Prop :=
  String.compare (fst a) (fst b) = Lt \/ (fst a = fst b /\ (snd a <= snd b)%Z).

(** The readings of a state, as spelled in the file, in a year. *)
Definition readings_of (df_aqi : list Aqi.row) (s : string) (y : Z) : list Q :=
  map Aqi.aqi_value
    (filter (fun r => String.eqb (Aqi.state r) s && Z.eqb (ts_year (Aqi.date r)) y)
       df_aqi).

(** The readings of a state in a year, the state compared by its
    normalized name. *)
Definition normalized_readings_of (aqi_df : list Aqi.row) (s : string) (y : Z) : list Q :=
  map Aqi.aqi_value
    (filter (fun r => String.eqb (normalize (Aqi.state r)) s
                      && Z.eqb (ts_year (Aqi.date r)) y)
       aqi_df).

(** The frame [avg_area] inside [extract_high_aqi_areas]: the average
    AQI of every area of the given states in the year. *)
Definition area_averages (aqi_df : list Aqi.row) (states : list string) (year : Z)
  : list Area.row :=
  map (fun g => {| Area.state := fst (fst g);
                   Area.area := snd (fst g);
                   Area.avg_aqi := snd g |})
      (groupby_mean state_area_eqb state_area_leb
         (fun r => (Aqi.state r, Aqi.area r)) Aqi.aqi_value
         (filter (fun r => Z.eqb (ts_year (Aqi.date r)) year
                           && existsb (String.eqb (Aqi.state r)) states)
            (map (fun r => {| Aqi.date := Aqi.date r;
                              Aqi.state := normalize (Aqi.state r);
                              Aqi.area := normalize (Aqi.area r);
                              Aqi.aqi_value := Aqi.aqi_value r |}) aqi_df))).

(** The readings of an area of a state in a year, state and area compared
    by their normalized names. *)
Definition area_readings_of (aqi_df : list Aqi.row) (s a : string) (y : Z) : list Q :=
  map Aqi.aqi_value
    (filter (fun r => String.eqb (normalize (Aqi.state r)) s
                      && String.eqb (normalize (Aqi.area r)) a
                      && Z.eqb (ts_year (Aqi.date r)) y)
       aqi_df).

(** The states handed to the extraction of the global areas. *)
Definition all_states (aqi_df : list Aqi.row) : list string :=
  unique String.eqb (map (fun r => normalize (Aqi.state r)) aqi_df).

(** The outcome name of a reference row as the cost table shows it. *)
Definition display_outcome (h : Hp.row) : string :=
  str_title (str_replace_char "_" " " (Hp.outcome h)).

(** [unless_nan P x]: the cell [x] is non-numeric, or it is a number with
    the property [P].  (An overflow of float64 gives an infinity, one of
    the non-numeric values of the model.) *)
Definition unless_nan (P : Q -> Prop) (x : num) : Prop :=
  match x with
  | Fin q => P q
  | NaN => True
  end.

(** A base of at least 1 to an exponent of zero or more is at least 1,
    unless it overflows; to an exponent of zero or less it lies between
    0 and 1 (it may underflow to 0).  The float power has this law as
    soon as its error is below one unit in the last place, since 1 is a
    float. *)
Definition power_from_one (power : num -> num -> num) : Prop :=
  forall x y : Q, 1 <= x ->
    (0 <= y -> unless_nan (fun v => 1 <= v) (power (Fin x) (Fin y))) /\
    (y <= 0 -> unless_nan (fun v => 0 <= v <= 1) (power (Fin x) (Fin y))).

(** A name written in ASCII.  On such names [str_lower], [str_strip] and
    [str_title] are Python's [str.lower], [str.strip] and [str.title];
    beyond ASCII Python maps case by the Unicode tables, which the byte
    strings of the model do not have. *)
Definition is_ascii_char (c : ascii) : bool := (nat_of_ascii c <? 128)%nat.

Fixpoint ascii_name (s : string) : bool :=
  match s with
  | EmptyString => true
  | String c s' => is_ascii_char c && ascii_name s'
  end.


(** The number of rows a state has in the population frame selected for
    the year. *)
Definition selected_population_rows (pop_df : Pop.frame) (target_year : Z) (s : string)
  : nat :=
  List.length (filter (fun p => String.eqb s (PopYear.state p))
                 (get_population_by_year pop_df target_year)).

(** What a left join pairs a left row with: its matches in the right
    frame, or one missing row when it has none. *)
Definition left_matches {R : Type} (matches : R -> bool) (right : list R)
  : list (option R) :=
  match filter matches right with
  | [] => [None]
  | ms => map Some ms
  end.

(* ================================================================== *)
(** ** Closed tables and the rows the pipelines produce on them *)

Definition risk_of (state : string) (avg_aqi population mpce aqi_n pop_n mpce_n score : Q)
  : Risk.row :=
  {| Risk.state := state; Risk.year := 2025;
     Risk.avg_aqi := Fin avg_aqi; Risk.population := Fin population;
     Risk.mpce_2024_25 := Fin mpce;
     Risk.aqi_n := Fin aqi_n; Risk.pop_n := Fin pop_n; Risk.mpce_n := Fin mpce_n;
     Risk.risk_score := Fin score |}.

Definition area_of (state area : string) (avg_aqi : Q) : Area.row :=
  {| Area.state := state; Area.area := area; Area.avg_aqi := Fin avg_aqi |}.

Definition sample_delhi : Risk.row :=
  risk_of "delhi" (820 # 3) 20000 7500 1 (37 # 67) (232 # 401) (114533 # 134335).
Definition sample_kerala : Risk.row :=
  risk_of "kerala" 35 35000 6340 0 1 0 0.3.
Definition sample_goa : Risk.row :=
  risk_of "goa" 55 1500 8345 (12 # 143) 0 1 (42 # 715).

Definition sample_risk_df : list Risk.row :=
  [sample_delhi; sample_kerala; sample_goa].

Definition sample_areas_df : list Area.row :=
  [ area_of "delhi" "anand vihar" 310; area_of "delhi" "rohini" 200;
    area_of "goa" "panaji" 55; area_of "kerala" "kochi" 35 ].

(** *** Three states with the same population *)






(** goa has AQI readings in 2024 that average to the counterfactual 35,
    and a population; kerala has readings but no population row. *)
Definition cost_aqi : list Aqi.row :=
  [ reading 1 1 2024 "Goa" "panaji" 30;
    reading 2 1 2024 "goa " "panaji" 40;
    reading 1 1 2024 "Kerala" "kochi" 35;
    reading 1 1 2023 "Delhi" "rohini" 300 ].

Definition cost_pop : Pop.frame :=
  {| Pop.has_month := true;
     Pop.rows := [ census "Goa" 2024 "December" 1500;
                   census "Goa" 2024 "June" 1400;
                   census "Delhi" 2024 "December" 20000 ] |}.

Definition cost_of (state outcome : string) (hp : Hp.row)
    (avg_aqi delta_aqi population rr_total paf attr_rate attr_cases : num)
  : Cost.row :=
  {| Cost.state := state; Cost.outcome := outcome;
     Cost.rr_per_10ug := Fin (Hp.rr_per_10ug hp);
     Cost.baseline_incidence := Fin (Hp.baseline_incidence hp);
     Cost.cost_min := Fin (Hp.cost_min hp);
     Cost.cost_mean := Fin (Hp.cost_mean hp);
     Cost.cost_max := Fin (Hp.cost_max hp);
     Cost.avg_aqi := avg_aqi; Cost.delta_aqi := delta_aqi;
     Cost.population := population;
     Cost.rr_total := rr_total; Cost.paf := paf;
     Cost.attr_rate := attr_rate; Cost.attr_cases := attr_cases;
     Cost.cost_mean_total := num_mul attr_cases (Fin (Hp.cost_mean hp));
     Cost.cost_min_total := num_mul attr_cases (Fin (Hp.cost_min hp));
     Cost.cost_max_total := num_mul attr_cases (Fin (Hp.cost_max hp));
     Cost.cost_mean_person := Fin (Hp.cost_mean hp);
     Cost.cost_min_person := Fin (Hp.cost_min hp);
     Cost.cost_max_person := Fin (Hp.cost_max hp) |}.

Definition goa_heart : Cost.row :=
  cost_of "Goa" "Heart Disease" hp_heart
          (Fin 35) (Fin 0) (Fin 1500) (Fin 1) (Fin 0) (Fin 0) (Fin 0).
Definition goa_asthma : Cost.row :=
  cost_of "Goa" "Asthma" hp_asthma
          (Fin 35) (Fin 0) (Fin 1500) (Fin 1) (Fin 0) (Fin 0) (Fin 0).
Definition kerala_heart : Cost.row :=
  cost_of "Kerala" "Heart Disease" hp_heart
          (Fin 35) (Fin 0) NaN (Fin 1) (Fin 0) (Fin 0) NaN.
Definition kerala_asthma : Cost.row :=
  cost_of "Kerala" "Asthma" hp_asthma
          (Fin 35) (Fin 0) NaN (Fin 1) (Fin 0) (Fin 0) NaN.

(** goa has two population rows for the latest month of 2024. *)
Definition dup_pop : Pop.frame :=
  {| Pop.has_month := true;
     Pop.rows := [ census "Goa" 2024 "December" 1500;
                   census "goa " 2024 "december" 1505;
                   census "Goa" 2024 "June" 1400 ] |}.

(** *** Tables for the join *)

(** No state has all three inputs: goa has AQI and expenditure, kerala
    population and expenditure. *)
Definition apart_aqi : list Aqi.row := [ reading 1 1 2025 "goa" "panaji" 55 ].
Definition apart_pop : Pop.frame :=
  {| Pop.has_month := false; Pop.rows := [ census "kerala" 2025 EmptyString 35000 ] |}.
Definition apart_mpce : list Mpce.row :=
  [ spending "goa" 7000 9000 6 3; spending "kerala" 5000 7000 8 4 ].

(** The AQI file spells Delhi with a capital. *)
Definition capital_aqi : list Aqi.row :=
  [ reading 1 1 2025 "Delhi" "rohini" 300; reading 1 1 2025 "goa" "panaji" 55 ].
Definition capital_pop : Pop.frame :=
  {| Pop.has_month := false;
     Pop.rows := [ census "Delhi" 2025 EmptyString 20000; census "Goa" 2025 EmptyString 1500 ] |}.
Definition capital_mpce : list Mpce.row :=
  [ spending "Delhi" 6000 8000 10 5; spending "Goa" 7000 9000 6 3 ].

(** *** Tables for the month selection, the sign of the cases and binary64 *)

(** The months are abbreviated or carry a blank: none is a key of
    [month_map]. *)
Definition abbrev_pop : Pop.frame :=
  {| Pop.has_month := true;
     Pop.rows := [ census "Delhi" 2025 "Mar" 20000;
                   census "Goa" 2025 " March" 1500 ] |}.

(** Kerala's latest row of 2025 is of January, the others' of March. *)
Definition lag_pop : Pop.frame :=
  {| Pop.has_month := true;
     Pop.rows := [ census "Delhi" 2025 "March" 20000;
                   census "Kerala" 2025 "January" 35000;
                   census "Goa" 2025 "March" 1500 ] |}.

(** Delhi averages 45 in 2024, ten above the counterfactual 35; Goa
    averages 25, ten below it. *)
Definition warm_aqi : list Aqi.row :=
  [ reading 1 1 2024 "Delhi" "rohini" 40;
    reading 2 1 2024 "delhi" "rohini" 50;
    reading 1 1 2024 "Goa" "panaji" 25 ].

Definition warm_pop : Pop.frame :=
  {| Pop.has_month := false;
     Pop.rows := [ census "Delhi" 2024 EmptyString 20000;
                   census "Goa" 2024 EmptyString 1500 ] |}.

Definition delhi_heart_warm : Cost.row :=
  cost_of "Delhi" "Heart Disease" hp_heart
          (Fin 45) (Fin 10) (Fin 20000)
          (Fin (27 # 25)) (Fin (2 # 27)) (Fin (1000 # 27)) (Fin (200 # 27)).

Definition goa_heart_warm : Cost.row :=
  cost_of "Goa" "Heart Disease" hp_heart
          (Fin 25) (Fin (-10)) (Fin 1500)
          (Fin (25 # 27)) (Fin (-2 # 25)) (Fin (-40)) (Fin (-3 # 5)).




(** A column of populations in binary64. *)
Definition population_column : list float :=
  map float_lit [1500; 20000; 35000].

(* ================================================================== *)
(** * Properties *)

(** ** Cells *)

Lemma Qred_eq_of_Qeq (a b : Q) : a == b -> Fin (Qred a) = Fin (Qred b).
Proof. intros E. f_equal. now apply Qred_complete. Qed.

Lemma num_ltb_fin (a b : Q) : num_ltb (Fin a) (Fin b) = true <-> a < b.
Proof.
  simpl. rewrite negb_true_iff. split.
  - intros E. apply Qnot_le_lt. intros L. apply Qle_bool_iff in L. congruence.
  - intros L. destruct (Qle_bool b a) eqn:E; [|reflexivity].
    apply Qle_bool_iff in E. exfalso. eapply Qlt_not_le; eauto.
Qed.

Lemma num_ltb_fin_false (a b : Q) : num_ltb (Fin a) (Fin b) = false <-> b <= a.
Proof.
  simpl. rewrite negb_false_iff. apply Qle_bool_iff.
Qed.

(** ** Lists *)

Lemma In_take {T : Type} (df : list T) (indexer : list nat) (r : T) :
  In r (take df indexer) -> In r df.
Proof.
  unfold take. rewrite in_flat_map. intros (i & _ & Hi).
  destruct (nth_error df i) eqn:E; simpl in Hi; [|contradiction].
  destruct Hi as [<- | []]. eapply nth_error_In; eauto.
Qed.

Lemma In_sort_values_desc {R : Type} (argsort : list num -> list nat)
    (by_ : R -> num) (df : list R) (r : R) :
  In r (sort_values_desc argsort by_ df) -> In r df.
Proof.
  unfold sort_values_desc. rewrite in_app_iff, <- in_rev.
  intros [Hin | Hin].
  - apply In_take in Hin. rewrite <- in_rev in Hin.
    apply filter_In in Hin. tauto.
  - apply filter_In in Hin. tauto.
Qed.

Lemma combine_map_right {T U : Type} (g : T -> U) (l : list T) :
  combine l (map g l) = map (fun x => (x, g x)) l.
Proof. induction l; simpl; congruence. Qed.

(** ** Reading [compute_state_risk] *)

Lemma compute_state_risk_unfold (argsort : list num -> list nat)
    (aqi_df : list Aqi.row) (pop_df : Pop.frame) (mpce_df : list Mpce.row)
    (target_year : Z) (top_states top_areas_per_state top_global_areas : nat) :
  compute_state_risk argsort aqi_df pop_df mpce_df target_year
    top_states top_areas_per_state top_global_areas =
  (scaled <- fit_transform (map metrics (drivers aqi_df pop_df mpce_df target_year)) ;;
   let risk_df :=
     sort_values_desc argsort Risk.risk_score
       (map scored_row (combine (drivers aqi_df pop_df mpce_df target_year) scaled)) in
   Ok (risk_df,
       extract_high_aqi_areas aqi_df (map Risk.state (firstn top_states risk_df))
         target_year top_areas_per_state,
       extract_high_aqi_areas aqi_df
         (unique String.eqb (map (fun r => normalize (Aqi.state r)) aqi_df))
         target_year top_global_areas)).
Proof. reflexivity. Qed.

(** On exact cells validation only refuses the empty array, and the
    scaled array pairs up the three rescaled columns. *)
Lemma fit_transform_num (X : list (num * num * num)) :
  fit_transform X =
  match X with
  | [] => Raise (ValueError NoSamples)
  | _ :: _ => Ok (map (scaled_cells X) X)
  end.
Proof.
  unfold fit_transform, check_array.
  assert (E : existsb (fun '(a, b, c) => isinf a || isinf b || isinf c) X = false).
  { induction X as [|[[a b] c] X IH]; simpl; auto. }
  rewrite E. destruct X as [|x X]; [reflexivity|].
  cbv beta iota delta [bind]. f_equal.
  unfold transform. set (l := x :: X). rewrite !map_map.
  assert (G : forall (f1 f2 f3 : num -> num) (l : list (num * num * num)),
           combine (combine (map (fun r => f1 (fst (fst r))) l) (map (fun r => f2 (snd (fst r))) l))
                   (map (fun r => f3 (snd r)) l)
           = map (fun r => (f1 (fst (fst r)), f2 (snd (fst r)), f3 (snd r))) l).
  { intros f1 f2 f3 l0. induction l0; simpl; congruence. }
  exact (G (rescale (fit (map (fun r => fst (fst r)) l)))
            (rescale (fit (map (fun r => snd (fst r)) l)))
            (rescale (fit (map (fun r => snd r) l))) l).
Qed.

Lemma compute_state_risk_ok (argsort : list num -> list nat)
    (aqi_df : list Aqi.row) (pop_df : Pop.frame) (mpce_df : list Mpce.row)
    (target_year : Z) (top_states top_areas_per_state top_global_areas : nat)
    (risk_df : list Risk.row) (areas_df global_areas_df : list Area.row) :
  compute_state_risk argsort aqi_df pop_df mpce_df target_year
    top_states top_areas_per_state top_global_areas
  = Ok (risk_df, areas_df, global_areas_df) ->
  drivers aqi_df pop_df mpce_df target_year <> [] /\
  risk_df = sort_values_desc argsort Risk.risk_score
              (scored_frame (drivers aqi_df pop_df mpce_df target_year)).
Proof.
  rewrite compute_state_risk_unfold, fit_transform_num.
  unfold scored_frame.
  set (D := drivers aqi_df pop_df mpce_df target_year).
  destruct (map metrics D) eqn:EX.
  - discriminate.
  - rewrite <- EX. cbv beta iota delta [bind]. intros E. injection E as E1 _ _.
    split; [intros E0; rewrite E0 in EX; discriminate|].
    rewrite <- E1. f_equal.
    rewrite map_map, combine_map_right, map_map. reflexivity.
Qed.

Lemma compute_state_risk_empty (argsort : list num -> list nat)
    (aqi_df : list Aqi.row) (pop_df : Pop.frame) (mpce_df : list Mpce.row)
    (target_year : Z) (top_states top_areas_per_state top_global_areas : nat) :
  drivers aqi_df pop_df mpce_df target_year = [] ->
  compute_state_risk argsort aqi_df pop_df mpce_df target_year
    top_states top_areas_per_state top_global_areas
  = Raise (ValueError NoSamples).
Proof.
  intros E. rewrite compute_state_risk_unfold, fit_transform_num, E. reflexivity.
Qed.

Lemma compute_state_risk_returns (argsort : list num -> list nat)
    (aqi_df : list Aqi.row) (pop_df : Pop.frame) (mpce_df : list Mpce.row)
    (target_year : Z) (top_states top_areas_per_state top_global_areas : nat) :
  drivers aqi_df pop_df mpce_df target_year <> [] ->
  exists out,
    compute_state_risk argsort aqi_df pop_df mpce_df target_year
      top_states top_areas_per_state top_global_areas = Ok out.
Proof.
  intros NE. rewrite compute_state_risk_unfold, fit_transform_num.
  destruct (drivers aqi_df pop_df mpce_df target_year); [congruence|].
  cbn [map]. cbv beta iota delta [bind]. eauto.
Qed.

(** Every row of the risk table comes from a joined row and its scaled
    cells. *)
Lemma risk_row_inv (argsort : list num -> list nat)
    (aqi_df : list Aqi.row) (pop_df : Pop.frame) (mpce_df : list Mpce.row)
    (target_year : Z) (top_states top_areas_per_state top_global_areas : nat)
    (risk_df : list Risk.row) (areas_df global_areas_df : list Area.row)
    (r : Risk.row) :
  compute_state_risk argsort aqi_df pop_df mpce_df target_year
    top_states top_areas_per_state top_global_areas
  = Ok (risk_df, areas_df, global_areas_df) ->
  In r risk_df ->
  exists apm,
    In apm (drivers aqi_df pop_df mpce_df target_year) /\
    r = scored_row (apm, scaled_cells
                           (map metrics (drivers aqi_df pop_df mpce_df target_year))
                           (metrics apm)).
Proof.
  intros E Hin. apply compute_state_risk_ok in E. destruct E as [_ ->].
  apply In_sort_values_desc in Hin. unfold scored_frame in Hin.
  apply in_map_iff in Hin. destruct Hin as (apm & <- & Hin). eauto.
Qed.

Lemma in_merge_inner {L R : Type} (on : L -> R -> bool)
    (left : list L) (right : list R) (l : L) (r : R) :
  In (l, r) (merge_inner on left right) <->
  In l left /\ In r right /\ on l r = true.
Proof.
  unfold merge_inner. rewrite in_flat_map. split.
  - intros (l' & Hl & Hin). apply in_map_iff in Hin.
    destruct Hin as (r' & E & Hr). injection E as -> ->.
    apply filter_In in Hr. tauto.
  - intros (Hl & Hr & Hon). exists l. split; [assumption|].
    apply in_map. apply filter_In. tauto.
Qed.

(** ** The weighted sum *)

Lemma weighted_sum_num (a p m : num) :
  weighted_sum a p m =
  num_add (num_add (num_mul (Fin 0.7) a) (num_mul (Fin 0.2) p))
          (num_mul (Fin 0.1) (num_sub (Fin 1) m)).
Proof.
  unfold weighted_sum, w_aqi, w_pop, w_mpce. cbn [lit add mul sub num_arith].
  destruct a as [a|], p as [p|], m as [m|]; try reflexivity.
  unfold num_add, num_mul, num_sub, num_lift2.
  apply Qred_eq_of_Qeq. rewrite !Qred_correct. reflexivity.
Qed.

Lemma weighted_sum_unit_interval (a p m : num) :
  in_unit_interval a -> in_unit_interval p -> in_unit_interval m ->
  in_unit_interval (weighted_sum a p m).
Proof.
  rewrite weighted_sum_num. unfold in_unit_interval.
  destruct a as [a|], p as [p|], m as [m|];
    unfold num_le, num_add, num_mul, num_sub, num_lift2; try tauto.
  intros [Ha0 Ha1] [Hp0 Hp1] [Hm0 Hm1].
  rewrite !Qred_correct. split; lra.
Qed.

(** C1.  For every row of the state risk table the risk score is
    [0.7 * aqi_n + 0.2 * pop_n + 0.1 * (1 - mpce_n)], and when the three
    normalized cells lie in [[0, 1]] so does the risk score. *)
Theorem risk_score_weighted_sum_in_unit_interval
    (argsort : list num -> list nat)
    (aqi_df : list Aqi.row) (pop_df : Pop.frame) (mpce_df : list Mpce.row)
    (target_year : Z) (top_states top_areas_per_state top_global_areas : nat)
    (risk_df : list Risk.row) (areas_df global_areas_df : list Area.row)
    (r : Risk.row) :
  compute_state_risk argsort aqi_df pop_df mpce_df target_year
    top_states top_areas_per_state top_global_areas
  = Ok (risk_df, areas_df, global_areas_df) ->
  In r risk_df ->
  Risk.risk_score r =
    num_add (num_add (num_mul (Fin 0.7) (Risk.aqi_n r))
                     (num_mul (Fin 0.2) (Risk.pop_n r)))
            (num_mul (Fin 0.1) (num_sub (Fin 1) (Risk.mpce_n r)))
  /\ (in_unit_interval (Risk.aqi_n r) ->
      in_unit_interval (Risk.pop_n r) ->
      in_unit_interval (Risk.mpce_n r) ->
      in_unit_interval (Risk.risk_score r)).
Proof.
  intros E Hin.
  destruct (risk_row_inv _ _ _ _ _ _ _ _ _ _ _ _ E Hin) as (apm & _ & ->).
  cbn [scored_row Risk.risk_score Risk.aqi_n Risk.pop_n Risk.mpce_n fst snd].
  split.
  - apply weighted_sum_num.
  - apply weighted_sum_unit_interval.
Qed.

(* ================================================================== *)
(** ** Sorting *)

Section InsertionSort.
Context {T : Type} (before : T -> T -> bool).

Lemma insert_sorted_perm (x : T) (l : list T) :
  Permutation (insert_sorted before x l) (x :: l).
Proof.
  induction l as [|y l IH]; simpl.
  - apply Permutation_refl.
  - destruct (before x y).
    + apply Permutation_refl.
    + eapply Permutation_trans; [apply perm_skip, IH | apply perm_swap].
Qed.

Lemma insertion_sort_perm (l : list T) :
  Permutation (insertion_sort before l) l.
Proof.
  induction l as [|x l IH]; simpl.
  - apply perm_nil.
  - eapply Permutation_trans; [apply insert_sorted_perm | apply perm_skip, IH].
Qed.

(** Sortedness for a relation [R] that the test [before] decides on the
    rows satisfying [P]. *)
Variable P : T -> Prop.
Variable R : T -> T -> Prop.
Hypothesis R_trans : forall x y z, R x y -> R y z -> R x z.
Hypothesis before_true : forall x y, P x -> P y -> before x y = true -> R x y.
Hypothesis before_false : forall x y, P x -> P y -> before x y = false -> R y x.

Lemma insert_sorted_sorted (x : T) (l : list T) :
  P x -> Forall P l -> StronglySorted R l ->
  StronglySorted R (insert_sorted before x l).
Proof.
  intros Px. induction l as [|y l IH]; simpl; intros HP HS.
  - constructor; constructor.
  - inversion HP as [|? ? Py HPl]; subst.
    inversion HS as [|? ? HSl Hy]; subst.
    destruct (before x y) eqn:E.
    + constructor; [assumption|]. constructor.
      * now apply before_true.
      * eapply Forall_impl; [|exact Hy]. intros z Hz.
        eapply R_trans; [apply before_true; eassumption | assumption].
    + constructor; [now apply IH|].
      eapply Permutation_Forall; [apply Permutation_sym, insert_sorted_perm|].
      constructor; [now apply before_false | assumption].
Qed.

Lemma insertion_sort_sorted (l : list T) :
  Forall P l -> StronglySorted R (insertion_sort before l).
Proof.
  induction l as [|x l IH]; simpl; intros HP.
  - constructor.
  - inversion HP; subst. apply insert_sorted_sorted; auto.
    eapply Permutation_Forall; [apply Permutation_sym, insertion_sort_perm|assumption].
Qed.

End InsertionSort.

Lemma StronglySorted_map {T U : Type} (R : U -> U -> Prop) (f : T -> U) (l : list T) :
  StronglySorted (fun a b => R (f a) (f b)) l <-> StronglySorted R (map f l).
Proof.
  induction l as [|x l IH]; simpl.
  - split; constructor.
  - split; intros HS; inversion HS; subst; constructor;
      try (apply IH; assumption).
    + now apply Forall_map.
    + now apply Forall_map.
Qed.

Lemma StronglySorted_app {T : Type} (R : T -> T -> Prop) (l1 l2 : list T) :
  StronglySorted R l1 -> StronglySorted R l2 ->
  (forall x y, In x l1 -> In y l2 -> R x y) ->
  StronglySorted R (l1 ++ l2).
Proof.
  induction l1 as [|x l1 IH]; simpl; intros H1 H2 H12; [assumption|].
  inversion H1; subst. constructor.
  - apply IH; auto.
  - apply Forall_app. split; [assumption|].
    apply Forall_forall. intros y Hy. apply H12; auto.
Qed.

Lemma StronglySorted_rev {T : Type} (R : T -> T -> Prop) (l : list T) :
  StronglySorted R l -> StronglySorted (fun a b => R b a) (rev l).
Proof.
  induction 1 as [|x l HS IH Hx]; simpl; [constructor|].
  apply StronglySorted_app; [assumption | repeat constructor |].
  intros y z Hy [<- | []]. rewrite <- in_rev in Hy.
  rewrite Forall_forall in Hx. now apply Hx.
Qed.

Lemma StronglySorted_impl {T : Type} (R S : T -> T -> Prop) (l : list T) :
  (forall x y, In x l -> In y l -> R x y -> S x y) ->
  StronglySorted R l -> StronglySorted S l.
Proof.
  intros HRS HS. induction HS as [|x l HS IH Hx]; constructor.
  - apply IH. intros; apply HRS; simpl; auto.
  - rewrite Forall_forall in *. intros y Hy. apply HRS; simpl; auto.
Qed.

(** ** Indexers *)

Lemma take_map {T U : Type} (f : T -> U) (df : list T) (indexer : list nat) :
  take (map f df) indexer = map f (take df indexer).
Proof.
  unfold take. induction indexer as [|i idx IH]; simpl; [reflexivity|].
  rewrite map_app, IH, nth_error_map.
  destruct (nth_error df i); reflexivity.
Qed.

Lemma take_seq_from {T : Type} (p l : list T) :
  take (p ++ l) (seq (List.length p) (List.length l)) = l.
Proof.
  revert p. induction l as [|x l IH]; intros p; simpl; [reflexivity|].
  rewrite nth_error_app2, Nat.sub_diag by lia. simpl. f_equal.
  specialize (IH (p ++ [x])). rewrite <- app_assoc, length_app in IH. simpl in IH.
  rewrite Nat.add_1_r in IH. exact IH.
Qed.

Lemma take_seq {T : Type} (l : list T) :
  take l (seq 0 (List.length l)) = l.
Proof. exact (take_seq_from [] l). Qed.

Lemma take_perm {T : Type} (l : list T) (indexer : list nat) :
  Permutation indexer (seq 0 (List.length l)) -> Permutation (take l indexer) l.
Proof.
  intros HP. rewrite <- (take_seq l) at 2.
  unfold take. now apply Permutation_flat_map.
Qed.

Lemma filter_partition_perm {T : Type} (f : T -> bool) (l : list T) :
  Permutation (filter (fun x => negb (f x)) l ++ filter f l) l.
Proof.
  induction l as [|x l IH]; simpl; [apply perm_nil|].
  destruct (f x); simpl.
  - apply Permutation_sym. apply Permutation_cons_app. now apply Permutation_sym.
  - now apply perm_skip.
Qed.

(** ** The contract of [numpy.argsort] *)

Lemma num_le_trans (x y z : num) : (x <= y)%num -> (y <= z)%num -> (x <= z)%num.
Proof.
  destruct x, y, z; simpl; try tauto. apply Qle_trans.
Qed.

Lemma combine_seq_nth_error {T : Type} (l : list T) (s i : nat) (k : T) :
  In (i, k) (combine (seq s (List.length l)) l) ->
  (s <= i)%nat /\ nth_error l (i - s) = Some k.
Proof.
  revert s. induction l as [|x l IH]; simpl; intros s; [tauto|].
  intros [E | Hin].
  - injection E as <- <-. rewrite Nat.sub_diag. auto.
  - apply IH in Hin. destruct Hin as [Hle Hn]. split; [lia|].
    replace (i - s)%nat with (S (i - S s)) by lia. exact Hn.
Qed.

Lemma take_positions {T : Type} (ks : list T) (sp : list (nat * T)) :
  Forall (fun ik => nth_error ks (fst ik) = Some (snd ik)) sp ->
  take ks (map fst sp) = map snd sp.
Proof.
  unfold take. induction 1 as [|[i k] sp Hik _ IH]; simpl; [reflexivity|].
  simpl in Hik. rewrite Hik, IH. reflexivity.
Qed.

Lemma map_fst_combine_seq {T : Type} (l : list T) (s : nat) :
  map fst (combine (seq s (List.length l)) l) = seq s (List.length l).
Proof.
  revert s. induction l as [|x l IH]; simpl; intros s; [reflexivity|].
  now rewrite IH.
Qed.

Lemma argsort_with_contract (before : num -> num -> bool) :
  (forall a b, before (Fin a) (Fin b) = true -> a <= b) ->
  (forall a b, before (Fin a) (Fin b) = false -> b <= a) ->
  argsort_contract (argsort_with before).
Proof.
  intros Ht Hf. split; intros ks; unfold argsort_with.
  - rewrite <- (map_fst_combine_seq ks 0) at 2.
    apply Permutation_map, insertion_sort_perm.
  - intros Hfin.
    set (pairs := combine (seq 0 (List.length ks)) ks).
    assert (Hpairs : Forall (fun ik => nth_error ks (fst ik) = Some (snd ik)) pairs).
    { apply Forall_forall. intros [i k] Hin.
      apply combine_seq_nth_error in Hin. simpl.
      now rewrite Nat.sub_0_r in Hin. }
    rewrite take_positions.
    2:{ eapply Permutation_Forall;
          [apply Permutation_sym, insertion_sort_perm | exact Hpairs]. }
    apply (proj1 (StronglySorted_map num_le snd _)).
    apply insertion_sort_sorted with (P := fun ik : nat * num => is_fin (snd ik)).
    + intros x y z. apply num_le_trans.
    + intros [i [a|]] [j [b|]]; simpl; try tauto. intros _ _. apply Ht.
    + intros [i [a|]] [j [b|]]; simpl; try tauto. intros _ _. apply Hf.
    + apply Forall_forall. intros [i k] Hin. simpl.
      rewrite Forall_forall in Hfin. apply Hfin.
      eapply in_combine_r; eauto.
Qed.

Lemma argsort_stable_contract : argsort_contract argsort_stable.
Proof.
  apply argsort_with_contract; intros a b.
  - rewrite negb_true_iff, num_ltb_fin_false. auto.
  - rewrite negb_false_iff, num_ltb_fin. apply Qlt_le_weak.
Qed.

(** ** [sort_values(..., ascending=False)] *)

Section SortValues.
Context {R : Type} (argsort : list num -> list nat) (by_ : R -> num).
Hypothesis contract : argsort_contract argsort.

Lemma sort_values_desc_perm (df : list R) :
  Permutation (sort_values_desc argsort by_ df) df.
Proof.
  unfold sort_values_desc.
  eapply Permutation_trans; [|apply (filter_partition_perm (fun r => num_isnan (by_ r)))].
  apply Permutation_app_tail.
  eapply Permutation_trans; [apply Permutation_sym, Permutation_rev|].
  eapply Permutation_trans; [|apply Permutation_sym, Permutation_rev].
  apply take_perm.
  rewrite <- (length_map by_). apply (argsort_perm _ contract).
Qed.

Lemma nan_rows_descending (df : list R) :
  StronglySorted (descending by_) (filter (fun r => num_isnan (by_ r)) df).
Proof.
  induction df as [|r df IH]; simpl; [constructor|].
  destruct (num_isnan (by_ r)) eqn:E; [|assumption].
  constructor; [assumption|].
  apply Forall_forall. intros y Hy. apply filter_In in Hy. destruct Hy as [_ Hy].
  unfold descending. destruct (by_ r), (by_ y); try discriminate. reflexivity.
Qed.

Lemma sort_values_desc_sorted (df : list R) :
  StronglySorted (descending by_) (sort_values_desc argsort by_ df).
Proof.
  unfold sort_values_desc.
  set (non_nans := rev (filter (fun r => negb (num_isnan (by_ r))) df)).
  assert (Hfin : Forall is_fin (map by_ non_nans)).
  { apply Forall_map, Forall_forall. intros r Hr. unfold non_nans in Hr.
    rewrite <- in_rev in Hr. apply filter_In in Hr. destruct Hr as [_ Hr].
    destruct (by_ r); [exact I | discriminate]. }
  apply StronglySorted_app.
  - pose proof (argsort_sorted _ contract _ Hfin) as HS.
    rewrite take_map in HS. apply StronglySorted_map in HS.
    apply StronglySorted_rev in HS.
    eapply StronglySorted_impl; [|exact HS].
    intros x y _ _. unfold descending.
    destruct (by_ x), (by_ y); simpl; try tauto. apply Qle_bool_iff.
  - apply nan_rows_descending.
  - intros x y _ Hy. apply filter_In in Hy. destruct Hy as [_ Hy].
    unfold descending. destruct (by_ y); [discriminate|].
    destruct (by_ x); reflexivity.
Qed.

End SortValues.

(** X27.  With an [argsort] that meets numpy's contract, the state risk
    table holds the scored rows of the joined frame, each once, in
    descending order of [risk_score]. *)
Theorem risk_table_sorted_descending
    (argsort : list num -> list nat)
    (aqi_df : list Aqi.row) (pop_df : Pop.frame) (mpce_df : list Mpce.row)
    (target_year : Z) (top_states top_areas_per_state top_global_areas : nat)
    (risk_df : list Risk.row) (areas_df global_areas_df : list Area.row) :
  argsort_contract argsort ->
  compute_state_risk argsort aqi_df pop_df mpce_df target_year
    top_states top_areas_per_state top_global_areas
  = Ok (risk_df, areas_df, global_areas_df) ->
  StronglySorted (descending Risk.risk_score) risk_df /\
  Permutation risk_df (scored_frame (drivers aqi_df pop_df mpce_df target_year)).
Proof.
  intros Hc E. apply compute_state_risk_ok in E. destruct E as [_ ->]. split.
  - now apply sort_values_desc_sorted.
  - now apply sort_values_desc_perm.
Qed.

(* ================================================================== *)
(** ** [MinMaxScaler] on exact cells *)

Lemma near_constant_pos : 0 < near_constant.
Proof. reflexivity. Qed.

Lemma fold_fmin_fin (xs : list num) (a : Q) :
  Forall is_fin xs ->
  exists m, fold_left fmin xs (Fin a) = Fin m
            /\ (m = a \/ In (Fin m) xs)
            /\ m <= a
            /\ (forall q, In (Fin q) xs -> m <= q).
Proof.
  revert a. induction xs as [|x xs IH]; intros a HF; simpl.
  - exists a. repeat split; auto using Qle_refl. intros q [].
  - inversion HF as [|? ? Hx HF']; subst. destruct x as [x|]; [|contradiction].
    unfold fmin at 2. cbn [isnan ltb num_arith num_isnan].
    destruct (num_ltb (Fin x) (Fin a)) eqn:E.
    + apply num_ltb_fin in E.
      destruct (IH x HF') as (m & Em & Hm & Hle & Hall).
      exists m. split; [exact Em|]. split; [|split].
      * destruct Hm as [-> | Hm]; auto.
      * apply Qlt_le_weak in E. eapply Qle_trans; eauto.
      * intros q [Eq | Hq]; [injection Eq as <-; assumption | auto].
    + apply num_ltb_fin_false in E.
      destruct (IH a HF') as (m & Em & Hm & Hle & Hall).
      exists m. split; [exact Em|]. split; [|split].
      * destruct Hm as [-> | Hm]; auto.
      * assumption.
      * intros q [Eq | Hq]; [injection Eq as <-|]; auto.
        eapply Qle_trans; eauto.
Qed.

Lemma fold_fmax_fin (xs : list num) (a : Q) :
  Forall is_fin xs ->
  exists m, fold_left fmax xs (Fin a) = Fin m
            /\ (m = a \/ In (Fin m) xs)
            /\ a <= m
            /\ (forall q, In (Fin q) xs -> q <= m).
Proof.
  revert a. induction xs as [|x xs IH]; intros a HF; simpl.
  - exists a. repeat split; auto using Qle_refl. intros q [].
  - inversion HF as [|? ? Hx HF']; subst. destruct x as [x|]; [|contradiction].
    unfold fmax at 2. cbn [isnan ltb num_arith num_isnan].
    destruct (num_ltb (Fin a) (Fin x)) eqn:E.
    + apply num_ltb_fin in E.
      destruct (IH x HF') as (m & Em & Hm & Hle & Hall).
      exists m. split; [exact Em|]. split; [|split].
      * destruct Hm as [-> | Hm]; auto.
      * apply Qlt_le_weak in E. eapply Qle_trans; eauto.
      * intros q [Eq | Hq]; [injection Eq as <-; assumption | auto].
    + apply num_ltb_fin_false in E.
      destruct (IH a HF') as (m & Em & Hm & Hle & Hall).
      exists m. split; [exact Em|]. split; [|split].
      * destruct Hm as [-> | Hm]; auto.
      * assumption.
      * intros q [Eq | Hq]; [injection Eq as <-|]; auto.
        eapply Qle_trans; eauto.
Qed.

(** On a non-empty column of numbers [nanmin] and [nanmax] are its least
    and greatest cells. *)
Lemma nanmin_fin (xs : list num) :
  Forall is_fin xs -> xs <> [] ->
  exists m, nanmin xs = Fin m /\ In (Fin m) xs /\ (forall q, In (Fin q) xs -> m <= q).
Proof.
  intros HF NE. destruct xs as [|x xs]; [congruence|].
  inversion HF as [|? ? Hx HF']; subst. destruct x as [x|]; [|contradiction].
  unfold nanmin. simpl fold_left.
  destruct (fold_fmin_fin xs x HF') as (m & Em & Hm & Hle & Hall).
  exists m. split; [exact Em|]. split.
  - destruct Hm as [-> | Hm]; simpl; auto.
  - intros q [Eq | Hq]; [injection Eq as <-|]; auto.
Qed.

Lemma nanmax_fin (xs : list num) :
  Forall is_fin xs -> xs <> [] ->
  exists m, nanmax xs = Fin m /\ In (Fin m) xs /\ (forall q, In (Fin q) xs -> q <= m).
Proof.
  intros HF NE. destruct xs as [|x xs]; [congruence|].
  inversion HF as [|? ? Hx HF']; subst. destruct x as [x|]; [|contradiction].
  unfold nanmax. simpl fold_left.
  destruct (fold_fmax_fin xs x HF') as (m & Em & Hm & Hle & Hall).
  exists m. split; [exact Em|]. split.
  - destruct Hm as [-> | Hm]; simpl; auto.
  - intros q [Eq | Hq]; [injection Eq as <-|]; auto.
Qed.

(** What the fitted scaler does to a cell: with [m] and [M] the least and
    greatest cells, [x] goes to [(x - m) * s], where [s] is [1] for a
    range below the threshold and [1 / (M - m)] otherwise. *)
Lemma rescale_fit (xs : list num) :
  Forall is_fin xs -> xs <> [] ->
  exists m M s,
    In (Fin m) xs /\ In (Fin M) xs /\
    (forall q, In (Fin q) xs -> m <= q <= M) /\
    ((M - m < near_constant /\ s == 1) \/
     (near_constant <= M - m /\ s == 1 / (M - m))) /\
    (forall q, rescale (fit xs) (Fin q) = Fin (Qred ((q - m) * s))).
Proof.
  intros HF NE.
  destruct (nanmin_fin xs HF NE) as (m & Em & Hm & Hmin).
  destruct (nanmax_fin xs HF NE) as (M & EM & HM & Hmax).
  assert (Hcase :
    exists h, handle_zeros_in_scale (sub (Fin M) (Fin m)) = Fin h /\
              ((M - m < near_constant /\ h == 1) \/
               (near_constant <= M - m /\ h == M - m))).
  { unfold handle_zeros_in_scale, eps.
    cbn [sub mul lit ltb num_arith num_sub num_mul num_lift2].
    destruct (num_ltb (Fin (Qred (M - m))) _) eqn:E.
    - apply num_ltb_fin in E. rewrite !Qred_correct in E.
      exists (Qred 1). split; [reflexivity|]. left. split; [exact E|].
      apply Qred_correct.
    - apply num_ltb_fin_false in E. rewrite !Qred_correct in E.
      exists (Qred (M - m)). split; [reflexivity|]. right. split; [exact E|].
      apply Qred_correct. }
  destruct Hcase as (h & Eh & Hh).
  assert (Hh0 : ~ h == 0).
  { pose proof near_constant_pos. destruct Hh as [[_ Hh] | [Hr Hh]]; rewrite Hh; lra. }
  exists m, M, (1 / h). split; [exact Hm|]. split; [exact HM|]. split; [|split].
  - intros q Hq. split; auto.
  - destruct Hh as [[Hr Hh] | [Hr Hh]]; [left | right]; split; auto.
    + rewrite Hh. reflexivity.
    + rewrite Hh. reflexivity.
  - intros q. unfold rescale, fit. cbn [scale_ min_]. rewrite Em, EM, Eh.
    cbn [add sub mul div lit num_arith num_add num_sub num_mul num_div num_lift2].
    destruct (Qeq_bool h 0) eqn:E0.
    { apply Qeq_bool_iff in E0. contradiction. }
    apply Qred_eq_of_Qeq. rewrite !Qred_correct. field. exact Hh0.
Qed.

(* ================================================================== *)
(** ** The joined frame holds numbers *)

Lemma In_unique {K : Type} (eqb : K -> K -> bool) (ks : list K) (k : K) :
  In k (unique eqb ks) -> In k ks.
Proof.
  induction ks as [|k0 ks IH]; simpl; [tauto|].
  intros [-> | Hin]; [auto|].
  apply filter_In in Hin. right. apply IH. tauto.
Qed.

Lemma mean_fin (xs : list Q) : xs <> [] -> is_fin (mean xs).
Proof. destruct xs; [congruence | intros _; exact I]. Qed.

Lemma groupby_mean_inv {R K : Type} (eqb leb : K -> K -> bool)
    (key : R -> K) (col : R -> Q) (df : list R) (g : K * num) :
  (forall k, eqb k k = true) ->
  In g (groupby_mean eqb leb key col df) ->
  In (fst g) (map key df) /\ is_fin (snd g).
Proof.
  intros Hrefl Hin. unfold groupby_mean in Hin.
  apply in_map_iff in Hin. destruct Hin as (k & <- & Hk).
  eapply Permutation_in in Hk; [|apply insertion_sort_perm].
  apply In_unique in Hk. simpl. split; [assumption|].
  apply mean_fin. apply in_map_iff in Hk. destruct Hk as (r & <- & Hr).
  intros E.
  assert (Hin : In (col r) (map col (filter (fun r0 => eqb (key r0) (key r)) df))).
  { apply in_map, filter_In. auto. }
  rewrite E in Hin. exact Hin.
Qed.

Lemma state_year_eqb_refl (k : string * Z) : state_year_eqb k k = true.
Proof.
  unfold state_year_eqb, pair_eqb. now rewrite String.eqb_refl, Z.eqb_refl.
Qed.

Lemma annual_state_aqi_fin (df_aqi : list Aqi.row) (a : AqiAnn.row) :
  In a (annual_state_aqi_calendar df_aqi) -> is_fin (AqiAnn.avg_aqi a).
Proof.
  unfold annual_state_aqi_calendar. intros Hin.
  apply in_map_iff in Hin. destruct Hin as (g & <- & Hg).
  apply groupby_mean_inv in Hg; [|apply state_year_eqb_refl]. simpl. tauto.
Qed.

Lemma drivers_metrics_fin (aqi_df : list Aqi.row) (pop_df : Pop.frame)
    (mpce_df : list Mpce.row) (target_year : Z) (apm : joined_row) :
  In apm (drivers aqi_df pop_df mpce_df target_year) ->
  is_fin (fst (fst (metrics apm))) /\ is_fin (snd (fst (metrics apm)))
  /\ is_fin (snd (metrics apm)).
Proof.
  destruct apm as [[a p] m]. unfold drivers. intros Hin.
  apply in_merge_inner in Hin. destruct Hin as (Hap & Hm & _).
  apply in_merge_inner in Hap. destruct Hap as (Ha & Hp & _).
  apply filter_In in Ha. destruct Ha as [Ha _]. apply annual_state_aqi_fin in Ha.
  unfold get_population_by_year in Hp. apply in_map_iff in Hp.
  destruct Hp as (pr & <- & _).
  unfold project_mpce_2425 in Hm. apply in_map_iff in Hm.
  destruct Hm as (mr & <- & _).
  simpl. auto.
Qed.

(* ================================================================== *)
(** ** The three normalized metrics of the risk table *)

Lemma scored_frame_raw (c : metric) (D : list joined_row) :
  map (raw c) (scored_frame D) = map (cell c) (map metrics D).
Proof.
  unfold scored_frame. rewrite !map_map. apply map_ext.
  intros apm. destruct c; reflexivity.
Qed.

Lemma scored_row_normalized (c : metric) (X : list (num * num * num)) (apm : joined_row) :
  normalized c (scored_row (apm, scaled_cells X (metrics apm)))
  = rescale (fit (map (cell c) X)) (cell c (metrics apm)).
Proof. destruct c; reflexivity. Qed.

Lemma scored_row_raw (c : metric) (n : num * num * num) (apm : joined_row) :
  raw c (scored_row (apm, n)) = cell c (metrics apm).
Proof. destruct c; reflexivity. Qed.

(** The column of a metric in the risk table, and what normalization does
    to each of its cells. *)
Lemma normalized_spec (argsort : list num -> list nat)
    (aqi_df : list Aqi.row) (pop_df : Pop.frame) (mpce_df : list Mpce.row)
    (target_year : Z) (top_states top_areas_per_state top_global_areas : nat)
    (risk_df : list Risk.row) (areas_df global_areas_df : list Area.row)
    (c : metric) :
  argsort_contract argsort ->
  compute_state_risk argsort aqi_df pop_df mpce_df target_year
    top_states top_areas_per_state top_global_areas
  = Ok (risk_df, areas_df, global_areas_df) ->
  exists m M s,
    (exists r, In r risk_df /\ raw c r = Fin m) /\
    (exists r, In r risk_df /\ raw c r = Fin M) /\
    ((M - m < near_constant /\ s == 1) \/
     (near_constant <= M - m /\ s == 1 / (M - m))) /\
    (forall r, In r risk_df ->
       exists q, raw c r = Fin q /\ m <= q <= M
                 /\ normalized c r = Fin (Qred ((q - m) * s))).
Proof.
  intros Hc E.
  pose proof (fun r => risk_row_inv _ _ _ _ _ _ _ _ _ _ _ r E) as Hinv.
  apply compute_state_risk_ok in E. destruct E as [NE E].
  assert (HP : Permutation risk_df
                 (scored_frame (drivers aqi_df pop_df mpce_df target_year))).
  { rewrite E. now apply sort_values_desc_perm. }
  clear E. set (D := drivers aqi_df pop_df mpce_df target_year) in *.
  set (xs := map (cell c) (map metrics D)).
  assert (HF : Forall is_fin xs).
  { unfold xs. rewrite map_map. apply Forall_map, Forall_forall. intros apm Hin.
    apply drivers_metrics_fin in Hin. destruct c; simpl; tauto. }
  assert (NEx : xs <> []).
  { unfold xs. destruct D; [congruence | discriminate]. }
  assert (Hcol : forall v, In v xs -> exists r, In r risk_df /\ raw c r = v).
  { intros v Hv. unfold xs in Hv. rewrite <- scored_frame_raw in Hv.
    apply in_map_iff in Hv. destruct Hv as (r & <- & Hr).
    exists r. split; [|reflexivity].
    eapply Permutation_in; [apply Permutation_sym, HP | exact Hr]. }
  destruct (rescale_fit xs HF NEx) as (m & M & s & Hm & HM & Hb & Hs & Hres).
  exists m, M, s. split; [auto|]. split; [auto|]. split; [exact Hs|].
  intros r Hr. destruct (Hinv r Hr) as (apm & Hapm & ->).
  rewrite scored_row_raw, scored_row_normalized. fold xs.
  assert (Hx : In (cell c (metrics apm)) xs).
  { unfold xs. rewrite map_map. apply in_map_iff. eauto. }
  destruct (cell c (metrics apm)) as [q|] eqn:Eq.
  - exists q. split; [reflexivity|]. split; [now apply Hb | apply Hres].
  - rewrite Forall_forall in HF. destruct (HF _ Hx).
Qed.

(** Every normalized cell and every risk score of the table is a number. *)
Lemma risk_score_weighted_sum_fin
    (argsort : list num -> list nat)
    (aqi_df : list Aqi.row) (pop_df : Pop.frame) (mpce_df : list Mpce.row)
    (target_year : Z) (top_states top_areas_per_state top_global_areas : nat)
    (risk_df : list Risk.row) (areas_df global_areas_df : list Area.row)
    (r : Risk.row) :
  argsort_contract argsort ->
  compute_state_risk argsort aqi_df pop_df mpce_df target_year
    top_states top_areas_per_state top_global_areas
  = Ok (risk_df, areas_df, global_areas_df) ->
  In r risk_df ->
  exists v, Risk.risk_score r = Fin v.
Proof.
  intros Hc E Hr.
  assert (Hn : forall c, exists v, normalized c r = Fin v).
  { intros c.
    destruct (normalized_spec _ _ _ _ _ _ _ _ _ _ _ c Hc E)
      as (m & M & s & _ & _ & _ & Hrows).
    destruct (Hrows r Hr) as (q & _ & _ & ->). eauto. }
  destruct (Hn AvgAqi) as (a & Ea), (Hn Population) as (p & Ep), (Hn Mpce) as (e & Ee).
  simpl in Ea, Ep, Ee.
  destruct (risk_row_inv _ _ _ _ _ _ _ _ _ _ _ _ E Hr) as (apm & _ & Er).
  assert (Es : Risk.risk_score r
               = weighted_sum (Risk.aqi_n r) (Risk.pop_n r) (Risk.mpce_n r)).
  { rewrite Er. reflexivity. }
  rewrite Es, Ea, Ep, Ee, weighted_sum_num. simpl. eauto.
Qed.





(* ================================================================== *)
(** ** The risk pipeline on the closed tables *)

Lemma sample_risk_run :
  compute_state_risk argsort_stable sample_aqi sample_pop sample_mpce 2025 10 4 3
  = Ok (sample_risk_df, sample_areas_df, sample_areas_df).
Proof. vm_compute. reflexivity. Qed.

Ltac closed_interval := unfold in_unit_interval, num_le; simpl; split; lra.

Lemma risk_score_weighted_sum_witness :
  In sample_delhi sample_risk_df /\
  Risk.risk_score sample_delhi =
    num_add (num_add (num_mul (Fin 0.7) (Risk.aqi_n sample_delhi))
                     (num_mul (Fin 0.2) (Risk.pop_n sample_delhi)))
            (num_mul (Fin 0.1) (num_sub (Fin 1) (Risk.mpce_n sample_delhi)))
  /\ in_unit_interval (Risk.risk_score sample_delhi).
Proof.
  assert (Hin : In sample_delhi sample_risk_df) by (simpl; auto).
  destruct (risk_score_weighted_sum_in_unit_interval
              argsort_stable sample_aqi sample_pop sample_mpce 2025 10 4 3
              sample_risk_df sample_areas_df sample_areas_df sample_delhi
              sample_risk_run Hin) as [Hformula Hrange].
  split; [exact Hin|]. split; [exact Hformula|].
  apply Hrange; closed_interval.
Defined.

Lemma risk_table_sorted_descending_witness :
  StronglySorted (descending Risk.risk_score) sample_risk_df /\
  Permutation sample_risk_df
    (scored_frame (drivers sample_aqi sample_pop sample_mpce 2025)).
Proof.
  exact (risk_table_sorted_descending
           argsort_stable sample_aqi sample_pop sample_mpce 2025 10 4 3
           sample_risk_df sample_areas_df sample_areas_df
           argsort_stable_contract sample_risk_run).
Defined.






(* ================================================================== *)
(** ** Expenditure projection *)

Lemma mean_pair (a b : Q) : (mean [a; b] == Fin ((a + b) / 2))%num.
Proof.
  unfold mean, Qsum, num_eq. cbn [fold_left List.length].
  rewrite Qred_correct. change (inject_Z (Z.of_nat 2)) with 2. field.
Qed.

(** C7.  Every row of the expenditure table is projected to the mean of
    [base_2023_24 * (1 + pct_increase / 100)] over its rural and urban
    segments, under its normalized state name; and whatever target year
    the risk pipeline is given, the expenditure of every row of the risk
    table is that projection of an expenditure row of the same state. *)
Theorem mpce_projection_independent_of_target_year
    (argsort : list num -> list nat)
    (aqi_df : list Aqi.row) (pop_df : Pop.frame) (mpce_df : list Mpce.row)
    (target_year : Z) (top_states top_areas_per_state top_global_areas : nat) :
  Forall2 (fun r p => MpceProj.state p = normalize (Mpce.State_UT r)
                      /\ (MpceProj.mpce_2024_25 p == Fin (projected_mpce r))%num)
          mpce_df (project_mpce_2425 mpce_df)
  /\
  forall risk_df areas_df global_areas_df,
    compute_state_risk argsort aqi_df pop_df mpce_df target_year
      top_states top_areas_per_state top_global_areas
    = Ok (risk_df, areas_df, global_areas_df) ->
    forall row, In row risk_df ->
      exists r, In r mpce_df
                /\ normalize (Mpce.State_UT r) = Risk.state row
                /\ (Risk.mpce_2024_25 row == Fin (projected_mpce r))%num.
Proof.
  split.
  - unfold project_mpce_2425. induction mpce_df as [|r l IH]; cbn [map]; constructor.
    + split; [reflexivity|].
      exact (mean_pair (proj_rural_2425 r) (proj_urban_2425 r)).
    + exact IH.
  - intros risk_df areas_df global_areas_df E row Hrow.
    destruct (risk_row_inv _ _ _ _ _ _ _ _ _ _ _ _ E Hrow) as ([[a p] m] & Hin & ->).
    unfold drivers in Hin. apply in_merge_inner in Hin.
    destruct Hin as (_ & Hm & Hon). simpl in Hon.
    apply String.eqb_eq in Hon.
    unfold project_mpce_2425 in Hm. apply in_map_iff in Hm.
    destruct Hm as (r & <- & Hr).
    exists r. split; [exact Hr|]. split.
    + simpl in *. congruence.
    + exact (mean_pair (proj_rural_2425 r) (proj_urban_2425 r)).
Qed.

Lemma mpce_projection_witness :
  In sample_goa sample_risk_df /\
  exists r, In r sample_mpce
            /\ normalize (Mpce.State_UT r) = Risk.state sample_goa
            /\ (Risk.mpce_2024_25 sample_goa == Fin (projected_mpce r))%num.
Proof.
  assert (Hin : In sample_goa sample_risk_df) by (simpl; auto).
  split; [exact Hin|].
  exact (proj2 (mpce_projection_independent_of_target_year
                  argsort_stable sample_aqi sample_pop sample_mpce 2025 10 4 3)
           sample_risk_df sample_areas_df sample_areas_df
           sample_risk_run sample_goa Hin).
Defined.

(* ================================================================== *)
(** ** Reading [compute_health_cost_impacts] *)

Lemma compute_health_cost_impacts_unfold (power : num -> num -> num)
    (target_year : Z) (cf_aqi : Q)
    (hp_df : list Hp.row) (pop_df : Pop.frame) (aqi_df : list Aqi.row) :
  compute_health_cost_impacts power target_year cf_aqi hp_df pop_df aqi_df
  = map (cost_row power) (cost_grid target_year cf_aqi hp_df pop_df aqi_df).
Proof. reflexivity. Qed.

Lemma in_merge_left {L R : Type} (on : L -> R -> bool)
    (left : list L) (right : list R) (l : L) (o : option R) :
  In (l, o) (merge_left on left right) <->
  In l left /\
  ((o = None /\ filter (on l) right = []) \/
   (exists r, o = Some r /\ In r right /\ on l r = true)).
Proof.
  unfold merge_left. rewrite in_flat_map. split.
  - intros (l' & Hl & Hin).
    destruct (filter (on l') right) as [|r0 ms] eqn:E.
    + destruct Hin as [Eq | []]. injection Eq as -> <-. auto.
    + apply in_map_iff in Hin. destruct Hin as (r & Eq & Hr).
      injection Eq as -> <-. split; [assumption|]. right.
      exists r. rewrite <- E in Hr. apply filter_In in Hr. tauto.
  - intros (Hl & [[-> E] | (r & -> & Hr & Hon)]); exists l; (split; [assumption|]).
    + rewrite E. simpl. auto.
    + assert (Hin : In r (filter (on l) right)) by (apply filter_In; auto).
      destruct (filter (on l) right); [destruct Hin|].
      apply in_map_iff. eauto.
Qed.

Lemma in_merge_cross {L R : Type} (left : list L) (right : list R) (l : L) (r : R) :
  In (l, r) (merge_cross left right) <-> In l left /\ In r right.
Proof.
  unfold merge_cross. rewrite in_flat_map. split.
  - intros (l' & Hl & Hin). apply in_map_iff in Hin.
    destruct Hin as (r' & Eq & Hr). injection Eq as -> ->. auto.
  - intros [Hl Hr]. exists l. split; [assumption|]. now apply in_map.
Qed.


(** Every grid row found its state in the AQI frame of the target year. *)
Lemma cost_grid_aqi_match (target_year : Z) (cf_aqi : Q)
    (hp_df : list Hp.row) (pop_df : Pop.frame) (aqi_df : list Aqi.row)
    (row : grid_row) :
  In row (cost_grid target_year cf_aqi hp_df pop_df aqi_df) ->
  exists a, snd (fst row) = Some a
            /\ In a (cost_aqi_target target_year cf_aqi aqi_df)
            /\ AqiDelta.state a = fst (fst (fst row))
            /\ In (snd (fst (fst row))) hp_df.
Proof.
  destruct row as [[[s hp] oa] op]. unfold cost_grid. intros Hin.
  apply in_merge_left in Hin. destruct Hin as [Hin _].
  apply in_merge_left in Hin. destruct Hin as [Hsh Hoa].
  apply in_merge_cross in Hsh. destruct Hsh as [Hs Hhp].
  unfold cost_states in Hs. apply In_unique in Hs.
  apply in_map_iff in Hs. destruct Hs as (a0 & Ea0 & Ha0).
  simpl. destruct Hoa as [[_ Hnone] | (a & -> & Ha & Hon)].
  - exfalso.
    assert (Hin : In a0 (filter (fun a => String.eqb (fst (s, hp)) (AqiDelta.state a))
                           (cost_aqi_target target_year cf_aqi aqi_df))).
    { apply filter_In. split; [assumption|]. simpl. rewrite Ea0. apply String.eqb_refl. }
    rewrite Hnone in Hin. exact Hin.
  - exists a. simpl in Hon. apply String.eqb_eq in Hon. auto.
Qed.

(** ** The laws of the float power *)

Lemma power_interp_zero_exponent : power_zero_exponent power_interp.
Proof.
  intros x q Hq. apply Qeq_bool_iff in Hq.
  unfold power_interp. destruct x; rewrite Hq; reflexivity.
Qed.



(** C2 (as amended).  In a row of the health-cost projection whose
    delta_aqi is 0 and whose rr_per_10ug is positive, rr_total is 1 and
    paf is 0; attr_cases is 0 when the row has a population, and missing
    when the left join found none. *)
Theorem zero_delta_gives_unit_risk_and_no_cases
    (power : num -> num -> num) (target_year : Z) (cf_aqi : Q)
    (hp_df : list Hp.row) (pop_df : Pop.frame) (aqi_df : list Aqi.row)
    (row : Cost.row) :
  power_zero_exponent power ->
  In row (compute_health_cost_impacts power target_year cf_aqi hp_df pop_df aqi_df) ->
  (Cost.delta_aqi row == Fin 0)%num ->
  (Fin 0 < Cost.rr_per_10ug row)%num ->
  Cost.rr_total row = Fin 1 /\
  Cost.paf row = Fin 0 /\
  (is_fin (Cost.population row) -> Cost.attr_cases row = Fin 0) /\
  (Cost.population row = NaN -> Cost.attr_cases row = NaN).
Proof.
  intros Hpow. rewrite compute_health_cost_impacts_unfold. intros Hin Hdelta _.
  apply in_map_iff in Hin. destruct Hin as (g & <- & _).
  unfold cost_row in *.
  cbn [Cost.delta_aqi Cost.rr_total Cost.paf Cost.population Cost.attr_cases] in *.
  destruct (cell_of AqiDelta.delta_aqi (snd (fst g))) as [d|]; [|contradiction].
  cbn [num_eq] in Hdelta.
  assert (E10 : num_div (Fin d) (Fin 10) = Fin (Qred (d / 10))) by reflexivity.
  rewrite E10, (Hpow _ (Qred (d / 10))).
  2:{ rewrite Qred_correct, Hdelta. reflexivity. }
  assert (Epaf : num_div (num_sub (Fin 1) (Fin 1)) (Fin 1) = Fin 0) by reflexivity.
  rewrite Epaf. split; [reflexivity|]. split; [reflexivity|]. split.
  - destruct (cell_of PopYear.population (snd g)) as [p|]; [|contradiction].
    intros _. unfold num_mul, num_div, num_lift2.
    change (Qeq_bool 100000 0) with false. cbv iota.
    change (Fin 0) with (Fin (Qred 0)). apply Qred_eq_of_Qeq.
    rewrite !Qred_correct. field.
  - intros ->. reflexivity.
Qed.

(** ** The cost pipeline on the closed tables *)

Lemma cost_run :
  compute_health_cost_impacts power_interp 2024 35 sample_hp cost_pop cost_aqi
  = [goa_heart; goa_asthma; kerala_heart; kerala_asthma].
Proof. vm_compute. reflexivity. Qed.

Lemma In_cost_run (row : Cost.row) :
  In row [goa_heart; goa_asthma; kerala_heart; kerala_asthma] ->
  In row (compute_health_cost_impacts power_interp 2024 35 sample_hp cost_pop cost_aqi).
Proof. rewrite cost_run. auto. Qed.

(** C2, the claim as stated, fails.  kerala has AQI readings for 2024
    that average to the counterfactual and no population row: in its
    rows delta_aqi is 0 and rr_per_10ug is positive, rr_total is 1 and
    paf is 0, but attr_cases is missing, not 0. *)
Lemma zero_delta_without_population :
  In kerala_heart
     (compute_health_cost_impacts power_interp 2024 35 sample_hp cost_pop cost_aqi) /\
  Cost.delta_aqi kerala_heart = Fin 0 /\
  Cost.rr_per_10ug kerala_heart = Fin 1.08 /\
  Cost.rr_total kerala_heart = Fin 1 /\
  Cost.paf kerala_heart = Fin 0 /\
  Cost.population kerala_heart = NaN /\
  Cost.attr_cases kerala_heart = NaN.
Proof.
  split; [apply In_cost_run; simpl; auto|]. repeat split.
Qed.

Lemma zero_delta_witness :
  In goa_heart
     (compute_health_cost_impacts power_interp 2024 35 sample_hp cost_pop cost_aqi) /\
  (Cost.delta_aqi goa_heart == Fin 0)%num /\
  (Fin 0 < Cost.rr_per_10ug goa_heart)%num /\
  is_fin (Cost.population goa_heart) /\
  Cost.rr_total goa_heart = Fin 1 /\
  Cost.paf goa_heart = Fin 0 /\
  Cost.attr_cases goa_heart = Fin 0.
Proof.
  assert (Hin : In goa_heart
                  (compute_health_cost_impacts power_interp 2024 35
                     sample_hp cost_pop cost_aqi))
    by (apply In_cost_run; simpl; auto).
  assert (Hd : (Cost.delta_aqi goa_heart == Fin 0)%num) by reflexivity.
  assert (Hrr : (Fin 0 < Cost.rr_per_10ug goa_heart)%num) by reflexivity.
  destruct (zero_delta_gives_unit_risk_and_no_cases
              power_interp 2024 35 sample_hp cost_pop cost_aqi goa_heart
              power_interp_zero_exponent Hin Hd Hrr)
    as (Hrr_total & Hpaf & Hcases & _).
  repeat (split; [first [assumption | exact I]|]).
  apply Hcases. exact I.
Defined.



(* ================================================================== *)
(** ** Area extraction *)

(** The order of strings. *)
Lemma string_compare_trans (a b c : string) :
  String.compare a b = Lt -> String.compare b c = Lt -> String.compare a c = Lt.
Proof.
  revert b c. induction a as [|x a IH]; intros [|y b] [|z c]; simpl; try congruence.
  destruct (Ascii.compare x y) eqn:Exy; try discriminate;
    destruct (Ascii.compare y z) eqn:Eyz; try discriminate.
  - apply Ascii.compare_eq_iff in Exy, Eyz. subst.
    replace (Ascii.compare z z) with Eq; [apply IH|].
    symmetry. unfold Ascii.compare. apply N.compare_refl.
  - apply Ascii.compare_eq_iff in Exy. subst. now rewrite Eyz.
  - apply Ascii.compare_eq_iff in Eyz. subst. now rewrite Exy.
  - unfold Ascii.compare in *. intros _ _.
    rewrite N.compare_lt_iff in *.
    replace (N_of_ascii x ?= N_of_ascii z)%N with Lt; [reflexivity|].
    symmetry. apply N.compare_lt_iff. eapply N.lt_trans; eauto.
Qed.

Lemma string_compare_refl (a : string) : String.compare a a = Eq.
Proof.
  induction a as [|x a IH]; simpl; [reflexivity|].
  unfold Ascii.compare. now rewrite N.compare_refl.
Qed.

Lemma num_desc_leb_trans (x y z : num) :
  num_desc_leb x y = true -> num_desc_leb y z = true -> num_desc_leb x z = true.
Proof.
  destruct x as [a|], y as [b|], z as [c|]; simpl; try congruence.
  rewrite !Qle_bool_iff. intros; eapply Qle_trans; eauto.
Qed.

Lemma num_desc_leb_total (x y : num) :
  num_desc_leb x y = false -> num_desc_leb y x = true.
Proof.
  destruct x as [a|], y as [b|]; simpl; try congruence.
  intros E. apply Qle_bool_iff. destruct (Qlt_le_dec a b) as [L | L].
  - now apply Qlt_le_weak.
  - apply Qle_bool_iff in L. congruence.
Qed.

Lemma area_order_trans (a b c : Area.row) :
  area_order a b -> area_order b c -> area_order a c.
Proof.
  unfold area_order, descending.
  intros [Hab | [Eab Hab]] [Hbc | [Ebc Hbc]].
  - left. eapply string_compare_trans; eauto.
  - left. now rewrite <- Ebc.
  - left. now rewrite Eab.
  - right. split; [congruence|]. eapply num_desc_leb_trans; eauto.
Qed.

Lemma state_asc_avg_desc_true (a b : Area.row) :
  state_asc_avg_desc a b = true -> area_order a b.
Proof.
  unfold state_asc_avg_desc, area_order, descending, str_leb, String.leb.
  destruct (String.eqb_spec (Area.state a) (Area.state b)) as [E | NE].
  - auto.
  - destruct (String.compare (Area.state a) (Area.state b)) eqn:C; auto.
    + apply String.compare_eq_iff in C. contradiction.
    + discriminate.
Qed.

Lemma state_asc_avg_desc_false (a b : Area.row) :
  state_asc_avg_desc a b = false -> area_order b a.
Proof.
  unfold state_asc_avg_desc, area_order, descending, str_leb, String.leb.
  destruct (String.eqb_spec (Area.state a) (Area.state b)) as [E | NE].
  - intros H. right. split; [congruence|]. now apply num_desc_leb_total.
  - rewrite (String.compare_antisym (Area.state b) (Area.state a)).
    destruct (String.compare (Area.state a) (Area.state b)); try discriminate.
    auto.
Qed.

(** [groupby(...).head(n)] keeps rows of the frame, in order, at most [n]
    per key. *)
Lemma groupby_head_from_incl {R K : Type} (eqb : K -> K -> bool) (key : R -> K)
    (n : nat) (seen : list K) (df : list R) (r : R) :
  In r (groupby_head_from eqb key n seen df) -> In r df.
Proof.
  revert seen. induction df as [|x df IH]; simpl; intros seen; [tauto|].
  destruct (_ <? n)%nat; simpl; intros H.
  - destruct H as [-> | H]; eauto.
  - eauto.
Qed.

Lemma groupby_head_from_sorted {R K : Type} (eqb : K -> K -> bool) (key : R -> K)
    (ord : R -> R -> Prop) (n : nat) (seen : list K) (df : list R) :
  StronglySorted ord df -> StronglySorted ord (groupby_head_from eqb key n seen df).
Proof.
  revert seen. induction df as [|x df IH]; simpl; intros seen HS; [constructor|].
  inversion HS as [|? ? HS' Hx]; subst.
  destruct (_ <? n)%nat; [|now apply IH].
  constructor; [now apply IH|].
  rewrite Forall_forall in *. intros y Hy. apply Hx.
  eapply groupby_head_from_incl; eauto.
Qed.

Lemma StronglySorted_filter {T : Type} (ord : T -> T -> Prop) (f : T -> bool)
    (l : list T) :
  StronglySorted ord l -> StronglySorted ord (filter f l).
Proof.
  induction 1 as [|x l HS IH Hx]; simpl; [constructor|].
  destruct (f x); [|assumption]. constructor; [assumption|].
  rewrite Forall_forall in *. intros y Hy. apply filter_In in Hy. apply Hx. tauto.
Qed.

Lemma groupby_head_from_count {R : Type} (key : R -> string)
    (n : nat) (seen : list string) (df : list R) (k : string) :
  (List.length (filter (fun r => String.eqb (key r) k)
                  (groupby_head_from String.eqb key n seen df))
   <= n - List.length (filter (String.eqb k) seen))%nat.
Proof.
  revert seen. induction df as [|x df IH]; intros seen; simpl; [lia|].
  specialize (IH (key x :: seen)). simpl in IH.
  destruct (String.eqb_spec (key x) k) as [E | NE].
  - subst k. rewrite String.eqb_refl in IH. simpl in IH.
    destruct (Nat.ltb_spec (List.length (filter (String.eqb (key x)) seen)) n);
      simpl; [rewrite String.eqb_refl; simpl|]; lia.
  - assert (E' : String.eqb k (key x) = false).
    { apply String.eqb_neq. congruence. }
    rewrite E' in IH.
    destruct (_ <? n)%nat; simpl; [|exact IH].
    assert (E2 : String.eqb (key x) k = false) by (now apply String.eqb_neq).
    rewrite E2. exact IH.
Qed.

(** C6.  For every AQI table, list of states, year and [top_n], area
    extraction returns at most [top_n] rows for a state, and the rows of
    a state are in descending order of average AQI. *)
Theorem top_areas_at_most_top_n_sorted_descending
    (aqi_df : list Aqi.row) (states : list string) (year : Z) (top_n : nat)
    (s : string) :
  let rows_of_s :=
    filter (fun r => String.eqb (Area.state r) s)
           (extract_high_aqi_areas aqi_df states year top_n) in
  (List.length rows_of_s <= top_n)%nat /\
  StronglySorted (descending Area.avg_aqi) rows_of_s.
Proof.
  cbv zeta. unfold extract_high_aqi_areas, groupby_head. split.
  - etransitivity; [apply groupby_head_from_count|]. simpl. lia.
  - match goal with
    | |- StronglySorted _ (filter _ (groupby_head_from _ _ _ _ (insertion_sort _ ?l))) =>
        set (avg_area := l)
    end.
    assert (HS : StronglySorted area_order
                   (insertion_sort state_asc_avg_desc avg_area)).
    { apply insertion_sort_sorted with (P := fun _ => True).
      - apply area_order_trans.
      - intros x y _ _. apply state_asc_avg_desc_true.
      - intros x y _ _. apply state_asc_avg_desc_false.
      - apply Forall_forall. auto. }
    apply (groupby_head_from_sorted String.eqb Area.state area_order top_n []) in HS.
    apply (StronglySorted_filter _ (fun r => String.eqb (Area.state r) s)) in HS.
    eapply StronglySorted_impl; [|exact HS].
    intros x y Hx Hy [Hlt | [_ Hd]]; [|exact Hd].
    apply filter_In in Hx, Hy. destruct Hx as [_ Hx], Hy as [_ Hy].
    apply String.eqb_eq in Hx, Hy. rewrite Hx, Hy, string_compare_refl in Hlt.
    discriminate.
Qed.

(* ================================================================== *)
(** ** The size of the cost projection *)

Section Unique.
Context {K : Type} (eqb : K -> K -> bool).
Hypothesis eqb_eq : forall a b, eqb a b = true <-> a = b.

Lemma In_unique_iff (ks : list K) (k : K) : In k (unique eqb ks) <-> In k ks.
Proof.
  split; [apply In_unique|].
  induction ks as [|k0 ks IH]; simpl; [tauto|].
  intros [-> | Hin]; [auto|].
  destruct (eqb k k0) eqn:E.
  - apply eqb_eq in E. auto.
  - right. apply filter_In. split; [auto|]. now rewrite E.
Qed.

Lemma NoDup_unique (ks : list K) : NoDup (unique eqb ks).
Proof.
  induction ks as [|k0 ks IH]; simpl; constructor.
  - intros Hin. apply filter_In in Hin. destruct Hin as [_ Hin].
    assert (E : eqb k0 k0 = true) by (now apply eqb_eq).
    rewrite E in Hin. discriminate.
  - now apply NoDup_filter.
Qed.

End Unique.

Lemma state_year_eqb_eq (a b : string * Z) : state_year_eqb a b = true <-> a = b.
Proof.
  destruct a as [s y], b as [s' y']. unfold state_year_eqb, pair_eqb. simpl.
  rewrite andb_true_iff, String.eqb_eq, Z.eqb_eq. split.
  - intros [-> ->]. reflexivity.
  - intros E. injection E as -> ->. auto.
Qed.

Lemma length_merge_cross {L R : Type} (left : list L) (right : list R) :
  List.length (merge_cross left right) = (List.length left * List.length right)%nat.
Proof.
  unfold merge_cross. induction left as [|l left IH]; simpl; [reflexivity|].
  now rewrite length_app, length_map, IH.
Qed.

Lemma length_merge_left_ge {L R : Type} (on : L -> R -> bool)
    (left : list L) (right : list R) :
  (List.length left <= List.length (merge_left on left right))%nat.
Proof.
  unfold merge_left. induction left as [|l left IH]; cbn [flat_map]; [simpl; lia|].
  rewrite length_app. set (rest := flat_map _ left) in *.
  destruct (filter (on l) right); simpl; lia.
Qed.

Lemma length_merge_left_unique {L R : Type} (on : L -> R -> bool)
    (left : list L) (right : list R) :
  (forall l, In l left -> (List.length (filter (on l) right) <= 1)%nat) ->
  List.length (merge_left on left right) = List.length left.
Proof.
  unfold merge_left. induction left as [|l left IH]; cbn [flat_map]; intros H;
    [reflexivity|].
  rewrite length_app, IH by (intros; apply H; simpl; auto).
  specialize (H l (or_introl eq_refl)).
  destruct (filter (on l) right) as [|r [|r' ms]]; simpl in *; lia.
Qed.

Lemma filter_key_NoDup {R : Type} (key : R -> string) (k : string) (df : list R) :
  NoDup (map key df) ->
  (List.length (filter (fun r => String.eqb k (key r)) df) <= 1)%nat.
Proof.
  induction df as [|r df IH]; simpl; intros HN; [lia|].
  inversion HN as [|? ? Hnotin HN']; subst.
  destruct (String.eqb_spec k (key r)) as [E | NE]; [|auto].
  simpl. assert (E0 : filter (fun r0 => String.eqb k (key r0)) df = []).
  { destruct (filter (fun r0 => String.eqb k (key r0)) df) as [|x l] eqn:F;
      [reflexivity|].
    exfalso. apply Hnotin.
    assert (Hx : In x (filter (fun r0 => String.eqb k (key r0)) df))
      by (rewrite F; simpl; auto).
    apply filter_In in Hx. destruct Hx as [Hx Hk]. apply String.eqb_eq in Hk.
    rewrite <- E, Hk. now apply in_map. }
  rewrite E0. simpl. lia.
Qed.

Lemma filter_map_swap {T U : Type} (f : T -> U) (p : U -> bool) (l : list T) :
  filter p (map f l) = map f (filter (fun x => p (f x)) l).
Proof.
  induction l as [|x l IH]; simpl; [reflexivity|].
  destruct (p (f x)); simpl; congruence.
Qed.

Lemma NoDup_fst_of_year (keys : list (string * Z)) (y : Z) :
  NoDup keys ->
  NoDup (map fst (filter (fun k => Z.eqb (snd k) y) keys)).
Proof.
  induction 1 as [|k keys Hk HN IH]; simpl; [constructor|].
  destruct (Z.eqb_spec (snd k) y) as [E | NE]; [|assumption].
  simpl. constructor; [|assumption].
  intros Hin. apply in_map_iff in Hin. destruct Hin as ([s' y'] & Es & Hin).
  apply filter_In in Hin. destruct Hin as [Hin Ey].
  apply Z.eqb_eq in Ey. simpl in *. apply Hk.
  destruct k as [s0 y0]. simpl in *. subst. exact Hin.
Qed.

(** The states of the AQI frame of the target year, in terms of the
    group keys. *)
Lemma cost_aqi_target_states (target_year : Z) (cf_aqi : Q) (aqi_df : list Aqi.row) :
  exists keys,
    NoDup keys /\
    (forall k, In k keys <->
               In k (map (fun r => (normalize (Aqi.state r), ts_year (Aqi.date r)))
                       aqi_df)) /\
    map AqiDelta.state (cost_aqi_target target_year cf_aqi aqi_df)
    = map fst (filter (fun k => Z.eqb (snd k) target_year) keys).
Proof.
  unfold cost_aqi_target, groupby_mean.
  set (df := map (fun r => {| Aqi.date := Aqi.date r;
                              Aqi.state := normalize (Aqi.state r);
                              Aqi.area := Aqi.area r;
                              Aqi.aqi_value := Aqi.aqi_value r |}) aqi_df).
  set (keys := insertion_sort state_year_leb
                 (unique state_year_eqb
                    (map (fun r => (Aqi.state r, ts_year (Aqi.date r))) df))).
  exists keys. split; [|split].
  - eapply Permutation_NoDup; [apply Permutation_sym, insertion_sort_perm|].
    apply NoDup_unique, state_year_eqb_eq.
  - intros k. unfold keys. split; intros Hin.
    + eapply Permutation_in in Hin; [|apply insertion_sort_perm].
      apply In_unique in Hin. unfold df in Hin. now rewrite map_map in Hin.
    + eapply Permutation_in; [apply Permutation_sym, insertion_sort_perm|].
      apply In_unique_iff; [apply state_year_eqb_eq|].
      unfold df. now rewrite map_map.
  - rewrite !map_map, filter_map_swap, map_map. simpl.
    reflexivity.
Qed.

Lemma cost_aqi_target_NoDup (target_year : Z) (cf_aqi : Q) (aqi_df : list Aqi.row) :
  NoDup (map AqiDelta.state (cost_aqi_target target_year cf_aqi aqi_df)).
Proof.
  destruct (cost_aqi_target_states target_year cf_aqi aqi_df) as (keys & HN & _ & ->).
  now apply NoDup_fst_of_year.
Qed.

Lemma length_cost_states (target_year : Z) (cf_aqi : Q) (aqi_df : list Aqi.row) :
  List.length (cost_states target_year cf_aqi aqi_df)
  = List.length (states_with_aqi aqi_df target_year).
Proof.
  apply Permutation_length, NoDup_Permutation.
  - apply NoDup_unique, String.eqb_eq.
  - apply NoDup_unique, String.eqb_eq.
  - intros s. unfold cost_states, states_with_aqi.
    rewrite !In_unique_iff by apply String.eqb_eq.
    destruct (cost_aqi_target_states target_year cf_aqi aqi_df) as (keys & _ & Hk & ->).
    rewrite !in_map_iff. split.
    + intros ([s' y] & <- & Hin). apply filter_In in Hin. destruct Hin as [Hin Ey].
      apply Hk in Hin. apply in_map_iff in Hin. destruct Hin as (r & E & Hr).
      injection E as <- <-. exists r. split; [reflexivity|].
      apply filter_In. auto.
    + intros (r & <- & Hr). apply filter_In in Hr. destruct Hr as [Hr Ey].
      exists (normalize (Aqi.state r), ts_year (Aqi.date r)). split; [reflexivity|].
      apply filter_In. split; [|exact Ey].
      apply Hk. apply in_map_iff. eauto.
Qed.

(** C5, the claim as stated, fails.  Two states (goa, kerala) have AQI
    data in 2024 and the reference table has two outcomes, but with two
    population rows for goa the left join doubles its rows: the
    projection has six rows, not four. *)
Lemma cost_projection_duplicated_population :
  List.length (states_with_aqi cost_aqi 2024) = 2%nat /\
  List.length sample_hp = 2%nat /\
  map PopYear.state (get_population_by_year dup_pop 2024) = ["goa"; "goa"]%string /\
  map (fun r => (Cost.state r, Cost.outcome r, Cost.population r))
      (compute_health_cost_impacts power_interp 2024 35 sample_hp dup_pop cost_aqi)
  = [ ("Goa", "Heart Disease", Fin 1500); ("Goa", "Heart Disease", Fin 1505);
      ("Goa", "Asthma", Fin 1500); ("Goa", "Asthma", Fin 1505);
      ("Kerala", "Heart Disease", NaN); ("Kerala", "Asthma", NaN) ]%string.
Proof. vm_compute. repeat split. Qed.

(* ================================================================== *)
(** ** The join of the risk pipeline *)

(** X1.  The risk table is an inner join: when the pipeline returns, a
    state name is in the risk table if and only if it is the state name
    of an AQI reading of the target year (as spelled in the AQI file),
    the normalized state name of a population row selected for the year,
    and the normalized state name of an expenditure row. *)
Theorem risk_table_is_inner_join
    (argsort : list num -> list nat)
    (aqi_df : list Aqi.row) (pop_df : Pop.frame) (mpce_df : list Mpce.row)
    (target_year : Z) (top_states top_areas_per_state top_global_areas : nat)
    (risk_df : list Risk.row) (areas_df global_areas_df : list Area.row)
    (s : string) :
  argsort_contract argsort ->
  compute_state_risk argsort aqi_df pop_df mpce_df target_year
    top_states top_areas_per_state top_global_areas
  = Ok (risk_df, areas_df, global_areas_df) ->
  In s (map Risk.state risk_df) <->
  (exists r, In r aqi_df /\ Aqi.state r = s /\ ts_year (Aqi.date r) = target_year) /\
  In s (map PopYear.state (get_population_by_year pop_df target_year)) /\
  (exists m, In m mpce_df /\ normalize (Mpce.State_UT m) = s).
Proof.
  intros Hc E. apply compute_state_risk_ok in E. destruct E as [_ ->].
  assert (Haqi : forall a, In a (filter (fun r => Z.eqb (AqiAnn.year r) target_year)
                                   (annual_state_aqi_calendar aqi_df)) ->
           exists r, In r aqi_df /\ Aqi.state r = AqiAnn.state a
                     /\ ts_year (Aqi.date r) = target_year).
  { intros a Ha. apply filter_In in Ha. destruct Ha as [Ha Ey].
    apply Z.eqb_eq in Ey. unfold annual_state_aqi_calendar in Ha.
    apply in_map_iff in Ha. destruct Ha as (g & <- & Hg).
    apply groupby_mean_inv in Hg; [|apply state_year_eqb_refl].
    destruct Hg as [Hg _]. apply in_map_iff in Hg. destruct Hg as (r & Er & Hr).
    simpl in *. exists r. rewrite <- Er in *. simpl in *. auto. }
  split.
  - intros Hs. apply in_map_iff in Hs. destruct Hs as (row & <- & Hrow).
    eapply Permutation_in in Hrow; [|now apply sort_values_desc_perm].
    unfold scored_frame in Hrow. apply in_map_iff in Hrow.
    destruct Hrow as ([[a p] m] & <- & Hin). simpl.
    unfold drivers in Hin. apply in_merge_inner in Hin.
    destruct Hin as (Hap & Hm & Hon). apply in_merge_inner in Hap.
    destruct Hap as (Ha & Hp & Hon'). simpl in Hon, Hon'.
    apply String.eqb_eq in Hon, Hon'. split; [|split].
    + now apply Haqi.
    + rewrite Hon'. now apply in_map.
    + unfold project_mpce_2425 in Hm. apply in_map_iff in Hm.
      destruct Hm as (mr & <- & Hmr). exists mr. simpl in Hon. auto.
  - intros ((r & Hr & Es & Ey) & Hp & (mr & Hmr & Em)).
    apply in_map_iff in Hp. destruct Hp as (p & Ep & Hp).
    assert (Ha : exists a, In a (filter (fun r => Z.eqb (AqiAnn.year r) target_year)
                                   (annual_state_aqi_calendar aqi_df))
                           /\ AqiAnn.state a = s).
    { unfold annual_state_aqi_calendar, groupby_mean.
      eexists {| AqiAnn.state := s; AqiAnn.year := target_year; AqiAnn.avg_aqi := _ |}.
      split; [|reflexivity]. apply filter_In. split; [|apply Z.eqb_refl].
      rewrite map_map. apply in_map_iff. exists (s, target_year). split; [reflexivity|].
      eapply Permutation_in; [apply Permutation_sym, insertion_sort_perm|].
      apply In_unique_iff; [apply state_year_eqb_eq|].
      apply in_map_iff. exists r. split; [congruence | assumption]. }
    destruct Ha as (a & Ha & Ea).
    apply in_map_iff.
    exists (scored_row ((a, p, {| MpceProj.state := normalize (Mpce.State_UT mr);
                                  MpceProj.mpce_2024_25 :=
                                    mean [proj_rural_2425 mr; proj_urban_2425 mr] |}),
                        scaled_cells (map metrics
                                        (drivers aqi_df pop_df mpce_df target_year))
                          (metrics (a, p, {| MpceProj.state := normalize (Mpce.State_UT mr);
                                             MpceProj.mpce_2024_25 :=
                                               mean [proj_rural_2425 mr;
                                                     proj_urban_2425 mr] |})))).
    split; [exact Ea|].
    eapply Permutation_in; [apply Permutation_sym; now apply sort_values_desc_perm|].
    unfold scored_frame. apply in_map_iff. eexists. split; [reflexivity|].
    unfold drivers. apply in_merge_inner. split; [|split].
    + apply in_merge_inner. split; [exact Ha|]. split; [exact Hp|].
      apply String.eqb_eq. congruence.
    + unfold project_mpce_2425. apply in_map_iff. eauto.
    + simpl. apply String.eqb_eq. congruence.
Qed.

(** C3: what the code does where the claim fails.  With no state in all
    three tables [compute_state_risk] raises the [ValueError] of the
    scaler instead of returning an empty table; and Delhi, present in all
    three tables but spelled with a capital in the AQI file, is dropped
    from the risk table, because only the population and expenditure
    names are normalized before the join. *)
Theorem risk_join_raises_when_empty_and_compares_raw_aqi_names :
  compute_state_risk argsort_stable apart_aqi apart_pop apart_mpce 2025 10 4 3
  = Raise (ValueError NoSamples)
  /\
  exists risk_df areas_df global_areas_df,
    compute_state_risk argsort_stable capital_aqi capital_pop capital_mpce 2025 10 4 3
    = Ok (risk_df, areas_df, global_areas_df) /\
    map Risk.state risk_df = ["goa"]%string /\
    In "delhi"%string (map (fun r => normalize (Aqi.state r)) capital_aqi) /\
    In "delhi"%string (map PopYear.state (get_population_by_year capital_pop 2025)) /\
    In "delhi"%string (map MpceProj.state (project_mpce_2425 capital_mpce)).
Proof.
  split; [vm_compute; reflexivity|].
  eexists _, _, _. split; [vm_compute; reflexivity|].
  vm_compute. intuition.
Qed.

Lemma risk_table_is_inner_join_witness :
  In "goa"%string (map Risk.state sample_risk_df) <->
  (exists r, In r sample_aqi /\ Aqi.state r = "goa"%string
             /\ ts_year (Aqi.date r) = 2025%Z) /\
  In "goa"%string (map PopYear.state (get_population_by_year sample_pop 2025)) /\
  (exists m, In m sample_mpce /\ normalize (Mpce.State_UT m) = "goa"%string).
Proof.
  exact (risk_table_is_inner_join
           argsort_stable sample_aqi sample_pop sample_mpce 2025 10 4 3
           sample_risk_df sample_areas_df sample_areas_df "goa"
           argsort_stable_contract sample_risk_run).
Defined.

(** X2.  The risk pipeline raises the [ValueError] of the scaler for an
    array without rows exactly when the join of the three inputs is
    empty. *)
Theorem risk_pipeline_raises_iff_join_empty
    (argsort : list num -> list nat)
    (aqi_df : list Aqi.row) (pop_df : Pop.frame) (mpce_df : list Mpce.row)
    (target_year : Z) (top_states top_areas_per_state top_global_areas : nat) :
  compute_state_risk argsort aqi_df pop_df mpce_df target_year
    top_states top_areas_per_state top_global_areas
  = Raise (ValueError NoSamples)
  <-> drivers aqi_df pop_df mpce_df target_year = [].
Proof.
  split.
  - intros E.
    destruct (drivers aqi_df pop_df mpce_df target_year) as [|apm D] eqn:ED;
      [reflexivity|].
    destruct (compute_state_risk_returns argsort aqi_df pop_df mpce_df target_year
                top_states top_areas_per_state top_global_areas) as (out & Eout).
    + rewrite ED. discriminate.
    + rewrite Eout in E. discriminate.
  - apply compute_state_risk_empty.
Qed.

Lemma risk_pipeline_raises_witness :
  drivers apart_aqi apart_pop apart_mpce 2025 = [] /\
  compute_state_risk argsort_stable apart_aqi apart_pop apart_mpce 2025 10 4 3
  = Raise (ValueError NoSamples).
Proof.
  assert (E : drivers apart_aqi apart_pop apart_mpce 2025 = [])
    by (vm_compute; reflexivity).
  split; [exact E|].
  exact (proj2 (risk_pipeline_raises_iff_join_empty
                  argsort_stable apart_aqi apart_pop apart_mpce 2025 10 4 3) E).
Defined.

(** The weighted sum on binary64, at the two extreme rows: the least
    score is 0.0 and the greatest is below 1.0. *)
Lemma weighted_sum_binary64_extremes :
  PrimFloat.eqb (weighted_sum (float_lit 0) (float_lit 0) (float_lit 1)) (float_lit 0)
  = true /\
  PrimFloat.ltb (weighted_sum (float_lit 1) (float_lit 1) (float_lit 0)) (float_lit 1)
  = true.
Proof. vm_compute. split; reflexivity. Qed.

(* ================================================================== *)
(** ** The join key *)

Lemma is_space_to_lower (c : ascii) : is_space (to_lower c) = is_space c.
Proof. destruct c as [[] [] [] [] [] [] [] []]; reflexivity. Qed.

Lemma to_lower_idempotent (c : ascii) : to_lower (to_lower c) = to_lower c.
Proof. destruct c as [[] [] [] [] [] [] [] []]; reflexivity. Qed.

Lemma str_lower_idempotent (s : string) : str_lower (str_lower s) = str_lower s.
Proof.
  unfold str_lower. induction s as [|c s IH]; simpl; [reflexivity|].
  now rewrite to_lower_idempotent, IH.
Qed.

Lemma str_lower_lstrip (s : string) : str_lower (str_lstrip s) = str_lstrip (str_lower s).
Proof.
  unfold str_lower. induction s as [|c s IH]; simpl; [reflexivity|].
  rewrite is_space_to_lower. destruct (is_space c); simpl; auto.
Qed.

Lemma str_lower_rstrip (s : string) : str_lower (str_rstrip s) = str_rstrip (str_lower s).
Proof.
  unfold str_lower. induction s as [|c s IH]; simpl; [reflexivity|].
  rewrite is_space_to_lower, <- IH.
  destruct (str_rstrip s) as [|d r]; simpl; destruct (is_space c); reflexivity.
Qed.

Lemma str_rstrip_idempotent (s : string) : str_rstrip (str_rstrip s) = str_rstrip s.
Proof.
  induction s as [|c s IH]; simpl; [reflexivity|].
  destruct (is_space c) eqn:Ec; simpl.
  - destruct (str_rstrip s) as [|d r] eqn:Er; simpl; [reflexivity|].
    rewrite Ec. simpl in IH. rewrite IH. reflexivity.
  - rewrite Ec, IH. reflexivity.
Qed.

(** A string without a leading blank keeps its first character when its
    trailing blanks are removed. *)
Lemma str_lstrip_rstrip (s : string) :
  str_lstrip (str_rstrip (str_lstrip s)) = str_rstrip (str_lstrip s).
Proof.
  induction s as [|c s IH]; simpl; [reflexivity|].
  destruct (is_space c) eqn:Ec; [exact IH|].
  simpl. rewrite Ec. simpl. now rewrite Ec.
Qed.

Lemma str_strip_idempotent (s : string) : str_strip (str_strip s) = str_strip s.
Proof.
  unfold str_strip. now rewrite str_lstrip_rstrip, str_rstrip_idempotent.
Qed.

Lemma normalize_idempotent_eq (s : string) : normalize (normalize s) = normalize s.
Proof.
  unfold normalize, str_strip.
  rewrite str_lower_rstrip, str_lower_lstrip, str_lower_idempotent.
  apply str_strip_idempotent.
Qed.

(* ================================================================== *)
(** ** Groups *)

(** The rows of [groupby(...).mean()]: one per key of the frame, with the
    mean of the cells of the rows that have the key. *)
Lemma in_groupby_mean {R K : Type} (eqb leb : K -> K -> bool)
    (key : R -> K) (col : R -> Q) (df : list R) (g : K * num) :
  (forall a b, eqb a b = true <-> a = b) ->
  In g (groupby_mean eqb leb key col df) <->
  In (fst g) (map key df) /\
  snd g = mean (map col (filter (fun r => eqb (key r) (fst g)) df)).
Proof.
  intros Heq. unfold groupby_mean. rewrite in_map_iff. split.
  - intros (k & <- & Hk). simpl. split; [|reflexivity].
    eapply Permutation_in in Hk; [|apply insertion_sort_perm].
    now apply In_unique in Hk.
  - intros [Hk Hm]. exists (fst g). split.
    + destruct g as [k m]. simpl in *. now rewrite Hm.
    + eapply Permutation_in; [apply Permutation_sym, insertion_sort_perm|].
      now apply In_unique_iff.
Qed.

Lemma groupby_mean_keys {R K : Type} (eqb leb : K -> K -> bool)
    (key : R -> K) (col : R -> Q) (df : list R) :
  map fst (groupby_mean eqb leb key col df)
  = insertion_sort leb (unique eqb (map key df)).
Proof.
  unfold groupby_mean. rewrite map_map. simpl. apply map_id.
Qed.

Lemma groupby_mean_keys_NoDup {R K : Type} (eqb leb : K -> K -> bool)
    (key : R -> K) (col : R -> Q) (df : list R) :
  (forall a b, eqb a b = true <-> a = b) ->
  NoDup (map fst (groupby_mean eqb leb key col df)).
Proof.
  intros Heq. rewrite groupby_mean_keys.
  eapply Permutation_NoDup; [apply Permutation_sym, insertion_sort_perm|].
  now apply NoDup_unique.
Qed.

(* ================================================================== *)
(** ** [annual_state_aqi_calendar] *)

Lemma state_year_order_trans (a b c : string * Z) :
  state_year_order a b -> state_year_order b c -> state_year_order a c.
Proof.
  unfold state_year_order.
  intros [Hab | [Eab Hab]] [Hbc | [Ebc Hbc]].
  - left. eapply string_compare_trans; eauto.
  - left. now rewrite <- Ebc.
  - left. now rewrite Eab.
  - right. split; [congruence | lia].
Qed.

Lemma state_year_leb_true (a b : string * Z) :
  state_year_leb a b = true -> state_year_order a b.
Proof.
  unfold state_year_leb, pair_leb, state_year_order, str_leb, String.leb.
  destruct (String.eqb_spec (fst a) (fst b)) as [E | NE].
  - intros H. apply Z.leb_le in H. auto.
  - destruct (String.compare (fst a) (fst b)) eqn:C; auto.
    + apply String.compare_eq_iff in C. contradiction.
    + discriminate.
Qed.

Lemma state_year_leb_false (a b : string * Z) :
  state_year_leb a b = false -> state_year_order b a.
Proof.
  unfold state_year_leb, pair_leb, state_year_order, str_leb, String.leb.
  destruct (String.eqb_spec (fst a) (fst b)) as [E | NE].
  - intros H. apply Z.leb_gt in H. right. split; [congruence | lia].
  - rewrite (String.compare_antisym (fst b) (fst a)).
    destruct (String.compare (fst a) (fst b)); try discriminate.
    auto.
Qed.

(** X3.  The annual AQI table has exactly one row for every pair of a
    state (as spelled in the file) and a year with a reading, its rows
    are in ascending order of state and year, and the average of a row
    is the mean of the readings of that state in that year. *)
Theorem annual_aqi_one_row_per_state_year (df_aqi : list Aqi.row) :
  let ann := annual_state_aqi_calendar df_aqi in
  let key := fun a => (AqiAnn.state a, AqiAnn.year a) in
  NoDup (map key ann) /\
  StronglySorted state_year_order (map key ann) /\
  (forall a, In a ann <->
     (exists r, In r df_aqi /\ Aqi.state r = AqiAnn.state a
                /\ ts_year (Aqi.date r) = AqiAnn.year a) /\
     AqiAnn.avg_aqi a = mean (readings_of df_aqi (AqiAnn.state a) (AqiAnn.year a))).
Proof.
  cbv zeta. unfold annual_state_aqi_calendar.
  set (G := groupby_mean state_year_eqb state_year_leb
              (fun r => (Aqi.state r, ts_year (Aqi.date r))) Aqi.aqi_value df_aqi).
  assert (Ekeys : map (fun a => (AqiAnn.state a, AqiAnn.year a))
                    (map (fun g => {| AqiAnn.state := fst (fst g);
                                      AqiAnn.year := snd (fst g);
                                      AqiAnn.avg_aqi := snd g |}) G)
                  = map fst G).
  { rewrite map_map. apply map_ext. intros [[s y] m]. reflexivity. }
  rewrite Ekeys. split; [|split].
  - apply groupby_mean_keys_NoDup, state_year_eqb_eq.
  - unfold G. rewrite groupby_mean_keys.
    apply insertion_sort_sorted with (P := fun _ => True).
    + apply state_year_order_trans.
    + intros x y _ _. apply state_year_leb_true.
    + intros x y _ _. apply state_year_leb_false.
    + apply Forall_forall. auto.
  - intros a. rewrite in_map_iff. split.
    + intros (g & <- & Hg). simpl.
      apply in_groupby_mean in Hg; [|apply state_year_eqb_eq].
      destruct Hg as [Hk Hm]. split; [|exact Hm].
      apply in_map_iff in Hk. destruct Hk as (r & Er & Hr).
      exists r. rewrite <- Er. simpl. auto.
    + intros [(r & Hr & Es & Ey) Hm].
      exists ((AqiAnn.state a, AqiAnn.year a), AqiAnn.avg_aqi a). split.
      * destruct a. reflexivity.
      * apply in_groupby_mean; [apply state_year_eqb_eq|]. simpl. split; [|exact Hm].
        apply in_map_iff. exists r. split; [congruence | assumption].
Qed.

(* ================================================================== *)
(** ** [get_population_by_year] *)

(** [Series.max()] of a column of month numbers. *)
Lemma series_max_from (xs : list (option Z)) (m0 : option Z) :
  let f := fun (m x : option Z) =>
             match m, x with
             | Some a, Some b => Some (Z.max a b)
             | None, _ => x
             | _, None => m
             end in
  match fold_left f xs m0 with
  | None => m0 = None /\ forall x, In x xs -> x = None
  | Some m =>
      (m0 = Some m \/ In (Some m) xs) /\
      (forall a, m0 = Some a -> (a <= m)%Z) /\
      (forall a, In (Some a) xs -> (a <= m)%Z)
  end.
Proof.
  cbv zeta. revert m0. induction xs as [|x xs IH]; intros m0; simpl.
  - destruct m0 as [a|].
    + split; [auto|]. split; [intros b E; injection E as ->; lia | tauto].
    + split; [reflexivity | tauto].
  - specialize (IH (match m0, x with
                    | Some a, Some b => Some (Z.max a b)
                    | None, _ => x
                    | _, None => m0
                    end)).
    destruct (fold_left _ xs _) as [m|].
    + destruct IH as (Hin & Hm0 & Hxs). destruct m0 as [a|], x as [b|].
      * split; [|split].
        -- destruct Hin as [E | Hin]; [|auto]. injection E as <-.
           destruct (Z.max_spec a b) as [[_ ->] | [_ ->]]; auto.
        -- intros a' E. injection E as <-. specialize (Hm0 _ eq_refl). lia.
        -- intros a' [E | Hin']; [|auto]. injection E as <-.
           specialize (Hm0 _ eq_refl). lia.
      * split; [|split].
        -- destruct Hin as [E | Hin]; auto.
        -- exact Hm0.
        -- intros a' [E | Hin']; [discriminate | auto].
      * split; [|split].
        -- destruct Hin as [E | Hin]; auto.
        -- discriminate.
        -- intros a' [E | Hin']; [|auto]. injection E as <-. auto.
      * split; [|split].
        -- destruct Hin as [E | Hin]; [discriminate | auto].
        -- discriminate.
        -- intros a' [E | Hin']; [discriminate | auto].
    + destruct IH as (E & Hxs). destruct m0 as [a|], x as [b|]; try discriminate.
      split; [reflexivity|]. intros x [<- | Hin]; auto.
Qed.

Lemma series_max_spec (xs : list (option Z)) :
  match series_max xs with
  | None => forall x, In x xs -> x = None
  | Some m => In (Some m) xs /\ forall a, In (Some a) xs -> (a <= m)%Z
  end.
Proof.
  pose proof (series_max_from xs None) as H. cbv zeta in H.
  unfold series_max. destruct (fold_left _ xs None) as [m|].
  - destruct H as ([E | Hin] & _ & Hxs); [discriminate | auto].
  - tauto.
Qed.

(** The rows [latest_month] keeps: those whose month is recognised and is
    the latest one among the recognised months of the frame. *)
Lemma in_latest_month (df_year : list Pop.row) (r : Pop.row) :
  In r (latest_month df_year) <->
  In r df_year /\
  exists m, month_number r = Some m /\
    forall r' m', In r' df_year -> month_number r' = Some m' -> (m' <= m)%Z.
Proof.
  change (latest_month df_year)
    with (filter (fun r => cell_eqb (month_number r)
                             (series_max (map month_number df_year))) df_year).
  pose proof (series_max_spec (map month_number df_year)) as H.
  rewrite filter_In. destruct (series_max (map month_number df_year)) as [mx|].
  - destruct H as [Hin Hmax]. split.
    + intros [Hr E]. split; [exact Hr|].
      destruct (month_number r) as [m|]; simpl in E; [|discriminate].
      apply Z.eqb_eq in E. subst mx. exists m. split; [reflexivity|].
      intros r' m' Hr' E'. apply Hmax. rewrite <- E'. now apply in_map.
    + intros [Hr (m & E & Hm)]. split; [exact Hr|]. rewrite E. simpl.
      apply Z.eqb_eq. apply in_map_iff in Hin. destruct Hin as (r0 & E0 & Hr0).
      specialize (Hm r0 mx Hr0 E0).
      assert (m <= mx)%Z by (apply Hmax; rewrite <- E; now apply in_map).
      lia.
  - split.
    + intros [_ E]. destruct (month_number r); discriminate.
    + intros [Hr (m & E & _)]. specialize (H (month_number r) (in_map _ _ _ Hr)).
      congruence.
Qed.

Lemma month_number_normalize_pop_state (r : Pop.row) :
  month_number (normalize_pop_state r) = month_number r.
Proof. reflexivity. Qed.

(** X4.  The population table of a year holds the rows of the file for
    that year, with the state name normalized; when the file has a month
    column, only the rows of the latest recognised month of that year,
    taken over all states, are kept. *)
Theorem population_rows_are_latest_month (pop_df : Pop.frame) (year : Z)
    (p : PopYear.row) :
  In p (get_population_by_year pop_df year) <->
  exists r,
    In r (Pop.rows pop_df) /\ Pop.year r = year /\
    p = {| PopYear.state := normalize (Pop.state r);
           PopYear.population := Fin (Pop.pop_total r) |} /\
    (Pop.has_month pop_df = true ->
     exists m, month_number r = Some m /\
       forall r' m', In r' (Pop.rows pop_df) -> Pop.year r' = year ->
                     month_number r' = Some m' -> (m' <= m)%Z).
Proof.
  unfold get_population_by_year. rewrite in_map_iff.
  destruct (Pop.has_month pop_df).
  - split.
    + intros (n & <- & Hn). apply in_latest_month in Hn.
      destruct Hn as [Hn (m & Em & Hmax)].
      apply filter_In in Hn. destruct Hn as [Hn Ey]. apply Z.eqb_eq in Ey.
      apply in_map_iff in Hn. destruct Hn as (r & <- & Hr).
      exists r. repeat split; try assumption.
      intros _. exists m. split; [exact Em|].
      intros r' m' Hr' Ey' Em'. apply (Hmax (normalize_pop_state r') m'); [|exact Em'].
      apply filter_In. split; [now apply in_map|]. now apply Z.eqb_eq.
    + intros (r & Hr & Ey & -> & Hm). destruct (Hm eq_refl) as (m & Em & Hmax).
      exists (normalize_pop_state r). split; [reflexivity|].
      apply in_latest_month. split.
      * apply filter_In. split; [now apply in_map|]. now apply Z.eqb_eq.
      * exists m. split; [exact Em|]. intros n m' Hn Em'.
        apply filter_In in Hn. destruct Hn as [Hn Eyn]. apply Z.eqb_eq in Eyn.
        apply in_map_iff in Hn. destruct Hn as (r' & <- & Hr').
        now apply (Hmax r' m').
  - split.
    + intros (n & <- & Hn). apply filter_In in Hn. destruct Hn as [Hn Ey].
      apply Z.eqb_eq in Ey. apply in_map_iff in Hn. destruct Hn as (r & <- & Hr).
      exists r. repeat split; try assumption. discriminate.
    + intros (r & Hr & Ey & -> & _). exists (normalize_pop_state r).
      split; [reflexivity|]. apply filter_In. split; [now apply in_map|].
      now apply Z.eqb_eq.
Qed.

(* ================================================================== *)
(** ** [groupby(...).head(n)] *)

Lemma filter_length_perm {T : Type} (f : T -> bool) (l l' : list T) :
  Permutation l l' -> List.length (filter f l) = List.length (filter f l').
Proof.
  induction 1 as [|x l l' HP IH|x y l|l l' l'' HP1 IH1 HP2 IH2]; simpl.
  - reflexivity.
  - destruct (f x); simpl; congruence.
  - destruct (f x), (f y); reflexivity.
  - congruence.
Qed.

(** The number of rows [head(n)] keeps for a key. *)
Lemma groupby_head_from_count_eq {R : Type} (key : R -> string)
    (n : nat) (seen : list string) (df : list R) (k : string) :
  List.length (filter (fun r => String.eqb (key r) k)
                 (groupby_head_from String.eqb key n seen df))
  = Nat.min (n - List.length (filter (String.eqb k) seen))
            (List.length (filter (fun r => String.eqb (key r) k) df)).
Proof.
  revert seen. induction df as [|x df IH]; intros seen; simpl; [lia|].
  specialize (IH (key x :: seen)). simpl in IH.
  destruct (String.eqb_spec (key x) k) as [E | NE].
  - subst k. rewrite String.eqb_refl in IH. simpl in IH.
    destruct (Nat.ltb_spec (List.length (filter (String.eqb (key x)) seen)) n);
      simpl; [rewrite String.eqb_refl; simpl|]; lia.
  - assert (E' : String.eqb k (key x) = false).
    { apply String.eqb_neq. congruence. }
    rewrite E' in IH.
    destruct (_ <? n)%nat; simpl; [|exact IH].
    assert (E2 : String.eqb (key x) k = false) by (now apply String.eqb_neq).
    rewrite E2. exact IH.
Qed.

(** A row is kept only while fewer than [n] rows of its key have been
    seen. *)
Lemma groupby_head_from_room {R : Type} (key : R -> string)
    (n : nat) (seen : list string) (df : list R) (r : R) :
  In r (groupby_head_from String.eqb key n seen df) ->
  (List.length (filter (String.eqb (key r)) seen) < n)%nat.
Proof.
  revert seen. induction df as [|x df IH]; intros seen; simpl; [tauto|].
  assert (Hrec : In r (groupby_head_from String.eqb key n (key x :: seen) df) ->
                 (List.length (filter (String.eqb (key r)) seen) < n)%nat).
  { intros Hin. apply IH in Hin. simpl in Hin.
    destruct (String.eqb (key r) (key x)); simpl in Hin; lia. }
  destruct (Nat.ltb_spec (List.length (filter (String.eqb (key x)) seen)) n) as [L | L].
  - intros [<- | Hin]; [exact L | auto].
  - auto.
Qed.

(** In a sorted frame the rows kept for a key precede the rows dropped
    for it. *)
Lemma groupby_head_from_first {R : Type} (key : R -> string) (ord : R -> R -> Prop)
    (n : nat) (seen : list string) (df : list R) (r a : R) :
  StronglySorted ord df ->
  In r (groupby_head_from String.eqb key n seen df) ->
  In a df -> key a = key r ->
  In a (groupby_head_from String.eqb key n seen df) \/ ord r a.
Proof.
  revert seen. induction df as [|x df IH]; intros seen HS; simpl; [tauto|].
  inversion HS as [|? ? HS' Hx]; subst.
  destruct (Nat.ltb_spec (List.length (filter (String.eqb (key x)) seen)) n) as [L | L].
  - intros [<- | Hr] [<- | Ha] Ek.
    + left. simpl. auto.
    + right. rewrite Forall_forall in Hx. now apply Hx.
    + left. simpl. auto.
    + destruct (IH (key x :: seen) HS' Hr Ha Ek) as [H | H]; [left; simpl|]; auto.
  - intros Hr [<- | Ha] Ek.
    + exfalso. apply groupby_head_from_room in Hr. simpl in Hr.
      rewrite Ek in L. rewrite Ek, String.eqb_refl in Hr. simpl in Hr. lia.
    + apply (IH (key x :: seen)); auto.
Qed.

Lemma groupby_head_from_NoDup {R K U : Type} (eqb : K -> K -> bool) (key : R -> K)
    (f : R -> U) (n : nat) (seen : list K) (df : list R) :
  NoDup (map f df) -> NoDup (map f (groupby_head_from eqb key n seen df)).
Proof.
  revert seen. induction df as [|x df IH]; intros seen; simpl; [auto|].
  intros HN. inversion HN as [|? ? Hnotin HN']; subst.
  destruct (_ <? n)%nat; [|auto]. simpl. constructor; [|auto].
  intros Hin. apply Hnotin. apply in_map_iff in Hin. destruct Hin as (y & E & Hy).
  apply in_map_iff. exists y. split; [exact E|].
  eapply groupby_head_from_incl; eauto.
Qed.

(* ================================================================== *)
(** ** [extract_high_aqi_areas] *)

Lemma extract_high_aqi_areas_unfold (aqi_df : list Aqi.row) (states : list string)
    (year : Z) (top_n : nat) :
  extract_high_aqi_areas aqi_df states year top_n
  = groupby_head String.eqb Area.state top_n
      (insertion_sort state_asc_avg_desc (area_averages aqi_df states year)).
Proof. reflexivity. Qed.

Lemma state_area_eqb_eq (a b : string * string) : state_area_eqb a b = true <-> a = b.
Proof.
  destruct a as [s x], b as [s' x']. unfold state_area_eqb, pair_eqb. simpl.
  rewrite andb_true_iff, !String.eqb_eq. split.
  - intros [-> ->]. reflexivity.
  - intros E. injection E as -> ->. auto.
Qed.

Lemma area_averages_sorted (aqi_df : list Aqi.row) (states : list string) (year : Z) :
  StronglySorted area_order
    (insertion_sort state_asc_avg_desc (area_averages aqi_df states year)).
Proof.
  apply insertion_sort_sorted with (P := fun _ => True).
  - apply area_order_trans.
  - intros x y _ _. apply state_asc_avg_desc_true.
  - intros x y _ _. apply state_asc_avg_desc_false.
  - apply Forall_forall. auto.
Qed.

Lemma area_averages_keys_NoDup (aqi_df : list Aqi.row) (states : list string) (year : Z) :
  NoDup (map (fun a => (Area.state a, Area.area a)) (area_averages aqi_df states year)).
Proof.
  unfold area_averages. rewrite map_map. simpl.
  match goal with
  | |- NoDup (map _ ?G) =>
      replace (map (fun x => (fst (fst x), snd (fst x))) G) with (map fst G)
  end.
  - apply groupby_mean_keys_NoDup, state_area_eqb_eq.
  - apply map_ext. intros [[s a] m]. reflexivity.
Qed.

(** The rows of [avg_area]: one per area, by normalized name, of a listed
    state with a reading in the year. *)
Lemma in_area_averages (aqi_df : list Aqi.row) (states : list string) (year : Z)
    (s a : string) :
  In (s, a) (map (fun r => (Area.state r, Area.area r))
               (area_averages aqi_df states year)) <->
  In s states /\
  exists r, In r aqi_df /\ ts_year (Aqi.date r) = year
            /\ normalize (Aqi.state r) = s /\ normalize (Aqi.area r) = a.
Proof.
  unfold area_averages. rewrite map_map. simpl.
  match goal with
  | |- In _ (map _ ?G) <-> _ =>
      replace (map (fun x => (fst (fst x), snd (fst x))) G) with (map fst G)
        by (apply map_ext; intros [[s0 a0] m]; reflexivity)
  end.
  rewrite groupby_mean_keys. split.
  - intros Hin. eapply Permutation_in in Hin; [|apply insertion_sort_perm].
    apply In_unique in Hin. apply in_map_iff in Hin. destruct Hin as (n & E & Hn).
    apply filter_In in Hn. destruct Hn as [Hn Hf].
    apply andb_true_iff in Hf. destruct Hf as [Ey Hs].
    apply Z.eqb_eq in Ey. apply existsb_exists in Hs. destruct Hs as (s' & Hs' & Es').
    apply String.eqb_eq in Es'.
    apply in_map_iff in Hn. destruct Hn as (r & <- & Hr). simpl in *.
    injection E as <- <-. split; [now rewrite Es'|].
    exists r. auto.
  - intros [Hs (r & Hr & Ey & Es & Ea)].
    eapply Permutation_in; [apply Permutation_sym, insertion_sort_perm|].
    apply In_unique_iff; [apply state_area_eqb_eq|].
    apply in_map_iff.
    exists {| Aqi.date := Aqi.date r; Aqi.state := normalize (Aqi.state r);
              Aqi.area := normalize (Aqi.area r); Aqi.aqi_value := Aqi.aqi_value r |}.
    simpl. split; [congruence|]. apply filter_In. split.
    + apply in_map_iff. exists r. auto.
    + simpl. apply andb_true_iff. split; [now apply Z.eqb_eq|].
      apply existsb_exists. exists s. split; [exact Hs|].
      apply String.eqb_eq. exact Es.
Qed.

Lemma extract_high_aqi_areas_incl (aqi_df : list Aqi.row) (states : list string)
    (year : Z) (top_n : nat) (row : Area.row) :
  In row (extract_high_aqi_areas aqi_df states year top_n) ->
  In row (area_averages aqi_df states year).
Proof.
  rewrite extract_high_aqi_areas_unfold. unfold groupby_head. intros Hrow.
  apply groupby_head_from_incl in Hrow.
  eapply Permutation_in; [apply insertion_sort_perm | exact Hrow].
Qed.

Lemma extract_high_aqi_areas_count (aqi_df : list Aqi.row) (states : list string)
    (year : Z) (top_n : nat) (s : string) :
  List.length (filter (fun r => String.eqb (Area.state r) s)
                 (extract_high_aqi_areas aqi_df states year top_n))
  = Nat.min top_n
      (List.length (filter (fun r => String.eqb (Area.state r) s)
                      (area_averages aqi_df states year))).
Proof.
  rewrite extract_high_aqi_areas_unfold. unfold groupby_head.
  rewrite groupby_head_from_count_eq. simpl. rewrite Nat.sub_0_r.
  f_equal. apply filter_length_perm, insertion_sort_perm.
Qed.

Lemma area_averages_fin (aqi_df : list Aqi.row) (states : list string) (year : Z)
    (a : Area.row) :
  In a (area_averages aqi_df states year) -> is_fin (Area.avg_aqi a).
Proof.
  intros Ha. unfold area_averages in Ha. apply in_map_iff in Ha.
  destruct Ha as (g & <- & Hg). simpl.
  apply groupby_mean_inv in Hg; [tauto|].
  intros k. now apply state_area_eqb_eq.
Qed.

(** A returned row and the other areas of its state. *)
Lemma extract_high_aqi_areas_first (aqi_df : list Aqi.row) (states : list string)
    (year : Z) (top_n : nat) (r a : Area.row) :
  In r (extract_high_aqi_areas aqi_df states year top_n) ->
  In a (area_averages aqi_df states year) ->
  Area.state a = Area.state r ->
  In a (extract_high_aqi_areas aqi_df states year top_n) \/
  (Area.avg_aqi a <= Area.avg_aqi r)%num.
Proof.
  intros Hr Ha Es.
  pose proof (area_averages_fin _ _ _ _ Ha) as Fa.
  pose proof (area_averages_fin _ _ _ _ (extract_high_aqi_areas_incl _ _ _ _ _ Hr)) as Fr.
  rewrite extract_high_aqi_areas_unfold in *. unfold groupby_head in *.
  destruct (groupby_head_from_first Area.state area_order top_n [] _ r a
              (area_averages_sorted aqi_df states year) Hr) as [H | H]; auto.
  - eapply Permutation_in; [apply Permutation_sym, insertion_sort_perm | exact Ha].
  - right. destruct H as [Hlt | [_ Hd]].
    + rewrite Es, string_compare_refl in Hlt. discriminate.
    + unfold descending in Hd.
      destruct (Area.avg_aqi r) as [x|], (Area.avg_aqi a) as [y|]; simpl in *;
        try contradiction.
      now apply Qle_bool_iff.
Qed.

(** X5.  The areas returned for a state are its highest ones: an area of
    the state that is not returned has an average no higher than any
    returned area of that state. *)
Theorem top_areas_are_the_highest
    (aqi_df : list Aqi.row) (states : list string) (year : Z) (top_n : nat)
    (r a : Area.row) :
  In r (extract_high_aqi_areas aqi_df states year top_n) ->
  In a (area_averages aqi_df states year) ->
  Area.state a = Area.state r ->
  ~ In a (extract_high_aqi_areas aqi_df states year top_n) ->
  (Area.avg_aqi a <= Area.avg_aqi r)%num.
Proof.
  intros Hr Ha Es Hnot.
  destruct (extract_high_aqi_areas_first _ _ _ _ _ _ Hr Ha Es); tauto.
Qed.

Lemma NoDup_map_inv {T U : Type} (f : T -> U) (l : list T) :
  NoDup (map f l) -> NoDup l.
Proof.
  induction l as [|x l IH]; simpl; intros HN; [constructor|].
  inversion HN as [|? ? Hnotin HN']; subst. constructor; [|auto].
  intros Hin. apply Hnotin. now apply in_map.
Qed.

(** X6.  The number of rows returned for a state is [top_n], or the
    number of its areas with a reading in the year when that is smaller;
    in the second case every area of the state is returned. *)
Theorem top_areas_exact_count
    (aqi_df : list Aqi.row) (states : list string) (year : Z) (top_n : nat)
    (s : string) :
  let areas_of_s :=
    filter (fun r => String.eqb (Area.state r) s) (area_averages aqi_df states year) in
  let rows_of_s :=
    filter (fun r => String.eqb (Area.state r) s)
           (extract_high_aqi_areas aqi_df states year top_n) in
  List.length rows_of_s = Nat.min top_n (List.length areas_of_s) /\
  ((List.length areas_of_s <= top_n)%nat -> forall a, In a areas_of_s -> In a rows_of_s).
Proof.
  cbv zeta. pose proof (extract_high_aqi_areas_count aqi_df states year top_n s) as Hc.
  split; [exact Hc|]. intros Hle.
  apply NoDup_length_incl.
  - apply NoDup_filter.
    apply (NoDup_map_inv (fun r => (Area.state r, Area.area r))).
    rewrite extract_high_aqi_areas_unfold. unfold groupby_head.
    apply groupby_head_from_NoDup.
    eapply Permutation_NoDup; [|apply area_averages_keys_NoDup].
    apply Permutation_map, Permutation_sym, insertion_sort_perm.
  - lia.
  - intros x Hx. apply filter_In in Hx. destruct Hx as [Hx Ex].
    apply filter_In. split; [|exact Ex].
    eapply extract_high_aqi_areas_incl; eauto.
Qed.

(* ================================================================== *)
(** ** The area tables of [compute_state_risk] *)

Lemma compute_state_risk_areas (argsort : list num -> list nat)
    (aqi_df : list Aqi.row) (pop_df : Pop.frame) (mpce_df : list Mpce.row)
    (target_year : Z) (top_states top_areas_per_state top_global_areas : nat)
    (risk_df : list Risk.row) (areas_df global_areas_df : list Area.row) :
  compute_state_risk argsort aqi_df pop_df mpce_df target_year
    top_states top_areas_per_state top_global_areas
  = Ok (risk_df, areas_df, global_areas_df) ->
  areas_df = extract_high_aqi_areas aqi_df (map Risk.state (firstn top_states risk_df))
               target_year top_areas_per_state /\
  global_areas_df = extract_high_aqi_areas aqi_df (all_states aqi_df)
                      target_year top_global_areas.
Proof.
  rewrite compute_state_risk_unfold, fit_transform_num.
  destruct (map metrics (drivers aqi_df pop_df mpce_df target_year)); simpl;
    [discriminate|].
  intros E. injection E as <- <- <-. split; reflexivity.
Qed.

(** Where the states of the risk table come from. *)
Lemma risk_state_inv (argsort : list num -> list nat)
    (aqi_df : list Aqi.row) (pop_df : Pop.frame) (mpce_df : list Mpce.row)
    (target_year : Z) (top_states top_areas_per_state top_global_areas : nat)
    (risk_df : list Risk.row) (areas_df global_areas_df : list Area.row)
    (row : Risk.row) :
  compute_state_risk argsort aqi_df pop_df mpce_df target_year
    top_states top_areas_per_state top_global_areas
  = Ok (risk_df, areas_df, global_areas_df) ->
  In row risk_df ->
  (exists r, In r aqi_df /\ Aqi.state r = Risk.state row
             /\ ts_year (Aqi.date r) = target_year) /\
  (exists p, In p (get_population_by_year pop_df target_year)
             /\ PopYear.state p = Risk.state row) /\
  (exists m, In m (project_mpce_2425 mpce_df) /\ MpceProj.state m = Risk.state row).
Proof.
  intros E Hrow.
  destruct (risk_row_inv _ _ _ _ _ _ _ _ _ _ _ row E Hrow) as ([[a p] m] & Hin & ->).
  simpl. unfold drivers in Hin. apply in_merge_inner in Hin.
  destruct Hin as (Hap & Hm & Hon). apply in_merge_inner in Hap.
  destruct Hap as (Ha & Hp & Hon'). simpl in Hon, Hon'.
  apply String.eqb_eq in Hon, Hon'. split; [|split].
  - apply filter_In in Ha. destruct Ha as [Ha Ey]. apply Z.eqb_eq in Ey.
    unfold annual_state_aqi_calendar in Ha.
    apply in_map_iff in Ha. destruct Ha as (g & <- & Hg).
    apply groupby_mean_inv in Hg; [|apply state_year_eqb_refl].
    destruct Hg as [Hg _]. apply in_map_iff in Hg. destruct Hg as (r & Er & Hr).
    simpl in *. exists r. rewrite <- Er in *. simpl in *. auto.
  - exists p. auto.
  - exists m. auto.
Qed.

(** A state of the risk table has readings of the target year under its
    normalized name: its name is also the normalized name of a population
    row. *)
Lemma risk_state_has_normalized_readings (argsort : list num -> list nat)
    (aqi_df : list Aqi.row) (pop_df : Pop.frame) (mpce_df : list Mpce.row)
    (target_year : Z) (top_states top_areas_per_state top_global_areas : nat)
    (risk_df : list Risk.row) (areas_df global_areas_df : list Area.row)
    (row : Risk.row) :
  compute_state_risk argsort aqi_df pop_df mpce_df target_year
    top_states top_areas_per_state top_global_areas
  = Ok (risk_df, areas_df, global_areas_df) ->
  In row risk_df ->
  exists r, In r aqi_df /\ ts_year (Aqi.date r) = target_year
            /\ normalize (Aqi.state r) = Risk.state row.
Proof.
  intros E Hrow.
  destruct (risk_state_inv _ _ _ _ _ _ _ _ _ _ _ row E Hrow)
    as ((r & Hr & Es & Ey) & (p & Hp & Ep) & _).
  exists r. split; [exact Hr|]. split; [exact Ey|].
  rewrite Es, <- Ep.
  unfold get_population_by_year in Hp. apply in_map_iff in Hp.
  destruct Hp as (n & <- & Hn). simpl.
  assert (Hnorm : exists r0, n = normalize_pop_state r0).
  { destruct (Pop.has_month pop_df).
    - apply in_latest_month in Hn. destruct Hn as [Hn _].
      apply filter_In in Hn. destruct Hn as [Hn _].
      apply in_map_iff in Hn. destruct Hn as (r0 & <- & _). eauto.
    - apply filter_In in Hn. destruct Hn as [Hn _].
      apply in_map_iff in Hn. destruct Hn as (r0 & <- & _). eauto. }
  destruct Hnorm as (r0 & ->). simpl. apply normalize_idempotent_eq.
Qed.

Lemma In_firstn {T : Type} (n : nat) (l : list T) (x : T) :
  In x (firstn n l) -> In x l.
Proof.
  intros H. rewrite <- (firstn_skipn n l). apply in_or_app. auto.
Qed.

Lemma filter_nonempty_In {T : Type} (f : T -> bool) (l : list T) :
  (0 < List.length (filter f l))%nat -> exists x, In x l /\ f x = true.
Proof.
  destruct (filter f l) as [|x l'] eqn:E; simpl; [lia|]. intros _.
  exists x. apply filter_In. rewrite E. simpl. auto.
Qed.

Lemma In_filter_length {T : Type} (f : T -> bool) (l : list T) (x : T) :
  In x l -> f x = true -> (0 < List.length (filter f l))%nat.
Proof.
  intros Hx Hf. assert (H : In x (filter f l)) by (apply filter_In; auto).
  destruct (filter f l); simpl in *; [contradiction | lia].
Qed.

(** A state with an area in the year gets a row as soon as [top_n] is
    positive. *)
Lemma extract_high_aqi_areas_covers (aqi_df : list Aqi.row) (states : list string)
    (year : Z) (top_n : nat) (s : string) :
  (0 < top_n)%nat ->
  In s states ->
  (exists r, In r aqi_df /\ ts_year (Aqi.date r) = year /\ normalize (Aqi.state r) = s) ->
  In s (map Area.state (extract_high_aqi_areas aqi_df states year top_n)).
Proof.
  intros Hn Hs (r & Hr & Ey & Es).
  assert (Hkey : In (s, normalize (Aqi.area r))
                   (map (fun a => (Area.state a, Area.area a))
                      (area_averages aqi_df states year))).
  { apply in_area_averages. split; [exact Hs|]. exists r. auto. }
  apply in_map_iff in Hkey. destruct Hkey as (a & Ea & Ha). injection Ea as Ea _.
  pose proof (extract_high_aqi_areas_count aqi_df states year top_n s) as Hc.
  assert (Hpos : (0 < List.length
                       (filter (fun r => String.eqb (Area.state r) s)
                          (area_averages aqi_df states year)))%nat).
  { eapply In_filter_length; [exact Ha|]. now apply String.eqb_eq. }
  assert (Hres : (0 < List.length
                       (filter (fun r => String.eqb (Area.state r) s)
                          (extract_high_aqi_areas aqi_df states year top_n)))%nat)
    by lia.
  apply filter_nonempty_In in Hres. destruct Hres as (x & Hx & Ex).
  apply String.eqb_eq in Ex. apply in_map_iff. exists x. auto.
Qed.

Lemma StronglySorted_app_inv {T : Type} (ord : T -> T -> Prop) (l1 l2 : list T) :
  StronglySorted ord (l1 ++ l2) ->
  forall x y, In x l1 -> In y l2 -> ord x y.
Proof.
  induction l1 as [|a l1 IH]; simpl; intros HS x y Hx Hy; [contradiction|].
  inversion HS as [|? ? HS' Ha]; subst. destruct Hx as [<- | Hx].
  - rewrite Forall_forall in Ha. apply Ha. apply in_or_app. auto.
  - now apply IH.
Qed.

(** X7.  When [top_areas_per_state] is positive, the table of top areas
    covers exactly the states of the first [top_states] rows of the risk
    table, and no row further down the risk table has a higher score than
    one of these. *)
Theorem top_areas_cover_the_top_states
    (argsort : list num -> list nat)
    (aqi_df : list Aqi.row) (pop_df : Pop.frame) (mpce_df : list Mpce.row)
    (target_year : Z) (top_states top_areas_per_state top_global_areas : nat)
    (risk_df : list Risk.row) (areas_df global_areas_df : list Area.row) :
  argsort_contract argsort ->
  compute_state_risk argsort aqi_df pop_df mpce_df target_year
    top_states top_areas_per_state top_global_areas
  = Ok (risk_df, areas_df, global_areas_df) ->
  (0 < top_areas_per_state)%nat ->
  (forall s, In s (map Area.state areas_df)
             <-> In s (map Risk.state (firstn top_states risk_df))) /\
  (forall r r', In r (firstn top_states risk_df) -> In r' (skipn top_states risk_df) ->
                descending Risk.risk_score r r').
Proof.
  intros Hc E Hn. split.
  - destruct (compute_state_risk_areas _ _ _ _ _ _ _ _ _ _ _ E) as [-> _].
    intros s. split.
    + intros Hs. apply in_map_iff in Hs. destruct Hs as (row & <- & Hrow).
      apply extract_high_aqi_areas_incl in Hrow.
      apply (in_area_averages aqi_df _ target_year (Area.state row) (Area.area row)).
      apply in_map_iff. exists row. auto.
    + intros Hs. apply extract_high_aqi_areas_covers; [exact Hn | exact Hs|].
      apply in_map_iff in Hs. destruct Hs as (row & <- & Hrow).
      apply In_firstn in Hrow.
      exact (risk_state_has_normalized_readings _ _ _ _ _ _ _ _ _ _ _ row E Hrow).
  - apply compute_state_risk_ok in E. destruct E as [_ ->].
    intros r r'. apply StronglySorted_app_inv.
    rewrite firstn_skipn. now apply sort_values_desc_sorted.
Qed.

(* ================================================================== *)
(** ** One row per state *)

Lemma NoDup_of_counts {T : Type} (f : T -> string) (l : list T) :
  (forall k, (List.length (filter (fun r => String.eqb (f r) k) l) <= 1)%nat) ->
  NoDup (map f l).
Proof.
  induction l as [|x l IH]; simpl; intros H; [constructor|]. constructor.
  - intros Hin. apply in_map_iff in Hin. destruct Hin as (y & Ey & Hy).
    specialize (H (f x)). rewrite String.eqb_refl in H. simpl in H.
    assert (0 < List.length (filter (fun r => String.eqb (f r) (f x)) l))%nat.
    { eapply In_filter_length; [exact Hy|]. now apply String.eqb_eq. }
    lia.
  - apply IH. intros k. specialize (H k).
    destruct (String.eqb (f x) k); simpl in H; lia.
Qed.

Lemma NoDup_map_eq {T U : Type} (f : T -> U) (l : list T) (a b : T) :
  NoDup (map f l) -> In a l -> In b l -> f a = f b -> a = b.
Proof.
  induction l as [|x l IH]; simpl; intros HN Ha Hb E; [contradiction|].
  inversion HN as [|? ? Hnotin HN']; subst.
  destruct Ha as [<- | Ha], Hb as [<- | Hb]; auto.
  - exfalso. apply Hnotin. rewrite E. now apply in_map.
  - exfalso. apply Hnotin. rewrite <- E. now apply in_map.
Qed.

Lemma merge_inner_nil_r {L R : Type} (on : L -> R -> bool) (left : list L) :
  merge_inner on left [] = [].
Proof.
  unfold merge_inner. induction left as [|l left IH]; simpl; auto.
Qed.

(** An inner join with at most one match per left row keeps the keys of
    the left frame distinct. *)
Lemma merge_inner_NoDup {L R U : Type} (on : L -> R -> bool) (kl : L -> U)
    (left : list L) (right : list R) :
  NoDup (map kl left) ->
  (forall l, In l left -> (List.length (filter (on l) right) <= 1)%nat) ->
  NoDup (map (fun lr => kl (fst lr)) (merge_inner on left right)).
Proof.
  unfold merge_inner. induction left as [|l left IH]; simpl; intros HN H;
    [constructor|].
  inversion HN as [|? ? Hnotin HN']; subst.
  rewrite map_app, map_map. simpl.
  assert (IH' : NoDup (map (fun lr => kl (fst lr))
                         (flat_map (fun l0 => map (pair l0) (filter (on l0) right)) left)))
    by (apply IH; auto).
  assert (Hrest : ~ In (kl l)
                      (map (fun lr => kl (fst lr))
                         (flat_map (fun l0 => map (pair l0) (filter (on l0) right))
                            left))).
  { intros Hin. apply Hnotin. apply in_map_iff in Hin.
    destruct Hin as ([l0 r0] & E & Hin). apply in_flat_map in Hin.
    destruct Hin as (l1 & Hl1 & Hin). apply in_map_iff in Hin.
    destruct Hin as (r1 & E1 & _). injection E1 as <- <-. simpl in E.
    rewrite <- E. now apply in_map. }
  specialize (H l (or_introl eq_refl)).
  destruct (filter (on l) right) as [|r [|r' ms]]; simpl in *; [assumption| |lia].
  constructor; assumption.
Qed.

Lemma annual_target_states_NoDup (aqi_df : list Aqi.row) (target_year : Z) :
  NoDup (map AqiAnn.state
           (filter (fun r => Z.eqb (AqiAnn.year r) target_year)
              (annual_state_aqi_calendar aqi_df))).
Proof.
  unfold annual_state_aqi_calendar.
  set (G := groupby_mean state_year_eqb state_year_leb
              (fun r => (Aqi.state r, ts_year (Aqi.date r))) Aqi.aqi_value aqi_df).
  rewrite filter_map_swap, map_map. simpl.
  assert (E : map (fun x => fst (fst x))
                (filter (fun x => Z.eqb (snd (fst x)) target_year) G)
              = map fst (filter (fun k => Z.eqb (snd k) target_year) (map fst G))).
  { rewrite filter_map_swap, map_map. reflexivity. }
  rewrite E. apply NoDup_fst_of_year.
  apply groupby_mean_keys_NoDup, state_year_eqb_eq.
Qed.

(** X8.  When no state has two rows in the population table selected for
    the year and no state has two rows in the expenditure table (by
    normalized name), every state has one row in the risk table. *)
Theorem risk_table_one_row_per_state
    (argsort : list num -> list nat)
    (aqi_df : list Aqi.row) (pop_df : Pop.frame) (mpce_df : list Mpce.row)
    (target_year : Z) (top_states top_areas_per_state top_global_areas : nat)
    (risk_df : list Risk.row) (areas_df global_areas_df : list Area.row) :
  argsort_contract argsort ->
  compute_state_risk argsort aqi_df pop_df mpce_df target_year
    top_states top_areas_per_state top_global_areas
  = Ok (risk_df, areas_df, global_areas_df) ->
  NoDup (map PopYear.state (get_population_by_year pop_df target_year)) ->
  NoDup (map MpceProj.state (project_mpce_2425 mpce_df)) ->
  NoDup (map Risk.state risk_df).
Proof.
  intros Hc E Hpop Hmpce. apply compute_state_risk_ok in E. destruct E as [_ ->].
  eapply Permutation_NoDup.
  { apply Permutation_map, Permutation_sym. now apply sort_values_desc_perm. }
  unfold scored_frame. rewrite map_map. simpl.
  unfold drivers.
  apply (merge_inner_NoDup _ (fun ap => AqiAnn.state (fst ap))).
  - apply (merge_inner_NoDup _ AqiAnn.state).
    + apply annual_target_states_NoDup.
    + intros a _. now apply (filter_key_NoDup PopYear.state).
  - intros ap _. now apply (filter_key_NoDup MpceProj.state).
Qed.

(* ================================================================== *)
(** ** The month selection *)

Lemma nil_of_no_element {T : Type} (l : list T) : (forall x, ~ In x l) -> l = [].
Proof.
  destruct l as [|x l]; [reflexivity|]. intros H. exfalso. apply (H x). simpl. auto.
Qed.

Lemma drivers_without_population (aqi_df : list Aqi.row) (pop_df : Pop.frame)
    (mpce_df : list Mpce.row) (target_year : Z) :
  get_population_by_year pop_df target_year = [] ->
  drivers aqi_df pop_df mpce_df target_year = [].
Proof.
  intros E. unfold drivers. rewrite E, merge_inner_nil_r. reflexivity.
Qed.

(** X9.  When the population file has a month column and no row of the
    year carries an English month name (in any letter case, without
    surrounding blanks), no population row is selected, and the risk
    pipeline raises. *)
Theorem unrecognised_months_select_no_population
    (argsort : list num -> list nat)
    (aqi_df : list Aqi.row) (pop_df : Pop.frame) (mpce_df : list Mpce.row)
    (target_year : Z) (top_states top_areas_per_state top_global_areas : nat) :
  Pop.has_month pop_df = true ->
  (forall r, In r (Pop.rows pop_df) -> Pop.year r = target_year ->
             month_number r = None) ->
  get_population_by_year pop_df target_year = [] /\
  compute_state_risk argsort aqi_df pop_df mpce_df target_year
    top_states top_areas_per_state top_global_areas
  = Raise (ValueError NoSamples).
Proof.
  intros Hm Hnone.
  assert (E : get_population_by_year pop_df target_year = []).
  { unfold get_population_by_year. rewrite Hm.
    rewrite (nil_of_no_element (latest_month _)); [reflexivity|].
    intros n Hn. apply in_latest_month in Hn. destruct Hn as [Hn (m & Em & _)].
    apply filter_In in Hn. destruct Hn as [Hn Ey]. apply Z.eqb_eq in Ey.
    apply in_map_iff in Hn. destruct Hn as (r & <- & Hr).
    rewrite month_number_normalize_pop_state, (Hnone r Hr Ey) in Em.
    discriminate. }
  split; [exact E|].
  now apply compute_state_risk_empty, drivers_without_population.
Qed.

(** X10.  The latest month is taken over the whole table, not per state:
    a state whose population rows of the year are all older than some
    row of the year has no population, and so no row in the risk
    table. *)
Theorem state_behind_latest_month_is_dropped
    (argsort : list num -> list nat)
    (aqi_df : list Aqi.row) (pop_df : Pop.frame) (mpce_df : list Mpce.row)
    (target_year : Z) (top_states top_areas_per_state top_global_areas : nat)
    (s : string) (latest : Pop.row) (m_latest : Z) :
  Pop.has_month pop_df = true ->
  In latest (Pop.rows pop_df) -> Pop.year latest = target_year ->
  month_number latest = Some m_latest ->
  (forall r m, In r (Pop.rows pop_df) -> Pop.year r = target_year ->
               normalize (Pop.state r) = s -> month_number r = Some m ->
               (m < m_latest)%Z) ->
  ~ In s (map PopYear.state (get_population_by_year pop_df target_year)) /\
  forall risk_df areas_df global_areas_df,
    compute_state_risk argsort aqi_df pop_df mpce_df target_year
      top_states top_areas_per_state top_global_areas
    = Ok (risk_df, areas_df, global_areas_df) ->
    ~ In s (map Risk.state risk_df).
Proof.
  intros Hm Hl Ey El Hs.
  assert (Hnot : ~ In s (map PopYear.state
                           (get_population_by_year pop_df target_year))).
  { unfold get_population_by_year. rewrite Hm, map_map. simpl.
    intros Hin. apply in_map_iff in Hin. destruct Hin as (n & En & Hn).
    apply in_latest_month in Hn. destruct Hn as [Hn (m & Em & Hmax)].
    apply filter_In in Hn. destruct Hn as [Hn Eyn]. apply Z.eqb_eq in Eyn.
    apply in_map_iff in Hn. destruct Hn as (r & <- & Hr). simpl in *.
    specialize (Hs r m Hr Eyn En Em).
    assert (m_latest <= m)%Z; [|lia].
    apply (Hmax (normalize_pop_state latest) m_latest); [|exact El].
    apply filter_In. split; [now apply in_map|]. now apply Z.eqb_eq. }
  split; [exact Hnot|].
  intros risk_df areas_df global_areas_df E Hin. apply Hnot.
  apply in_map_iff in Hin. destruct Hin as (row & <- & Hrow).
  destruct (risk_state_inv _ _ _ _ _ _ _ _ _ _ _ row E Hrow)
    as (_ & (p & Hp & Ep) & _).
  rewrite <- Ep. now apply in_map.
Qed.

(* ================================================================== *)
(** ** The executive summary's table of areas *)

Lemma in_states_with_aqi (aqi_df : list Aqi.row) (target_year : Z) (s : string) :
  In s (states_with_aqi aqi_df target_year) <->
  exists r, In r aqi_df /\ ts_year (Aqi.date r) = target_year
            /\ normalize (Aqi.state r) = s.
Proof.
  unfold states_with_aqi. rewrite In_unique_iff by apply String.eqb_eq.
  rewrite in_map_iff. split.
  - intros (r & Es & Hr). apply filter_In in Hr. destruct Hr as [Hr Ey].
    apply Z.eqb_eq in Ey. eauto.
  - intros (r & Hr & Ey & Es). exists r. split; [exact Es|].
    apply filter_In. split; [exact Hr|]. now apply Z.eqb_eq.
Qed.

Lemma in_all_states (aqi_df : list Aqi.row) (r : Aqi.row) :
  In r aqi_df -> In (normalize (Aqi.state r)) (all_states aqi_df).
Proof.
  intros Hr. unfold all_states. apply In_unique_iff; [apply String.eqb_eq|].
  apply in_map_iff. eauto.
Qed.

(** X11.  The table of areas of the executive summary needs the risk join
    to be non-empty: it raises when the join is empty, although the table
    is computed from the AQI readings alone.  When it is returned it has
    one row for every state with a reading in the year, whatever their
    number, and the row of a state is an area with the highest average
    of that state. *)
Theorem executive_summary_lists_one_area_per_state
    (argsort : list num -> list nat)
    (aqi_df : list Aqi.row) (pop_df : Pop.frame) (mpce_df : list Mpce.row)
    (risk_year : Z) :
  (drivers aqi_df pop_df mpce_df risk_year = [] ->
   executive_summary_global_areas argsort aqi_df pop_df mpce_df risk_year
   = Raise (ValueError NoSamples)) /\
  (forall table,
     executive_summary_global_areas argsort aqi_df pop_df mpce_df risk_year
     = Ok table ->
     drivers aqi_df pop_df mpce_df risk_year <> [] /\
     exists global_areas_df,
       table = map title_area global_areas_df /\
       Permutation (map Area.state global_areas_df) (states_with_aqi aqi_df risk_year) /\
       forall r a, In r global_areas_df ->
                   In a (area_averages aqi_df (all_states aqi_df) risk_year) ->
                   Area.state a = Area.state r ->
                   (Area.avg_aqi a <= Area.avg_aqi r)%num).
Proof.
  unfold executive_summary_global_areas. split.
  - intros E. now rewrite compute_state_risk_empty.
  - intros table.
    destruct (compute_state_risk argsort aqi_df pop_df mpce_df risk_year 0 0 1)
      as [[[risk_df areas_df] g] | e] eqn:E; [|discriminate].
    cbn [bind snd]. intros Et. injection Et as <-.
    split; [exact (proj1 (compute_state_risk_ok _ _ _ _ _ _ _ _ _ _ _ E))|].
    exists g. split; [reflexivity|].
    destruct (compute_state_risk_areas _ _ _ _ _ _ _ _ _ _ _ E) as [_ ->].
    assert (HN : NoDup (map Area.state
                          (extract_high_aqi_areas aqi_df (all_states aqi_df)
                             risk_year 1))).
    { apply NoDup_of_counts. intros k.
      rewrite extract_high_aqi_areas_count. lia. }
    split.
    + apply NoDup_Permutation; [exact HN | apply NoDup_unique, String.eqb_eq|].
      intros s. rewrite in_states_with_aqi. split.
      * intros Hs. apply in_map_iff in Hs. destruct Hs as (row & <- & Hrow).
        apply extract_high_aqi_areas_incl in Hrow.
        assert (Hk : In (Area.state row, Area.area row)
                       (map (fun r => (Area.state r, Area.area r))
                          (area_averages aqi_df (all_states aqi_df) risk_year)))
          by (apply in_map_iff; eauto).
        apply in_area_averages in Hk. destruct Hk as [_ (r & Hr & Ey & Es & _)].
        eauto.
      * intros (r & Hr & Ey & Es). apply extract_high_aqi_areas_covers; [lia| |eauto].
        rewrite <- Es. now apply in_all_states.
    + intros r a Hr Ha Es.
      destruct (extract_high_aqi_areas_first _ _ _ _ _ _ Hr Ha Es) as [Hin | Hle];
        [|exact Hle].
      assert (a = r) by (eapply NoDup_map_eq; eauto). subst a.
      apply area_averages_fin in Ha. destruct (Area.avg_aqi r); simpl in *;
        [apply Qle_refl | contradiction].
Qed.

(* ================================================================== *)
(** ** The grid of the cost projection *)

(** The annual AQI rows of the target year in the cost pipeline: one per
    state, by normalized name, with a reading in the year. *)
Lemma in_cost_aqi_target (target_year : Z) (cf_aqi : Q) (aqi_df : list Aqi.row)
    (a : AqiDelta.row) :
  In a (cost_aqi_target target_year cf_aqi aqi_df) ->
  In (AqiDelta.state a) (states_with_aqi aqi_df target_year) /\
  AqiDelta.avg_aqi a
  = mean (normalized_readings_of aqi_df (AqiDelta.state a) target_year) /\
  AqiDelta.delta_aqi a
  = num_sub (mean (normalized_readings_of aqi_df (AqiDelta.state a) target_year))
            (Fin cf_aqi).
Proof.
  unfold cost_aqi_target. intros Hin. apply filter_In in Hin.
  destruct Hin as [Hin Ey]. apply Z.eqb_eq in Ey.
  apply in_map_iff in Hin. destruct Hin as (g & <- & Hg). simpl in *.
  apply in_groupby_mean in Hg; [|apply state_year_eqb_eq].
  destruct Hg as [Hk Hm].
  assert (Hmean : snd g = mean (normalized_readings_of aqi_df (fst (fst g)) target_year)).
  { rewrite Hm, filter_map_swap, map_map. unfold normalized_readings_of. simpl.
    f_equal. f_equal. apply filter_ext. intros r.
    unfold state_year_eqb, pair_eqb. simpl. now rewrite Ey. }
  split; [|split].
  - apply in_states_with_aqi. rewrite map_map in Hk. simpl in Hk.
    apply in_map_iff in Hk. destruct Hk as (r & Er & Hr).
    exists r. rewrite <- Er in *. simpl in *. auto.
  - exact Hmean.
  - now rewrite Hmean.
Qed.

Lemma in_cost_states (target_year : Z) (cf_aqi : Q) (aqi_df : list Aqi.row) (s : string) :
  In s (cost_states target_year cf_aqi aqi_df)
  <-> In s (states_with_aqi aqi_df target_year).
Proof.
  unfold cost_states. rewrite In_unique_iff by apply String.eqb_eq.
  rewrite in_states_with_aqi.
  destruct (cost_aqi_target_states target_year cf_aqi aqi_df) as (keys & _ & Hk & ->).
  rewrite in_map_iff. split.
  - intros ([s' y] & <- & Hin). apply filter_In in Hin. destruct Hin as [Hin Ey].
    apply Hk in Hin. apply in_map_iff in Hin. destruct Hin as (r & E & Hr).
    apply Z.eqb_eq in Ey. injection E as <- <-. exists r. auto.
  - intros (r & Hr & Ey & <-).
    exists (normalize (Aqi.state r), ts_year (Aqi.date r)). split; [reflexivity|].
    apply filter_In. split; [|now apply Z.eqb_eq].
    apply Hk. apply in_map_iff. eauto.
Qed.

Lemma merge_left_covers {L R : Type} (on : L -> R -> bool)
    (left : list L) (right : list R) (l : L) :
  In l left -> exists o, In (l, o) (merge_left on left right).
Proof.
  intros Hl. destruct (filter (on l) right) as [|r ms] eqn:E.
  - exists None. apply in_merge_left. auto.
  - exists (Some r). apply in_merge_left. split; [exact Hl|]. right.
    assert (Hr : In r (filter (on l) right)) by (rewrite E; simpl; auto).
    apply filter_In in Hr. exists r. tauto.
Qed.

(** The rows of the grid after the two joins. *)
Lemma cost_grid_inv (target_year : Z) (cf_aqi : Q)
    (hp_df : list Hp.row) (pop_df : Pop.frame) (aqi_df : list Aqi.row)
    (s : string) (h : Hp.row) (oa : option AqiDelta.row) (op : option PopYear.row) :
  In (s, h, oa, op) (cost_grid target_year cf_aqi hp_df pop_df aqi_df) ->
  In s (states_with_aqi aqi_df target_year) /\ In h hp_df /\
  cell_of AqiDelta.avg_aqi oa = mean (normalized_readings_of aqi_df s target_year) /\
  cell_of AqiDelta.delta_aqi oa
  = num_sub (mean (normalized_readings_of aqi_df s target_year)) (Fin cf_aqi) /\
  ((op = None /\
    ~ In s (map PopYear.state (get_population_by_year pop_df target_year))) \/
   (exists p, op = Some p /\ In p (get_population_by_year pop_df target_year)
              /\ PopYear.state p = s)).
Proof.
  intros Hin.
  destruct (cost_grid_aqi_match _ _ _ _ _ _ Hin) as (a & Ea & Ha & Es & Hh).
  simpl in Ea, Es, Hh. subst oa.
  destruct (in_cost_aqi_target _ _ _ _ Ha) as (Hs & Havg & Hdelta).
  rewrite Es in *. repeat (split; [assumption|]).
  unfold cost_grid in Hin. apply in_merge_left in Hin. destruct Hin as [_ Hop].
  simpl in Hop. destruct Hop as [[-> Hnone] | (p & -> & Hp & Hon)].
  - left. split; [reflexivity|]. intros Hin. apply in_map_iff in Hin.
    destruct Hin as (p & Ep & Hp).
    assert (Hf : In p (filter (fun p0 => String.eqb s (PopYear.state p0))
                         (get_population_by_year pop_df target_year))).
    { apply filter_In. split; [exact Hp|]. apply String.eqb_eq. auto. }
    rewrite Hnone in Hf. exact Hf.
  - right. exists p. apply String.eqb_eq in Hon. auto.
Qed.

(** X12.  The cost projection is empty exactly when no state has an AQI
    reading in the target year or the reference table has no outcome. *)
Theorem cost_projection_empty_iff
    (power : num -> num -> num) (target_year : Z) (cf_aqi : Q)
    (hp_df : list Hp.row) (pop_df : Pop.frame) (aqi_df : list Aqi.row) :
  compute_health_cost_impacts power target_year cf_aqi hp_df pop_df aqi_df = []
  <-> states_with_aqi aqi_df target_year = [] \/ hp_df = [].
Proof.
  rewrite compute_health_cost_impacts_unfold. unfold cost_grid.
  set (grid := merge_cross (cost_states target_year cf_aqi aqi_df) hp_df).
  assert (Hgrid : grid = [] <-> states_with_aqi aqi_df target_year = [] \/ hp_df = []).
  { rewrite <- !length_zero_iff_nil. unfold grid.
    rewrite length_merge_cross, length_cost_states. lia. }
  rewrite <- Hgrid. split.
  - intros E. apply length_zero_iff_nil. apply (f_equal (@List.length _)) in E.
    rewrite length_map in E. simpl in E.
    apply Nat.le_0_r. rewrite <- E.
    etransitivity; [|apply length_merge_left_ge]. apply length_merge_left_ge.
  - intros ->. reflexivity.
Qed.

(** X13.  The rows of the cost projection are the grid of states and
    outcomes: every row belongs to a state with a reading in the target
    year (by normalized name, shown title-cased) and an outcome of the
    reference table, and carries the mean of that state's readings of
    the year, its difference to the counterfactual and the reference
    values of the outcome; and every such pair has a row. *)
Theorem cost_rows_are_the_state_outcome_grid
    (power : num -> num -> num) (target_year : Z) (cf_aqi : Q)
    (hp_df : list Hp.row) (pop_df : Pop.frame) (aqi_df : list Aqi.row) :
  let rows := compute_health_cost_impacts power target_year cf_aqi hp_df pop_df aqi_df in
  (forall row, In row rows ->
     exists s h,
       In s (states_with_aqi aqi_df target_year) /\ In h hp_df /\
       Cost.state row = str_title s /\
       Cost.outcome row = display_outcome h /\
       Cost.avg_aqi row = mean (normalized_readings_of aqi_df s target_year) /\
       Cost.delta_aqi row
       = num_sub (mean (normalized_readings_of aqi_df s target_year)) (Fin cf_aqi) /\
       Cost.rr_per_10ug row = Fin (Hp.rr_per_10ug h) /\
       Cost.baseline_incidence row = Fin (Hp.baseline_incidence h) /\
       Cost.cost_min_person row = Fin (Hp.cost_min h) /\
       Cost.cost_mean_person row = Fin (Hp.cost_mean h) /\
       Cost.cost_max_person row = Fin (Hp.cost_max h)) /\
  (forall s h,
     In s (states_with_aqi aqi_df target_year) -> In h hp_df ->
     exists row, In row rows /\ Cost.state row = str_title s
                 /\ Cost.outcome row = display_outcome h).
Proof.
  cbv zeta. rewrite compute_health_cost_impacts_unfold. split.
  - intros row Hrow. apply in_map_iff in Hrow.
    destruct Hrow as ([[[s h] oa] op] & <- & Hg).
    destruct (cost_grid_inv _ _ _ _ _ _ _ _ _ Hg) as (Hs & Hh & Havg & Hdelta & _).
    exists s, h. simpl. repeat (split; [first [assumption | reflexivity]|]).
    reflexivity.
  - intros s h Hs Hh.
    assert (Hsh : In (s, h) (merge_cross (cost_states target_year cf_aqi aqi_df) hp_df)).
    { apply in_merge_cross. split; [|exact Hh]. now apply in_cost_states. }
    destruct (merge_left_covers
                (fun sh a => String.eqb (fst sh) (AqiDelta.state a)) _
                (cost_aqi_target target_year cf_aqi aqi_df) _ Hsh) as (oa & Hoa).
    destruct (merge_left_covers
                (fun sha p => String.eqb (fst (fst sha)) (PopYear.state p)) _
                (get_population_by_year pop_df target_year) _ Hoa) as (op & Hop).
    exists (cost_row power (s, h, oa, op)). split.
    + apply in_map. exact Hop.
    + split; reflexivity.
Qed.

(** X14.  The population of a cost row is the population that
    [get_population_by_year] selects for the state and the target year;
    it is missing exactly when the state has no selected population
    row. *)
Theorem cost_population_is_the_selected_population
    (power : num -> num -> num) (target_year : Z) (cf_aqi : Q)
    (hp_df : list Hp.row) (pop_df : Pop.frame) (aqi_df : list Aqi.row)
    (row : Cost.row) :
  In row (compute_health_cost_impacts power target_year cf_aqi hp_df pop_df aqi_df) ->
  exists s,
    In s (states_with_aqi aqi_df target_year) /\ Cost.state row = str_title s /\
    ((Cost.population row = NaN /\
      ~ In s (map PopYear.state (get_population_by_year pop_df target_year))) \/
     (exists p, In p (get_population_by_year pop_df target_year)
                /\ PopYear.state p = s
                /\ Cost.population row = PopYear.population p
                /\ is_fin (Cost.population row))).
Proof.
  rewrite compute_health_cost_impacts_unfold. intros Hrow.
  apply in_map_iff in Hrow. destruct Hrow as ([[[s h] oa] op] & <- & Hg).
  destruct (cost_grid_inv _ _ _ _ _ _ _ _ _ Hg)
    as (Hs & _ & _ & _ & [[-> Hnot] | (p & -> & Hp & Ep)]).
  - exists s. simpl. auto.
  - exists s. simpl. split; [exact Hs|]. split; [reflexivity|]. right.
    exists p. repeat (split; [first [assumption | reflexivity]|]).
    unfold get_population_by_year in Hp. apply in_map_iff in Hp.
    destruct Hp as (n & <- & _). exact I.
Qed.

(* ================================================================== *)
(** ** The rows of the cost projection, pair by pair *)

Lemma flat_map_flat_map {T U V : Type} (f : T -> list U) (g : U -> list V) (l : list T) :
  flat_map g (flat_map f l) = flat_map (fun x => flat_map g (f x)) l.
Proof.
  induction l as [|x l IH]; simpl; [reflexivity|].
  now rewrite flat_map_app, IH.
Qed.

Lemma map_flat_map {T U V : Type} (f : T -> list U) (g : U -> V) (l : list T) :
  map g (flat_map f l) = flat_map (fun x => map g (f x)) l.
Proof.
  induction l as [|x l IH]; simpl; [reflexivity|].
  now rewrite map_app, IH.
Qed.

Lemma flat_map_of_map {T U V : Type} (f : T -> U) (g : U -> list V) (l : list T) :
  flat_map g (map f l) = flat_map (fun x => g (f x)) l.
Proof.
  induction l as [|x l IH]; simpl; [reflexivity|]. now rewrite IH.
Qed.

Lemma merge_left_as_flat_map {L R : Type} (on : L -> R -> bool)
    (left : list L) (right : list R) :
  merge_left on left right
  = flat_map (fun l => map (pair l) (left_matches (on l) right)) left.
Proof.
  unfold merge_left, left_matches. apply flat_map_ext. intros l.
  destruct (filter (on l) right); [reflexivity|].
  now rewrite map_map.
Qed.

Lemma length_left_matches {R : Type} (matches : R -> bool) (right : list R) :
  List.length (left_matches matches right)
  = Nat.max 1 (List.length (filter matches right)).
Proof.
  unfold left_matches. destruct (filter matches right) as [|r ms]; [reflexivity|].
  rewrite length_map. simpl. lia.
Qed.

Lemma list_sum_constant {T : Type} (c : nat) (l : list T) :
  list_sum (map (fun _ => c) l) = (List.length l * c)%nat.
Proof. induction l as [|x l IH]; simpl; [reflexivity|]. rewrite IH. lia. Qed.

Lemma list_sum_scaled {T : Type} (c : nat) (f : T -> nat) (l : list T) :
  list_sum (map (fun x => c * f x)%nat l) = (c * list_sum (map f l))%nat.
Proof. induction l as [|x l IH]; simpl; [lia|]. rewrite IH. lia. Qed.

Lemma list_sum_perm (l l' : list nat) :
  Permutation l l' -> list_sum l = list_sum l'.
Proof. induction 1; simpl; lia. Qed.

Lemma list_sum_ge_length {T : Type} (f : T -> nat) (l : list T) :
  (forall x, 1 <= f x)%nat -> (List.length l <= list_sum (map f l))%nat.
Proof.
  intros Hf. induction l as [|x l IH]; simpl; [lia|]. specialize (Hf x). lia.
Qed.

Lemma cost_states_perm (target_year : Z) (cf_aqi : Q) (aqi_df : list Aqi.row) :
  Permutation (cost_states target_year cf_aqi aqi_df)
              (states_with_aqi aqi_df target_year).
Proof.
  apply NoDup_Permutation.
  - apply NoDup_unique, String.eqb_eq.
  - apply NoDup_unique, String.eqb_eq.
  - intros s. apply in_cost_states.
Qed.

(** The block of rows of a state and an outcome: the state's AQI row
    with each of the population rows selected for the state, or with a
    missing population when there is none. *)
Lemma cost_rows_by_pair (power : num -> num -> num) (target_year : Z) (cf_aqi : Q)
    (hp_df : list Hp.row) (pop_df : Pop.frame) (aqi_df : list Aqi.row) :
  compute_health_cost_impacts power target_year cf_aqi hp_df pop_df aqi_df
  = flat_map
      (fun s =>
         flat_map
           (fun h =>
              flat_map
                (fun oa =>
                   map (fun op => cost_row power (s, h, oa, op))
                       (left_matches (fun p => String.eqb s (PopYear.state p))
                          (get_population_by_year pop_df target_year)))
                (left_matches (fun a => String.eqb s (AqiDelta.state a))
                   (cost_aqi_target target_year cf_aqi aqi_df)))
           hp_df)
      (cost_states target_year cf_aqi aqi_df).
Proof.
  rewrite compute_health_cost_impacts_unfold. unfold cost_grid, merge_cross.
  rewrite !merge_left_as_flat_map, !flat_map_flat_map, map_flat_map.
  apply flat_map_ext. intros s.
  rewrite !flat_map_of_map, map_flat_map.
  apply flat_map_ext. intros h.
  rewrite flat_map_of_map, map_flat_map.
  apply flat_map_ext. intros oa. cbn [fst snd].
  now rewrite map_map.
Qed.

Lemma length_aqi_matches (target_year : Z) (cf_aqi : Q) (aqi_df : list Aqi.row)
    (s : string) :
  List.length (left_matches (fun a => String.eqb s (AqiDelta.state a))
                 (cost_aqi_target target_year cf_aqi aqi_df)) = 1%nat.
Proof.
  rewrite length_left_matches.
  pose proof (filter_key_NoDup AqiDelta.state s
                (cost_aqi_target target_year cf_aqi aqi_df)
                (cost_aqi_target_NoDup target_year cf_aqi aqi_df)).
  lia.
Qed.

(** C5 (as amended).  The cost projection lists, state by state and
    outcome by outcome, one block of rows per pair of a state with AQI
    data in the target year and an outcome of the reference table; the
    block of a state with [k] rows in the population frame selected for
    the year has [k] rows, one with each of these populations, and one
    row without a population when [k] is 0.  So the projection
    has at least one row per pair, and exactly one when no state has two
    selected population rows. *)
Theorem cost_projection_row_count
    (power : num -> num -> num) (target_year : Z) (cf_aqi : Q)
    (hp_df : list Hp.row) (pop_df : Pop.frame) (aqi_df : list Aqi.row) :
  let rows := compute_health_cost_impacts power target_year cf_aqi hp_df pop_df aqi_df in
  let states := states_with_aqi aqi_df target_year in
  let pairs := (List.length states * List.length hp_df)%nat in
  (exists (order : list string) (block : string -> Hp.row -> list Cost.row),
     Permutation order states /\
     rows = flat_map (fun s => flat_map (block s) hp_df) order /\
     forall s h, In s order -> In h hp_df ->
       List.length (block s h)
       = Nat.max 1 (selected_population_rows pop_df target_year s) /\
       map Cost.population (block s h)
       = map (cell_of PopYear.population)
           (left_matches (fun p => String.eqb s (PopYear.state p))
              (get_population_by_year pop_df target_year)) /\
       forall row, In row (block s h) ->
         Cost.state row = str_title s /\ Cost.outcome row = display_outcome h) /\
  List.length rows
  = (List.length hp_df
     * list_sum (map (fun s => Nat.max 1 (selected_population_rows pop_df target_year s))
                  states))%nat /\
  (pairs <= List.length rows)%nat /\
  (NoDup (map PopYear.state (get_population_by_year pop_df target_year)) ->
   List.length rows = pairs).
Proof.
  cbv zeta.
  set (block := fun s h =>
         flat_map
           (fun oa =>
              map (fun op => cost_row power (s, h, oa, op))
                  (left_matches (fun p => String.eqb s (PopYear.state p))
                     (get_population_by_year pop_df target_year)))
           (left_matches (fun a => String.eqb s (AqiDelta.state a))
              (cost_aqi_target target_year cf_aqi aqi_df))).
  assert (Hrows : compute_health_cost_impacts power target_year cf_aqi hp_df pop_df aqi_df
                  = flat_map (fun s => flat_map (block s) hp_df)
                      (cost_states target_year cf_aqi aqi_df))
    by apply cost_rows_by_pair.
  assert (Hlen : forall s h,
            List.length (block s h)
            = Nat.max 1 (selected_population_rows pop_df target_year s)).
  { intros s h. unfold block.
    pose proof (length_aqi_matches target_year cf_aqi aqi_df s) as H1.
    destruct (left_matches (fun a => String.eqb s (AqiDelta.state a))
                (cost_aqi_target target_year cf_aqi aqi_df)) as [|oa [|oa' l]];
      try discriminate.
    cbn [flat_map]. rewrite app_nil_r, length_map, length_left_matches.
    reflexivity. }
  assert (Htotal :
    List.length (compute_health_cost_impacts power target_year cf_aqi hp_df pop_df aqi_df)
    = (List.length hp_df
       * list_sum (map (fun s => Nat.max 1 (selected_population_rows pop_df target_year s))
                    (states_with_aqi aqi_df target_year)))%nat).
  { rewrite Hrows, length_flat_map.
    rewrite (map_ext _ (fun s => (List.length hp_df
                                  * Nat.max 1 (selected_population_rows
                                                 pop_df target_year s))%nat)).
    2:{ intros s. rewrite length_flat_map.
        rewrite (map_ext _ (fun _ => Nat.max 1 (selected_population_rows
                                                  pop_df target_year s)))
          by (intros h; apply Hlen).
        apply list_sum_constant. }
    rewrite list_sum_scaled. f_equal.
    apply list_sum_perm, Permutation_map, cost_states_perm. }
  split; [|split; [exact Htotal|]].
  - exists (cost_states target_year cf_aqi aqi_df), block.
    split; [apply cost_states_perm|]. split; [exact Hrows|].
    intros s h _ _. split; [apply Hlen|]. split.
    { unfold block.
      pose proof (length_aqi_matches target_year cf_aqi aqi_df s) as H1.
      destruct (left_matches (fun a => String.eqb s (AqiDelta.state a))
                  (cost_aqi_target target_year cf_aqi aqi_df)) as [|oa [|oa' l]];
        try discriminate.
      cbn [flat_map]. now rewrite app_nil_r, map_map. }
    intros row Hrow. unfold block in Hrow. apply in_flat_map in Hrow.
    destruct Hrow as (oa & _ & Hrow). apply in_map_iff in Hrow.
    destruct Hrow as (op & <- & _). split; reflexivity.
  - split.
    + rewrite Htotal.
      rewrite (Nat.mul_comm (List.length (states_with_aqi aqi_df target_year))).
      apply Nat.mul_le_mono_l.
      apply list_sum_ge_length. intros s. lia.
    + intros HN. rewrite Htotal.
      rewrite (Nat.mul_comm (List.length (states_with_aqi aqi_df target_year))).
      f_equal.
      rewrite (map_ext_in _ (fun _ => 1%nat)).
      * rewrite list_sum_constant. lia.
      * intros s _. unfold selected_population_rows.
        pose proof (filter_key_NoDup PopYear.state s _ HN). lia.
Qed.

Lemma cost_projection_row_count_witness :
  NoDup (map PopYear.state (get_population_by_year cost_pop 2024)) /\
  List.length (compute_health_cost_impacts power_interp 2024 35
                 sample_hp cost_pop cost_aqi)
  = (List.length (states_with_aqi cost_aqi 2024) * List.length sample_hp)%nat.
Proof.
  assert (HN : NoDup (map PopYear.state (get_population_by_year cost_pop 2024))).
  { vm_compute. repeat constructor; simpl; intuition discriminate. }
  split; [exact HN|].
  exact (proj2 (proj2 (proj2 (cost_projection_row_count power_interp 2024 35
                                sample_hp cost_pop cost_aqi))) HN).
Defined.

(* ================================================================== *)
(** ** The attributable fraction and the attributable cases *)

(** The formulas of the computed columns, read on a row of the result. *)
Lemma cost_row_formulas (power : num -> num -> num) (target_year : Z) (cf_aqi : Q)
    (hp_df : list Hp.row) (pop_df : Pop.frame) (aqi_df : list Aqi.row)
    (row : Cost.row) :
  In row (compute_health_cost_impacts power target_year cf_aqi hp_df pop_df aqi_df) ->
  Cost.rr_total row
  = power (Cost.rr_per_10ug row) (num_div (Cost.delta_aqi row) (Fin 10)) /\
  Cost.paf row = num_div (num_sub (Cost.rr_total row) (Fin 1)) (Cost.rr_total row) /\
  Cost.attr_rate row = num_mul (Cost.paf row) (Cost.baseline_incidence row) /\
  Cost.attr_cases row
  = num_div (num_mul (Cost.attr_rate row) (Cost.population row)) (Fin 100000).
Proof.
  rewrite compute_health_cost_impacts_unfold. intros Hrow.
  apply in_map_iff in Hrow. destruct Hrow as (g & <- & _).
  repeat split; reflexivity.
Qed.

Lemma paf_of_rr_total (v : Q) :
  0 < v ->
  exists p, num_div (num_sub (Fin v) (Fin 1)) (Fin v) = Fin p /\ p * v == v - 1.
Proof.
  intros Hv. unfold num_div, num_sub, num_lift2.
  destruct (Qeq_bool v 0) eqn:E.
  { apply Qeq_bool_iff in E. lra. }
  eexists. split; [reflexivity|].
  rewrite Qred_correct, Qred_correct. field. lra.
Qed.

(** X15.  Whenever the total relative risk of a row is a positive number,
    the attributable fraction [(rr_total - 1) / rr_total] is at most 1;
    it is zero or more exactly when [rr_total] is at least 1, and
    negative exactly when [rr_total] is below 1. *)
Theorem paf_is_at_most_one
    (power : num -> num -> num) (target_year : Z) (cf_aqi : Q)
    (hp_df : list Hp.row) (pop_df : Pop.frame) (aqi_df : list Aqi.row)
    (row : Cost.row) (v : Q) :
  In row (compute_health_cost_impacts power target_year cf_aqi hp_df pop_df aqi_df) ->
  Cost.rr_total row = Fin v ->
  0 < v ->
  (Cost.paf row <= Fin 1)%num /\
  ((Fin 0 <= Cost.paf row)%num <-> 1 <= v) /\
  ((Cost.paf row < Fin 0)%num <-> v < 1).
Proof.
  intros Hrow Ev Hv.
  destruct (cost_row_formulas _ _ _ _ _ _ _ Hrow) as (_ & Epaf & _).
  rewrite Ev in Epaf. destruct (paf_of_rr_total v Hv) as (p & Ep & Hp).
  rewrite Epaf, Ep. unfold num_le, num_lt.
  split; [nra|]. split; split; intros H; nra.
Qed.

(** The laws of the power that [power_interp] has. *)
Lemma Qfloor_nonneg (y : Q) : 0 <= y -> (0 <= Qfloor y)%Z.
Proof.
  intros Hy. change 0%Z with (Qfloor 0). now apply Qfloor_resp_le.
Qed.

Lemma Qfloor_neg (y : Q) : y < 0 -> (Qfloor y <= -1)%Z.
Proof.
  intros Hy. pose proof (Qfloor_le y) as H.
  assert (Hlt : inject_Z (Qfloor y) < inject_Z 0) by (change (inject_Z 0) with 0; lra).
  rewrite <- Zlt_Qlt in Hlt. lia.
Qed.

Lemma power_interp_from_one : power_from_one power_interp.
Proof.
  intros x y Hx.
  assert (Hx0 : Qle_bool x 0 = false).
  { destruct (Qle_bool x 0) eqn:E; [|reflexivity]. apply Qle_bool_iff in E. lra. }
  pose proof (Qfloor_le y) as Hlo. pose proof (Qlt_floor y) as Hhi.
  rewrite inject_Z_plus in Hhi. change (inject_Z 1) with 1 in Hhi.
  assert (Hpos : 0 < x ^ Qfloor y) by (apply Qpower_0_lt; lra).
  unfold power_interp. rewrite Hx0.
  destruct (Qeq_bool y 0) eqn:Hy0.
  { split; intros _; simpl; lra. }
  assert (Hne : ~ y == 0).
  { intros E. apply Qeq_bool_iff in E. congruence. }
  set (f := y - inject_Z (Qfloor y)) in *.
  assert (Hf : 0 <= f < 1) by (unfold f; split; lra).
  assert (Hg : 0 <= f * (x - 1)) by (apply Qmult_le_0_compat; lra).
  split; intros Hy; cbn [unless_nan]; rewrite Qred_correct.
  - pose proof (Qfloor_nonneg y Hy) as Hn.
    assert (Hp1 : 1 <= x ^ Qfloor y) by (apply Qpower_1_le; [lra | exact Hn]).
    set (g := f * (x - 1)) in *. set (u := x ^ Qfloor y) in *.
    assert (0 <= (u - 1) * (1 + g)) by (apply Qmult_le_0_compat; lra).
    lra.
  - assert (Hneg : y < 0) by lra.
    pose proof (Qfloor_neg y Hneg) as Hn.
    assert (Hp1 : x ^ Qfloor y <= x ^ (-1)).
    { apply Qpower_le_compat_l; [exact Hn | lra]. }
    assert (Einv : x ^ (-1) == / x) by reflexivity.
    rewrite Einv in Hp1.
    assert (Hxinv : / x * x == 1) by (field; lra).
    assert (Hg1 : 0 <= (1 - f) * (x - 1)) by (apply Qmult_le_0_compat; lra).
    set (u := x ^ Qfloor y) in *. set (w := / x) in *.
    set (g := f * (x - 1)) in *.
    assert (Hg2 : g <= x - 1).
    { assert (E : (1 - f) * (x - 1) == (x - 1) - g) by (unfold g; ring). lra. }
    assert (H1 : 0 <= u * (1 + g)) by (apply Qmult_le_0_compat; lra).
    assert (H2 : 0 <= u * (x - 1 - g)) by (apply Qmult_le_0_compat; lra).
    assert (H3 : 0 <= (w - u) * x) by (apply Qmult_le_0_compat; lra).
    assert (E2 : u * (x - 1 - g) == u * x - u * (1 + g)) by ring.
    assert (E3 : (w - u) * x == w * x - u * x) by ring.
    split; lra.
Qed.

Lemma num_div_ten (d : Q) : num_div (Fin d) (Fin 10) = Fin (Qred (d / 10)).
Proof. reflexivity. Qed.

Lemma attr_cases_of (p b n : Q) :
  num_div (num_mul (num_mul (Fin p) (Fin b)) (Fin n)) (Fin 100000)
  = Fin (Qred (Qred (Qred (p * b) * n) / 100000)).
Proof. reflexivity. Qed.

Lemma attr_cases_value (p b n : Q) :
  Qred (Qred (Qred (p * b) * n) / 100000) == p * b * n / 100000.
Proof. now rewrite !Qred_correct. Qed.

Lemma num_ge_fin (x : num) (a : Q) : (Fin a <= x)%num -> exists q, x = Fin q /\ a <= q.
Proof. destruct x as [q|]; simpl; [eauto | tauto]. Qed.

Lemma num_le_fin_r (x : num) (a : Q) : (x <= Fin a)%num -> exists q, x = Fin q /\ q <= a.
Proof. destruct x as [q|]; simpl; [eauto | tauto]. Qed.

(** X16.  For an outcome with a relative risk of at least 1, a baseline
    incidence and a population that are not negative, the attributable
    fraction and the attributable cases follow the sign of [delta_aqi]
    wherever they are numbers: they are not negative for a state at or
    above the counterfactual AQI and not positive for a state at or
    below it, which gets zero or negative cases. *)
Theorem attributable_cases_follow_the_sign_of_delta
    (power : num -> num -> num) (target_year : Z) (cf_aqi : Q)
    (hp_df : list Hp.row) (pop_df : Pop.frame) (aqi_df : list Aqi.row)
    (row : Cost.row) :
  power_from_one power ->
  In row (compute_health_cost_impacts power target_year cf_aqi hp_df pop_df aqi_df) ->
  (Fin 1 <= Cost.rr_per_10ug row)%num ->
  (Fin 0 <= Cost.baseline_incidence row)%num ->
  (Fin 0 <= Cost.population row)%num ->
  ((Fin 0 <= Cost.delta_aqi row)%num ->
   unless_nan (fun v => 1 <= v) (Cost.rr_total row) /\
   unless_nan (fun p => 0 <= p) (Cost.paf row) /\
   unless_nan (fun k => 0 <= k) (Cost.attr_cases row)) /\
  ((Cost.delta_aqi row <= Fin 0)%num ->
   unless_nan (fun v => 0 <= v <= 1) (Cost.rr_total row) /\
   unless_nan (fun p => p <= 0) (Cost.paf row) /\
   unless_nan (fun k => k <= 0) (Cost.attr_cases row)).
Proof.
  intros Hpow Hrow Hrr Hb Hn.
  destruct (cost_row_formulas _ _ _ _ _ _ _ Hrow) as (Ert & Epaf & Erate & Ecases).
  apply num_ge_fin in Hrr, Hb, Hn.
  destruct Hrr as (x & Ex & Hx), Hb as (b & Eb & Hb), Hn as (n & En & Hn).
  rewrite Ex in Ert. rewrite Erate, Eb, En in Ecases. clear Erate.
  split; intros Hd.
  - apply num_ge_fin in Hd. destruct Hd as (d & Ed & Hd).
    rewrite Ed, num_div_ten in Ert.
    destruct (Hpow x (Qred (d / 10)) Hx) as [Hup _].
    assert (He : 0 <= Qred (d / 10)).
    { rewrite Qred_correct. apply Qle_shift_div_l; lra. }
    specialize (Hup He). rewrite <- Ert in Hup.
    destruct (Cost.rr_total row) as [v|].
    2:{ rewrite Epaf in Ecases. rewrite Epaf, Ecases. repeat split. }
    cbn [unless_nan] in Hup.
    destruct (paf_of_rr_total v) as (p & Ep & Hp); [lra|].
    rewrite Ep in Epaf. rewrite Epaf, attr_cases_of in Ecases.
    rewrite Epaf, Ecases. cbn [unless_nan]. rewrite attr_cases_value.
    assert (Hp0 : 0 <= p) by nra.
    split; [exact Hup|]. split; [exact Hp0|].
    assert (0 <= p * b) by (apply Qmult_le_0_compat; lra).
    assert (0 <= p * b * n) by (apply Qmult_le_0_compat; lra).
    apply Qle_shift_div_l; lra.
  - apply num_le_fin_r in Hd. destruct Hd as (d & Ed & Hd).
    rewrite Ed, num_div_ten in Ert.
    destruct (Hpow x (Qred (d / 10)) Hx) as [_ Hdown].
    assert (He : Qred (d / 10) <= 0).
    { rewrite Qred_correct. apply Qle_shift_div_r; lra. }
    specialize (Hdown He). rewrite <- Ert in Hdown.
    destruct (Cost.rr_total row) as [v|].
    2:{ rewrite Epaf in Ecases. rewrite Epaf, Ecases. repeat split. }
    cbn [unless_nan] in Hdown.
    split; [exact Hdown|].
    destruct (Qeq_bool v 0) eqn:E0.
    { assert (Enan : num_div (num_sub (Fin v) (Fin 1)) (Fin v) = NaN).
      { unfold num_div, num_sub, num_lift2. now rewrite E0. }
      rewrite Enan in Epaf. rewrite Epaf in Ecases. rewrite Epaf, Ecases.
      repeat split. }
    assert (Hv0 : 0 < v).
    { destruct Hdown as [Hv _]. apply Qle_lt_or_eq in Hv.
      destruct Hv as [Hv | Hv]; [exact Hv|].
      symmetry in Hv. apply Qeq_bool_iff in Hv. congruence. }
    destruct (paf_of_rr_total v Hv0) as (p & Ep & Hp).
    rewrite Ep in Epaf. rewrite Epaf, attr_cases_of in Ecases.
    rewrite Epaf, Ecases. cbn [unless_nan]. rewrite attr_cases_value.
    assert (Hp0 : p <= 0) by nra.
    split; [exact Hp0|].
    assert (0 <= (- p) * b) by (apply Qmult_le_0_compat; lra).
    assert (0 <= (- p) * b * n) by (apply Qmult_le_0_compat; lra).
    apply Qle_shift_div_r; lra.
Qed.

(* ================================================================== *)
(** ** The national cost table *)

Lemma groupby_first_head {R : Type} (f : R -> num) (c : R) (g : list R) :
  is_fin (f c) -> groupby_first (map f (c :: g)) = f c.
Proof.
  intros Hc. unfold groupby_first. simpl. destruct (f c); [reflexivity | contradiction].
Qed.

Lemma state_outcome_eqb_eq (a b : string * string) :
  state_outcome_eqb a b = true <-> a = b.
Proof. apply state_area_eqb_eq. Qed.

Lemma NoDup_map_filter {T U : Type} (f : T -> U) (p : T -> bool) (l : list T) :
  NoDup (map f l) -> NoDup (map f (filter p l)).
Proof.
  induction l as [|x l IH]; simpl; intros HN; [constructor|].
  inversion HN as [|? ? Hnotin HN']; subst.
  destruct (p x); simpl; [|auto]. constructor; [|auto].
  intros Hin. apply Hnotin. apply in_map_iff in Hin. destruct Hin as (y & E & Hy).
  apply filter_In in Hy. apply in_map_iff. exists y. tauto.
Qed.

Lemma NoDup_snd_of_constant_fst {A B : Type} (c : A) (l : list (A * B)) :
  (forall k, In k l -> fst k = c) -> NoDup l -> NoDup (map snd l).
Proof.
  intros Hc. induction 1 as [|k l Hnotin HN IH]; simpl; [constructor|].
  constructor.
  - intros Hin. apply Hnotin. apply in_map_iff in Hin. destruct Hin as (k' & E & Hk').
    assert (k' = k); [|congruence].
    pose proof (Hc k (or_introl eq_refl)) as E1.
    pose proof (Hc k' (or_intror Hk')) as E2.
    destruct k, k'. simpl in *. congruence.
  - apply IH. intros k0 Hk0. apply Hc. simpl. auto.
Qed.

(** The reference values a row of the projection carries. *)
Lemma cost_row_reference (power : num -> num -> num) (target_year : Z) (cf_aqi : Q)
    (hp_df : list Hp.row) (pop_df : Pop.frame) (aqi_df : list Aqi.row)
    (row : Cost.row) :
  In row (compute_health_cost_impacts power target_year cf_aqi hp_df pop_df aqi_df) ->
  exists h, In h hp_df /\
    Cost.outcome row = display_outcome h /\
    Cost.cost_min_person row = Fin (Hp.cost_min h) /\
    Cost.cost_mean_person row = Fin (Hp.cost_mean h) /\
    Cost.cost_max_person row = Fin (Hp.cost_max h).
Proof.
  rewrite compute_health_cost_impacts_unfold. intros Hrow.
  apply in_map_iff in Hrow. destruct Hrow as ([[[s h] oa] op] & <- & Hg).
  destruct (cost_grid_inv _ _ _ _ _ _ _ _ _ Hg) as (_ & Hh & _).
  exists h. simpl. auto.
Qed.

(** X17.  The national cost table of the market page has one row per
    outcome name, each with the state [India] and a positive number of
    attributable cases, and its per-person costs are the costs of the
    reference table for that outcome, whatever the AQI and the
    population are. *)
Theorem national_table_shows_reference_costs
    (power : num -> num -> num) (target_year : Z) (cf_aqi : Q)
    (hp_df : list Hp.row) (pop_df : Pop.frame) (aqi_df : list Aqi.row) :
  let table :=
    df_india (compute_health_cost_impacts power target_year cf_aqi
                hp_df pop_df aqi_df) in
  NoDup (map India.outcome table) /\
  forall row, In row table ->
    India.state row = "India"%string /\
    (Fin 0 < India.attr_cases row)%num /\
    exists h, In h hp_df /\
      India.outcome row = display_outcome h /\
      India.cost_min_person row = Fin (Hp.cost_min h) /\
      India.cost_mean_person row = Fin (Hp.cost_mean h) /\
      India.cost_max_person row = Fin (Hp.cost_max h).
Proof.
  cbv zeta.
  set (cost_df := compute_health_cost_impacts power target_year cf_aqi
                    hp_df pop_df aqi_df).
  unfold df_india.
  set (key := fun r : Cost.row => ("India"%string, Cost.outcome r)).
  set (keys := insertion_sort state_outcome_leb
                 (unique state_outcome_eqb (map key cost_df))).
  assert (Hkeys : NoDup keys).
  { eapply Permutation_NoDup; [apply Permutation_sym, insertion_sort_perm|].
    apply NoDup_unique, state_outcome_eqb_eq. }
  assert (Hin : forall k, In k keys -> In k (map key cost_df)).
  { intros k Hk. unfold keys in Hk.
    eapply Permutation_in in Hk; [|apply insertion_sort_perm].
    now apply In_unique in Hk. }
  split.
  - rewrite !filter_map_swap, map_map.
    apply NoDup_map_filter, NoDup_map_filter.
    apply (NoDup_snd_of_constant_fst "India"%string); [|exact Hkeys].
    intros k Hk. apply Hin in Hk. apply in_map_iff in Hk.
    destruct Hk as (c & <- & _). reflexivity.
  - intros row Hrow. apply filter_In in Hrow. destruct Hrow as [Hrow _].
    apply filter_In in Hrow. destruct Hrow as [Hrow Hcases].
    apply in_map_iff in Hrow. destruct Hrow as (k & <- & Hk). simpl in *.
    pose proof (Hin k Hk) as Hk'. apply in_map_iff in Hk'.
    destruct Hk' as (c & Ec & Hc). subst k. simpl.
    split; [reflexivity|]. split.
    { destruct (groupby_sum _) as [q|]; simpl in *; [|discriminate].
      now apply num_ltb_fin. }
    assert (Hg : In c (filter (fun r => state_outcome_eqb (key r) (key c)) cost_df)).
    { apply filter_In. split; [exact Hc|]. now apply state_outcome_eqb_eq. }
    destruct (filter (fun r => state_outcome_eqb (key r) (key c)) cost_df)
      as [|c0 g'] eqn:Eg; [contradiction|].
    assert (Hc0 : In c0 cost_df /\ Cost.outcome c0 = Cost.outcome c).
    { assert (H0 : In c0 (filter (fun r => state_outcome_eqb (key r) (key c)) cost_df))
        by (rewrite Eg; simpl; auto).
      apply filter_In in H0. destruct H0 as [H0 E0].
      apply state_outcome_eqb_eq in E0. unfold key in E0. injection E0 as E0. auto. }
    destruct Hc0 as [Hc0 Eo].
    destruct (cost_row_reference power target_year cf_aqi hp_df pop_df aqi_df c0 Hc0)
      as (h & Hh & Eout & Emin & Emean & Emax).
    exists h. split; [exact Hh|]. split; [congruence|].
    change (fun r : Cost.row =>
              state_outcome_eqb ("India"%string, Cost.outcome r) (key c))
      with (fun r : Cost.row => state_outcome_eqb (key r) (key c)).
    rewrite Eg.
    rewrite !groupby_first_head by (rewrite ?Emin, ?Emean, ?Emax; exact I).
    auto.
Qed.

(* ================================================================== *)
(** ** Names that differ by case and surrounding blanks *)

Lemma str_lower_app (a b : string) :
  str_lower (a ++ b) = (str_lower a ++ str_lower b)%string.
Proof.
  unfold str_lower. induction a as [|c a IH]; simpl; [reflexivity|]. now rewrite IH.
Qed.

Lemma all_space_lower (s : string) : all_space (str_lower s) = all_space s.
Proof.
  unfold str_lower. induction s as [|c s IH]; simpl; [reflexivity|].
  now rewrite is_space_to_lower, IH.
Qed.

Lemma str_lstrip_blank (l : string) : all_space l = true -> str_lstrip l = EmptyString.
Proof.
  induction l as [|c l IH]; simpl; [reflexivity|].
  intros H. apply andb_true_iff in H. destruct H as [-> H]. auto.
Qed.

Lemma str_rstrip_blank (r : string) : all_space r = true -> str_rstrip r = EmptyString.
Proof.
  induction r as [|c r IH]; simpl; [reflexivity|].
  intros H. apply andb_true_iff in H. destruct H as [-> H].
  rewrite (IH H). reflexivity.
Qed.

Lemma str_lstrip_app_blank (l t : string) :
  all_space l = true -> str_lstrip (l ++ t) = str_lstrip t.
Proof.
  induction l as [|c l IH]; simpl; [reflexivity|].
  intros H. apply andb_true_iff in H. destruct H as [-> H]. auto.
Qed.

Lemma str_rstrip_app_blank (t r : string) :
  all_space r = true -> str_rstrip (t ++ r) = str_rstrip t.
Proof.
  intros H. induction t as [|c t IH]; simpl.
  - now apply str_rstrip_blank.
  - now rewrite IH.
Qed.

Lemma str_strip_app_blank (t r : string) :
  all_space r = true -> str_strip (t ++ r) = str_strip t.
Proof.
  intros H. unfold str_strip. induction t as [|c t IH]; simpl.
  - now rewrite str_lstrip_blank.
  - destruct (is_space c); [exact IH|].
    change (String c (t ++ r)) with (String c t ++ r)%string.
    now apply str_rstrip_app_blank.
Qed.

(** X18.  The join key of a name does not change when the key is taken
    again, when the name is lower-cased first, or when blanks are put
    around the name. *)
Theorem normalize_is_canonical (s l r : string) :
  normalize (normalize s) = normalize s /\
  normalize (str_lower s) = normalize s /\
  (all_space l = true -> all_space r = true ->
   normalize (l ++ s ++ r) = normalize s).
Proof.
  split; [apply normalize_idempotent_eq|]. split.
  - unfold normalize. now rewrite str_lower_idempotent.
  - intros Hl Hr. unfold normalize. rewrite !str_lower_app.
    unfold str_strip at 1. rewrite str_lstrip_app_blank by (now rewrite all_space_lower).
    apply str_strip_app_blank. now rewrite all_space_lower.
Qed.

(* ================================================================== *)
(** ** The average of an area *)

Lemma filter_filter_andb {T : Type} (p q : T -> bool) (l : list T) :
  filter p (filter q l) = filter (fun x => q x && p x) l.
Proof.
  induction l as [|x l IH]; simpl; [reflexivity|].
  destruct (q x); simpl; [destruct (p x)|]; congruence.
Qed.

Lemma area_averages_mean (aqi_df : list Aqi.row) (states : list string) (year : Z)
    (a : Area.row) :
  In a (area_averages aqi_df states year) ->
  Area.avg_aqi a = mean (area_readings_of aqi_df (Area.state a) (Area.area a) year).
Proof.
  intros Ha.
  assert (Hs : In (Area.state a) states).
  { apply (in_area_averages aqi_df states year (Area.state a) (Area.area a)).
    apply in_map_iff. exists a. auto. }
  unfold area_averages in Ha. apply in_map_iff in Ha. destruct Ha as (g & <- & Hg).
  simpl in *. apply in_groupby_mean in Hg; [|apply state_area_eqb_eq].
  destruct Hg as [_ ->]. f_equal.
  rewrite !filter_map_swap, map_map, filter_filter_andb. simpl.
  unfold area_readings_of. f_equal. apply filter_ext. intros r.
  unfold state_area_eqb, pair_eqb. simpl.
  destruct (String.eqb_spec (normalize (Aqi.state r)) (fst (fst g))) as [E | NE];
    simpl; [|now rewrite andb_false_r].
  assert (Hex : existsb (String.eqb (normalize (Aqi.state r))) states = true).
  { apply existsb_exists. exists (fst (fst g)). split; [exact Hs|].
    now apply String.eqb_eq. }
  rewrite Hex, andb_true_r. apply andb_comm.
Qed.

(** X19.  Every returned row is an area, by normalized name, of one of
    the given states with a reading in the year, and its average is the
    mean of the readings of that area in that year; no area is returned
    twice; and the rows are grouped by state, the states in ascending
    order. *)
Theorem top_areas_are_distinct_areas_of_the_states
    (aqi_df : list Aqi.row) (states : list string) (year : Z) (top_n : nat) :
  let top_areas := extract_high_aqi_areas aqi_df states year top_n in
  NoDup (map (fun r => (Area.state r, Area.area r)) top_areas) /\
  StronglySorted area_order top_areas /\
  forall row, In row top_areas ->
    In (Area.state row) states /\
    (exists r, In r aqi_df /\ ts_year (Aqi.date r) = year
               /\ normalize (Aqi.state r) = Area.state row
               /\ normalize (Aqi.area r) = Area.area row) /\
    Area.avg_aqi row
    = mean (area_readings_of aqi_df (Area.state row) (Area.area row) year).
Proof.
  cbv zeta. split; [|split].
  - rewrite extract_high_aqi_areas_unfold. unfold groupby_head.
    apply groupby_head_from_NoDup.
    eapply Permutation_NoDup; [|apply area_averages_keys_NoDup].
    apply Permutation_map, Permutation_sym, insertion_sort_perm.
  - rewrite extract_high_aqi_areas_unfold. unfold groupby_head.
    apply groupby_head_from_sorted, area_averages_sorted.
  - intros row Hrow. apply extract_high_aqi_areas_incl in Hrow.
    assert (Hk : In (Area.state row, Area.area row)
                   (map (fun r => (Area.state r, Area.area r))
                      (area_averages aqi_df states year)))
      by (apply in_map_iff; eauto).
    apply in_area_averages in Hk. destruct Hk as [Hs Hr].
    split; [exact Hs|]. split; [exact Hr|].
    exact (area_averages_mean _ _ _ _ Hrow).
Qed.

(** X20.  A state name given with a capital letter or a surrounding blank
    matches no reading: no row is returned for it, even when the table
    has readings of that state. *)
Theorem unnormalized_state_names_match_no_area
    (aqi_df : list Aqi.row) (states : list string) (year : Z) (top_n : nat)
    (s : string) :
  normalize s <> s ->
  ~ In s (map Area.state (extract_high_aqi_areas aqi_df states year top_n)).
Proof.
  intros Hs Hin. apply Hs. apply in_map_iff in Hin. destruct Hin as (row & <- & Hrow).
  apply extract_high_aqi_areas_incl in Hrow.
  assert (Hk : In (Area.state row, Area.area row)
                 (map (fun r => (Area.state r, Area.area r))
                    (area_averages aqi_df states year)))
    by (apply in_map_iff; eauto).
  apply in_area_averages in Hk. destruct Hk as [_ (r & _ & _ & <- & _)].
  apply normalize_idempotent_eq.
Qed.

(** X21.  No area is returned when no state is given or when [top_n] is
    0. *)
Theorem no_areas_without_states_or_rows
    (aqi_df : list Aqi.row) (states : list string) (year : Z) (top_n : nat) :
  states = [] \/ top_n = 0%nat ->
  extract_high_aqi_areas aqi_df states year top_n = [].
Proof.
  intros H. apply nil_of_no_element. intros row Hrow.
  destruct H as [-> | ->].
  - apply extract_high_aqi_areas_incl in Hrow.
    assert (Hk : In (Area.state row, Area.area row)
                   (map (fun r => (Area.state r, Area.area r))
                      (area_averages aqi_df [] year)))
      by (apply in_map_iff; eauto).
    apply in_area_averages in Hk. destruct Hk as [[] _].
  - pose proof (extract_high_aqi_areas_count aqi_df states year 0 (Area.state row)) as Hc.
    simpl in Hc.
    assert (0 < List.length
                  (filter (fun r => String.eqb (Area.state r) (Area.state row))
                     (extract_high_aqi_areas aqi_df states year 0)))%nat.
    { eapply In_filter_length; [exact Hrow|]. apply String.eqb_refl. }
    lia.
Qed.

(* ================================================================== *)
(** ** The scaler on binary64 *)

(** A finite float is a zero or has a mantissa. *)
Lemma binary64_finite_cases (y : float) :
  PrimFloat.is_finite y = true ->
  (exists s, Prim2SF y = S754_zero s) \/ (exists s m e, Prim2SF y = S754_finite s m e).
Proof.
  unfold PrimFloat.is_finite, PrimFloat.is_nan, PrimFloat.is_infinity.
  intros H. rewrite !FloatAxioms.eqb_spec, FloatAxioms.abs_spec in H.
  destruct (Prim2SF y) as [s | s | | s m e] eqn:E.
  - left. eauto.
  - exfalso. destruct s; vm_compute in H; discriminate.
  - exfalso. vm_compute in H. discriminate.
  - right. eauto.
Qed.

(** [y + (0 - y)] is [0.0] for every finite [y]: the subtraction from
    zero is exact and the sum of a float and its opposite is [+0.0]. *)
Lemma binary64_add_opposite (y : float) :
  PrimFloat.is_finite y = true ->
  PrimFloat.eqb (PrimFloat.add y (PrimFloat.sub (float_lit 0) y)) (float_lit 0) = true.
Proof.
  intros H.
  rewrite FloatAxioms.eqb_spec, FloatAxioms.add_spec, FloatAxioms.sub_spec.
  change (Prim2SF (float_lit 0)) with (S754_zero false).
  destruct (binary64_finite_cases y H) as [(s & ->) | (s & m & e & ->)].
  - destruct s; reflexivity.
  - unfold SF64sub, SF64add. cbn [SFsub SFadd].
    set (p := fst (shl_align m e (IntDef.Z.min e e))).
    assert (E : (cond_Zopp s (Z.pos p) + cond_Zopp (negb s) (Z.pos p) = 0)%Z).
    { clearbody p. destruct s; simpl; apply Z.pos_sub_diag. }
    rewrite E. reflexivity.
Qed.

(** X22.  On binary64, with its rounding, the cell that holds the minimum
    of a column is scaled to exactly 0.0, provided the product of the
    minimum and the scale is finite. *)
Theorem binary64_minimum_normalizes_to_zero (xs : list float) (i : nat) :
  nth_error xs i = Some (nanmin xs) ->
  PrimFloat.is_finite (PrimFloat.mul (nanmin xs) (scale_ (fit xs))) = true ->
  exists y, nth_error (transform (fit xs) xs) i = Some y
            /\ PrimFloat.eqb y (float_lit 0) = true.
Proof.
  intros Hi Hfin. unfold transform. rewrite nth_error_map, Hi. simpl.
  eexists. split; [reflexivity|].
  exact (binary64_add_opposite _ Hfin).
Qed.

Lemma binary64_minimum_witness :
  nth_error population_column 0 = Some (nanmin population_column) /\
  PrimFloat.is_finite
    (PrimFloat.mul (nanmin population_column) (scale_ (fit population_column))) = true /\
  exists y, nth_error (transform (fit population_column) population_column) 0 = Some y
            /\ PrimFloat.eqb y (float_lit 0) = true.
Proof.
  assert (H1 : nth_error population_column 0 = Some (nanmin population_column))
    by (vm_compute; reflexivity).
  assert (H2 : PrimFloat.is_finite
                 (PrimFloat.mul (nanmin population_column)
                    (scale_ (fit population_column))) = true)
    by (vm_compute; reflexivity).
  split; [exact H1|]. split; [exact H2|].
  exact (binary64_minimum_normalizes_to_zero population_column 0 H1 H2).
Defined.

(* ================================================================== *)
(** ** The properties on the closed tables *)

Lemma warm_run :
  compute_health_cost_impacts power_interp 2024 35 [hp_heart] warm_pop warm_aqi
  = [delhi_heart_warm; goa_heart_warm].
Proof. vm_compute. reflexivity. Qed.

Lemma unrecognised_months_witness :
  Pop.has_month abbrev_pop = true /\
  (forall r, In r (Pop.rows abbrev_pop) -> Pop.year r = 2025%Z ->
             month_number r = None) /\
  get_population_by_year abbrev_pop 2025 = [] /\
  compute_state_risk argsort_stable sample_aqi abbrev_pop sample_mpce 2025 10 4 3
  = Raise (ValueError NoSamples).
Proof.
  assert (H : forall r, In r (Pop.rows abbrev_pop) -> Pop.year r = 2025%Z ->
                        month_number r = None).
  { intros r [<- | [<- | []]] _; reflexivity. }
  split; [reflexivity|]. split; [exact H|].
  exact (unrecognised_months_select_no_population
           argsort_stable sample_aqi abbrev_pop sample_mpce 2025 10 4 3 eq_refl H).
Defined.

Lemma state_behind_latest_month_witness :
  In (census "Delhi" 2025 "March" 20000) (Pop.rows lag_pop) /\
  month_number (census "Delhi" 2025 "March" 20000) = Some 3%Z /\
  (forall r m, In r (Pop.rows lag_pop) -> Pop.year r = 2025%Z ->
               normalize (Pop.state r) = "kerala"%string ->
               month_number r = Some m -> (m < 3)%Z) /\
  ~ In "kerala"%string (map PopYear.state (get_population_by_year lag_pop 2025)).
Proof.
  assert (H1 : In (census "Delhi" 2025 "March" 20000) (Pop.rows lag_pop))
    by (simpl; auto).
  assert (H2 : forall r m, In r (Pop.rows lag_pop) -> Pop.year r = 2025%Z ->
                           normalize (Pop.state r) = "kerala"%string ->
                           month_number r = Some m -> (m < 3)%Z).
  { intros r m [<- | [<- | [<- | []]]] _ En Em; vm_compute in En, Em;
      try discriminate. injection Em as <-. lia. }
  split; [exact H1|]. split; [reflexivity|]. split; [exact H2|].
  exact (proj1 (state_behind_latest_month_is_dropped
                  argsort_stable sample_aqi lag_pop sample_mpce 2025 10 4 3
                  "kerala" (census "Delhi" 2025 "March" 20000) 3
                  eq_refl H1 eq_refl eq_refl H2)).
Defined.

Lemma top_areas_are_the_highest_witness :
  In (area_of "delhi" "anand vihar" 310)
     (extract_high_aqi_areas sample_aqi ["delhi"%string] 2025 1) /\
  In (area_of "delhi" "rohini" 200) (area_averages sample_aqi ["delhi"%string] 2025) /\
  ~ In (area_of "delhi" "rohini" 200)
       (extract_high_aqi_areas sample_aqi ["delhi"%string] 2025 1) /\
  (Area.avg_aqi (area_of "delhi" "rohini" 200)
   <= Area.avg_aqi (area_of "delhi" "anand vihar" 310))%num.
Proof.
  assert (H1 : In (area_of "delhi" "anand vihar" 310)
                  (extract_high_aqi_areas sample_aqi ["delhi"%string] 2025 1))
    by (vm_compute; auto).
  assert (H2 : In (area_of "delhi" "rohini" 200)
                  (area_averages sample_aqi ["delhi"%string] 2025))
    by (vm_compute; auto).
  assert (H3 : ~ In (area_of "delhi" "rohini" 200)
                    (extract_high_aqi_areas sample_aqi ["delhi"%string] 2025 1)).
  { vm_compute. intros [E | []]. discriminate E. }
  split; [exact H1|]. split; [exact H2|]. split; [exact H3|].
  exact (top_areas_are_the_highest sample_aqi ["delhi"%string] 2025 1
           (area_of "delhi" "anand vihar" 310) (area_of "delhi" "rohini" 200)
           H1 H2 eq_refl H3).
Defined.

Lemma top_areas_cover_the_top_states_witness :
  (forall s, In s (map Area.state sample_areas_df)
             <-> In s (map Risk.state (firstn 10 sample_risk_df))) /\
  (forall r r', In r (firstn 10 sample_risk_df) -> In r' (skipn 10 sample_risk_df) ->
                descending Risk.risk_score r r').
Proof.
  assert (Hn : (0 < 4)%nat) by lia.
  exact (top_areas_cover_the_top_states
           argsort_stable sample_aqi sample_pop sample_mpce 2025 10 4 3
           sample_risk_df sample_areas_df sample_areas_df
           argsort_stable_contract sample_risk_run Hn).
Defined.

Lemma risk_table_one_row_per_state_witness :
  NoDup (map PopYear.state (get_population_by_year sample_pop 2025)) /\
  NoDup (map MpceProj.state (project_mpce_2425 sample_mpce)) /\
  NoDup (map Risk.state sample_risk_df).
Proof.
  assert (H1 : NoDup (map PopYear.state (get_population_by_year sample_pop 2025))).
  { vm_compute. repeat constructor; simpl; intuition discriminate. }
  assert (H2 : NoDup (map MpceProj.state (project_mpce_2425 sample_mpce))).
  { vm_compute. repeat constructor; simpl; intuition discriminate. }
  split; [exact H1|]. split; [exact H2|].
  exact (risk_table_one_row_per_state
           argsort_stable sample_aqi sample_pop sample_mpce 2025 10 4 3
           sample_risk_df sample_areas_df sample_areas_df
           argsort_stable_contract sample_risk_run H1 H2).
Defined.

Lemma unnormalized_state_names_witness :
  normalize "Delhi" <> "Delhi"%string /\
  In "delhi"%string (map (fun r => normalize (Aqi.state r)) sample_aqi) /\
  ~ In "Delhi"%string
       (map Area.state (extract_high_aqi_areas sample_aqi ["Delhi"%string] 2025 4)).
Proof.
  assert (H : normalize "Delhi" <> "Delhi"%string) by (vm_compute; discriminate).
  split; [exact H|]. split; [vm_compute; auto|].
  exact (unnormalized_state_names_match_no_area
           sample_aqi ["Delhi"%string] 2025 4 "Delhi" H).
Defined.

Lemma no_areas_witness :
  extract_high_aqi_areas sample_aqi ["delhi"%string] 2025 0 = [] /\
  extract_high_aqi_areas sample_aqi [] 2025 4 = [].
Proof.
  split.
  - exact (no_areas_without_states_or_rows sample_aqi ["delhi"%string] 2025 0
             (or_intror eq_refl)).
  - exact (no_areas_without_states_or_rows sample_aqi [] 2025 4 (or_introl eq_refl)).
Defined.

Lemma cost_population_witness :
  In goa_heart
     (compute_health_cost_impacts power_interp 2024 35 sample_hp cost_pop cost_aqi) /\
  exists s,
    In s (states_with_aqi cost_aqi 2024) /\ Cost.state goa_heart = str_title s /\
    ((Cost.population goa_heart = NaN /\
      ~ In s (map PopYear.state (get_population_by_year cost_pop 2024))) \/
     (exists p, In p (get_population_by_year cost_pop 2024)
                /\ PopYear.state p = s
                /\ Cost.population goa_heart = PopYear.population p
                /\ is_fin (Cost.population goa_heart))).
Proof.
  assert (Hin : In goa_heart
                  (compute_health_cost_impacts power_interp 2024 35
                     sample_hp cost_pop cost_aqi))
    by (apply In_cost_run; simpl; auto).
  split; [exact Hin|].
  exact (cost_population_is_the_selected_population
           power_interp 2024 35 sample_hp cost_pop cost_aqi goa_heart Hin).
Defined.

Lemma paf_is_at_most_one_witness :
  In goa_heart_warm
     (compute_health_cost_impacts power_interp 2024 35 [hp_heart] warm_pop warm_aqi) /\
  Cost.rr_total goa_heart_warm = Fin (25 # 27) /\
  Cost.paf goa_heart_warm = Fin (-2 # 25) /\
  (Cost.paf goa_heart_warm <= Fin 1)%num /\
  ((Cost.paf goa_heart_warm < Fin 0)%num <-> (25 # 27) < 1).
Proof.
  assert (Hin : In goa_heart_warm
                  (compute_health_cost_impacts power_interp 2024 35
                     [hp_heart] warm_pop warm_aqi))
    by (rewrite warm_run; simpl; auto).
  assert (Hpos : 0 < 25 # 27) by reflexivity.
  split; [exact Hin|]. split; [reflexivity|]. split; [reflexivity|].
  destruct (paf_is_at_most_one power_interp 2024 35 [hp_heart] warm_pop warm_aqi
              goa_heart_warm (25 # 27) Hin eq_refl Hpos) as (H1 & _ & H3).
  split; assumption.
Defined.

Lemma attributable_cases_witness :
  (Fin 0 <= Cost.delta_aqi delhi_heart_warm)%num /\
  Cost.attr_cases delhi_heart_warm = Fin (200 # 27) /\
  unless_nan (fun k => 0 <= k) (Cost.attr_cases delhi_heart_warm) /\
  (Cost.delta_aqi goa_heart_warm <= Fin 0)%num /\
  Cost.attr_cases goa_heart_warm = Fin (-3 # 5) /\
  unless_nan (fun k => k <= 0) (Cost.attr_cases goa_heart_warm).
Proof.
  assert (Hd : In delhi_heart_warm
                 (compute_health_cost_impacts power_interp 2024 35
                    [hp_heart] warm_pop warm_aqi))
    by (rewrite warm_run; simpl; auto).
  assert (Hg : In goa_heart_warm
                 (compute_health_cost_impacts power_interp 2024 35
                    [hp_heart] warm_pop warm_aqi))
    by (rewrite warm_run; simpl; auto).
  assert (Hrr : (Fin 1 <= Fin 1.08)%num) by (vm_compute; discriminate).
  assert (Hb : (Fin 0 <= Fin 500)%num) by (vm_compute; discriminate).
  assert (Hp1 : (Fin 0 <= Fin 20000)%num) by (vm_compute; discriminate).
  assert (Hp2 : (Fin 0 <= Fin 1500)%num) by (vm_compute; discriminate).
  assert (Hup : (Fin 0 <= Cost.delta_aqi delhi_heart_warm)%num)
    by (vm_compute; discriminate).
  assert (Hdown : (Cost.delta_aqi goa_heart_warm <= Fin 0)%num)
    by (vm_compute; discriminate).
  split; [exact Hup|]. split; [reflexivity|]. split.
  - exact (proj2 (proj2 (proj1 (attributable_cases_follow_the_sign_of_delta
                                  power_interp 2024 35 [hp_heart] warm_pop warm_aqi
                                  delhi_heart_warm power_interp_from_one Hd Hrr Hb Hp1)
                           Hup))).
  - split; [exact Hdown|]. split; [reflexivity|].
    exact (proj2 (proj2 (proj2 (attributable_cases_follow_the_sign_of_delta
                                  power_interp 2024 35 [hp_heart] warm_pop warm_aqi
                                  goa_heart_warm power_interp_from_one Hg Hrr Hb Hp2)
                           Hdown))).
Defined.

(* ================================================================== *)
(** ** The tables the market page tests for emptiness *)

(** X23.  When the risk pipeline returns, its risk table has a row; and
    with positive [top_states] and [top_areas_per_state] so has its table
    of top areas.  The branches of the market page for an empty risk
    table and an empty area table are never taken. *)
Theorem risk_and_area_tables_are_never_empty
    (argsort : list num -> list nat)
    (aqi_df : list Aqi.row) (pop_df : Pop.frame) (mpce_df : list Mpce.row)
    (target_year : Z) (top_states top_areas_per_state top_global_areas : nat)
    (risk_df : list Risk.row) (areas_df global_areas_df : list Area.row) :
  argsort_contract argsort ->
  compute_state_risk argsort aqi_df pop_df mpce_df target_year
    top_states top_areas_per_state top_global_areas
  = Ok (risk_df, areas_df, global_areas_df) ->
  risk_df <> [] /\
  ((0 < top_states)%nat -> (0 < top_areas_per_state)%nat -> areas_df <> []).
Proof.
  intros Hc E.
  assert (Hrisk : risk_df <> []).
  { destruct (compute_state_risk_ok _ _ _ _ _ _ _ _ _ _ _ E) as [NE ->].
    intros Enil.
    pose proof (sort_values_desc_perm argsort Risk.risk_score Hc
                  (scored_frame (drivers aqi_df pop_df mpce_df target_year))) as HP.
    rewrite Enil in HP. apply Permutation_nil in HP.
    unfold scored_frame in HP. apply map_eq_nil in HP. contradiction. }
  split; [exact Hrisk|]. intros Hs Ha Enil.
  destruct (compute_state_risk_areas _ _ _ _ _ _ _ _ _ _ _ E) as [Eareas _].
  destruct risk_df as [|row risk_df']; [contradiction|].
  destruct top_states as [|n]; [lia|].
  assert (Hrow : In row (row :: risk_df')) by (simpl; auto).
  assert (Hin : In (Risk.state row) (map Area.state areas_df)).
  { rewrite Eareas. apply extract_high_aqi_areas_covers; [exact Ha | simpl; auto|].
    exact (risk_state_has_normalized_readings _ _ _ _ _ _ _ _ _ _ _ row E Hrow). }
  rewrite Enil in Hin. exact Hin.
Qed.

Lemma risk_and_area_tables_witness :
  sample_risk_df <> [] /\ sample_areas_df <> [].
Proof.
  destruct (risk_and_area_tables_are_never_empty
              argsort_stable sample_aqi sample_pop sample_mpce 2025 10 4 3
              sample_risk_df sample_areas_df sample_areas_df
              argsort_stable_contract sample_risk_run) as [H1 H2].
  split; [exact H1|]. apply H2; lia.
Defined.

(* ================================================================== *)
(** ** Dominance *)

(** The scaler keeps the order of the cells of a column. *)
Lemma normalized_monotone (argsort : list num -> list nat)
    (aqi_df : list Aqi.row) (pop_df : Pop.frame) (mpce_df : list Mpce.row)
    (target_year : Z) (top_states top_areas_per_state top_global_areas : nat)
    (risk_df : list Risk.row) (areas_df global_areas_df : list Area.row)
    (c : metric) (r r' : Risk.row) :
  argsort_contract argsort ->
  compute_state_risk argsort aqi_df pop_df mpce_df target_year
    top_states top_areas_per_state top_global_areas
  = Ok (risk_df, areas_df, global_areas_df) ->
  In r risk_df -> In r' risk_df ->
  (raw c r <= raw c r')%num ->
  exists x x', normalized c r = Fin x /\ normalized c r' = Fin x' /\ x <= x'.
Proof.
  intros Hc E Hr Hr' Hle.
  destruct (normalized_spec _ _ _ _ _ _ _ _ _ _ _ c Hc E)
    as (m & M & s & _ & _ & Hs & Hrows).
  destruct (Hrows r Hr) as (q & Eq & _ & En).
  destruct (Hrows r' Hr') as (q' & Eq' & _ & En').
  rewrite Eq, Eq' in Hle. simpl in Hle.
  exists (Qred ((q - m) * s)), (Qred ((q' - m) * s)).
  split; [exact En|]. split; [exact En'|].
  rewrite !Qred_correct.
  assert (Hs0 : 0 <= s).
  { destruct Hs as [[_ ->] | [Hnc ->]]; [lra|].
    pose proof near_constant_pos as Hp.
    apply Qlt_le_weak. unfold Qdiv. rewrite Qmult_1_l.
    apply Qinv_lt_0_compat. lra. }
  apply Qmult_le_compat_r; lra.
Qed.

Lemma risk_score_formula (argsort : list num -> list nat)
    (aqi_df : list Aqi.row) (pop_df : Pop.frame) (mpce_df : list Mpce.row)
    (target_year : Z) (top_states top_areas_per_state top_global_areas : nat)
    (risk_df : list Risk.row) (areas_df global_areas_df : list Area.row)
    (r : Risk.row) :
  compute_state_risk argsort aqi_df pop_df mpce_df target_year
    top_states top_areas_per_state top_global_areas
  = Ok (risk_df, areas_df, global_areas_df) ->
  In r risk_df ->
  Risk.risk_score r = weighted_sum (Risk.aqi_n r) (Risk.pop_n r) (Risk.mpce_n r).
Proof.
  intros E Hr.
  destruct (risk_row_inv _ _ _ _ _ _ _ _ _ _ _ r E Hr) as (apm & _ & ->).
  reflexivity.
Qed.

Lemma weighted_sum_fin (a p m : Q) :
  exists v, weighted_sum (Fin a) (Fin p) (Fin m) = Fin v
            /\ v == 0.7 * a + 0.2 * p + 0.1 * (1 - m).
Proof.
  rewrite weighted_sum_num. unfold num_add, num_mul, num_sub, num_lift2.
  eexists. split; [reflexivity|]. now rewrite !Qred_correct.
Qed.

(** X24.  A state with an average AQI and a population no lower, and an
    expenditure no higher, than another state of the risk table has
    normalized metrics in the same order and a risk score no lower. *)
Theorem risk_score_respects_dominance
    (argsort : list num -> list nat)
    (aqi_df : list Aqi.row) (pop_df : Pop.frame) (mpce_df : list Mpce.row)
    (target_year : Z) (top_states top_areas_per_state top_global_areas : nat)
    (risk_df : list Risk.row) (areas_df global_areas_df : list Area.row)
    (r r' : Risk.row) :
  argsort_contract argsort ->
  compute_state_risk argsort aqi_df pop_df mpce_df target_year
    top_states top_areas_per_state top_global_areas
  = Ok (risk_df, areas_df, global_areas_df) ->
  In r risk_df -> In r' risk_df ->
  (Risk.avg_aqi r <= Risk.avg_aqi r')%num ->
  (Risk.population r <= Risk.population r')%num ->
  (Risk.mpce_2024_25 r' <= Risk.mpce_2024_25 r)%num ->
  (Risk.aqi_n r <= Risk.aqi_n r')%num /\
  (Risk.pop_n r <= Risk.pop_n r')%num /\
  (Risk.mpce_n r' <= Risk.mpce_n r)%num /\
  (Risk.risk_score r <= Risk.risk_score r')%num.
Proof.
  intros Hc E Hr Hr' Ha Hp Hm.
  destruct (normalized_monotone _ _ _ _ _ _ _ _ _ _ _ AvgAqi r r' Hc E Hr Hr' Ha)
    as (a & a' & Ea & Ea' & Hla).
  destruct (normalized_monotone _ _ _ _ _ _ _ _ _ _ _ Population r r' Hc E Hr Hr' Hp)
    as (p & p' & Ep & Ep' & Hlp).
  destruct (normalized_monotone _ _ _ _ _ _ _ _ _ _ _ Mpce r' r Hc E Hr' Hr Hm)
    as (m' & m & Em' & Em & Hlm).
  simpl in Ea, Ea', Ep, Ep', Em, Em'.
  rewrite (risk_score_formula _ _ _ _ _ _ _ _ _ _ _ r E Hr).
  rewrite (risk_score_formula _ _ _ _ _ _ _ _ _ _ _ r' E Hr').
  rewrite Ea, Ea', Ep, Ep', Em, Em'.
  destruct (weighted_sum_fin a p m) as (v & -> & Hv).
  destruct (weighted_sum_fin a' p' m') as (v' & -> & Hv').
  simpl. repeat (split; [assumption|]). lra.
Qed.

Lemma risk_score_respects_dominance_witness :
  In sample_goa sample_risk_df /\ In sample_delhi sample_risk_df /\
  (Risk.avg_aqi sample_goa <= Risk.avg_aqi sample_delhi)%num /\
  (Risk.population sample_goa <= Risk.population sample_delhi)%num /\
  (Risk.mpce_2024_25 sample_delhi <= Risk.mpce_2024_25 sample_goa)%num /\
  (Risk.risk_score sample_goa <= Risk.risk_score sample_delhi)%num.
Proof.
  assert (Hg : In sample_goa sample_risk_df) by (simpl; auto).
  assert (Hd : In sample_delhi sample_risk_df) by (simpl; auto).
  assert (Ha : (Risk.avg_aqi sample_goa <= Risk.avg_aqi sample_delhi)%num)
    by (vm_compute; discriminate).
  assert (Hp : (Risk.population sample_goa <= Risk.population sample_delhi)%num)
    by (vm_compute; discriminate).
  assert (Hm : (Risk.mpce_2024_25 sample_delhi <= Risk.mpce_2024_25 sample_goa)%num)
    by (vm_compute; discriminate).
  repeat (split; [assumption|]).
  exact (proj2 (proj2 (proj2 (risk_score_respects_dominance
                                argsort_stable sample_aqi sample_pop sample_mpce
                                2025 10 4 3
                                sample_risk_df sample_areas_df sample_areas_df
                                sample_goa sample_delhi
                                argsort_stable_contract sample_risk_run
                                Hg Hd Ha Hp Hm)))).
Defined.

(* ================================================================== *)
(** ** The state names of the cost table *)

Lemma to_lower_to_upper (c : ascii) : to_lower (to_upper c) = to_lower c.
Proof. destruct c as [[] [] [] [] [] [] [] []]; reflexivity. Qed.

Lemma str_lower_title_from (previous_is_cased : bool) (s : string) :
  str_lower (str_title_from previous_is_cased s) = str_lower s.
Proof.
  unfold str_lower. revert previous_is_cased.
  induction s as [|c s IH]; intros b; simpl; [reflexivity|].
  destruct (is_lower c); [|destruct (is_upper c)]; simpl; rewrite IH;
    destruct b; rewrite ?to_lower_to_upper, ?to_lower_idempotent; reflexivity.
Qed.

Lemma str_lower_normalize (s : string) : str_lower (normalize s) = normalize s.
Proof.
  unfold normalize, str_strip.
  now rewrite str_lower_rstrip, str_lower_lstrip, str_lower_idempotent.
Qed.

(** X25.  When the state names of the AQI readings are written in ASCII,
    lower-casing the state name a cost row shows gives back the
    normalized name the row was computed for, a state with readings in
    the target year; so two states never share a name in the cost
    table. *)
Theorem displayed_state_name_gives_back_the_key
    (power : num -> num -> num) (target_year : Z) (cf_aqi : Q)
    (hp_df : list Hp.row) (pop_df : Pop.frame) (aqi_df : list Aqi.row)
    (row : Cost.row) :
  Forall (fun r => ascii_name (Aqi.state r) = true) aqi_df ->
  In row (compute_health_cost_impacts power target_year cf_aqi hp_df pop_df aqi_df) ->
  In (str_lower (Cost.state row)) (states_with_aqi aqi_df target_year) /\
  Cost.state row = str_title (str_lower (Cost.state row)) /\
  Cost.avg_aqi row
  = mean (normalized_readings_of aqi_df (str_lower (Cost.state row)) target_year).
Proof.
  intros _. rewrite compute_health_cost_impacts_unfold. intros Hrow.
  apply in_map_iff in Hrow. destruct Hrow as ([[[s h] oa] op] & <- & Hg).
  destruct (cost_grid_inv _ _ _ _ _ _ _ _ _ Hg) as (Hs & _ & Havg & _).
  assert (Ekey : str_lower (str_title s) = s).
  { unfold str_title. rewrite str_lower_title_from.
    apply in_states_with_aqi in Hs. destruct Hs as (r & _ & _ & <-).
    apply str_lower_normalize. }
  simpl. rewrite Ekey. auto.
Qed.

Lemma displayed_state_name_witness :
  Forall (fun r => ascii_name (Aqi.state r) = true) cost_aqi /\
  In goa_heart
     (compute_health_cost_impacts power_interp 2024 35 sample_hp cost_pop cost_aqi) /\
  Cost.state goa_heart = "Goa"%string /\
  In (str_lower (Cost.state goa_heart)) (states_with_aqi cost_aqi 2024) /\
  Cost.state goa_heart = str_title (str_lower (Cost.state goa_heart)).
Proof.
  assert (Hascii : Forall (fun r => ascii_name (Aqi.state r) = true) cost_aqi)
    by (repeat constructor).
  assert (Hin : In goa_heart
                  (compute_health_cost_impacts power_interp 2024 35
                     sample_hp cost_pop cost_aqi))
    by (apply In_cost_run; simpl; auto).
  destruct (displayed_state_name_gives_back_the_key
              power_interp 2024 35 sample_hp cost_pop cost_aqi goa_heart Hascii Hin)
    as (H1 & H2 & _).
  split; [exact Hascii|]. split; [exact Hin|]. split; [reflexivity|].
  split; assumption.
Defined.

(* ================================================================== *)
(** ** The cost totals *)

Lemma cost_total_formulas (power : num -> num -> num) (target_year : Z) (cf_aqi : Q)
    (hp_df : list Hp.row) (pop_df : Pop.frame) (aqi_df : list Aqi.row)
    (row : Cost.row) :
  In row (compute_health_cost_impacts power target_year cf_aqi hp_df pop_df aqi_df) ->
  Cost.cost_min_total row = num_mul (Cost.attr_cases row) (Cost.cost_min row) /\
  Cost.cost_mean_total row = num_mul (Cost.attr_cases row) (Cost.cost_mean row) /\
  Cost.cost_max_total row = num_mul (Cost.attr_cases row) (Cost.cost_max row).
Proof.
  rewrite compute_health_cost_impacts_unfold. intros Hrow.
  apply in_map_iff in Hrow. destruct Hrow as (g & <- & _).
  repeat split; reflexivity.
Qed.

Lemma num_le_fin (x y : num) :
  (x <= y)%num -> exists a b, x = Fin a /\ y = Fin b /\ a <= b.
Proof. destruct x as [a|], y as [b|]; simpl; try tauto. eauto. Qed.

(** X26.  The three cost totals of a row are the attributable cases times
    the three reference costs: they stand in the order of the costs when
    the attributable cases are not negative, and in the opposite order,
    the "minimum" total above the "maximum" total, when they are
    negative. *)
Theorem cost_totals_follow_the_sign_of_the_cases
    (power : num -> num -> num) (target_year : Z) (cf_aqi : Q)
    (hp_df : list Hp.row) (pop_df : Pop.frame) (aqi_df : list Aqi.row)
    (row : Cost.row) :
  In row (compute_health_cost_impacts power target_year cf_aqi hp_df pop_df aqi_df) ->
  (Cost.cost_min row <= Cost.cost_mean row)%num ->
  (Cost.cost_mean row <= Cost.cost_max row)%num ->
  ((Fin 0 <= Cost.attr_cases row)%num ->
   (Cost.cost_min_total row <= Cost.cost_mean_total row)%num /\
   (Cost.cost_mean_total row <= Cost.cost_max_total row)%num) /\
  ((Cost.attr_cases row <= Fin 0)%num ->
   (Cost.cost_max_total row <= Cost.cost_mean_total row)%num /\
   (Cost.cost_mean_total row <= Cost.cost_min_total row)%num).
Proof.
  intros Hrow H1 H2.
  destruct (cost_total_formulas _ _ _ _ _ _ _ Hrow) as (-> & -> & ->).
  apply num_le_fin in H1. destruct H1 as (lo & mid & -> & Emid & Hlo).
  apply num_le_fin in H2. destruct H2 as (mid' & hi & Emid' & -> & Hhi).
  rewrite Emid in Emid'. injection Emid' as <-. rewrite Emid.
  split; intros Hc; apply num_le_fin in Hc.
  - destruct Hc as (z & c & Ez & -> & Hc). injection Ez as <-.
    unfold num_mul, num_lift2, num_le. rewrite !Qred_correct.
    split; nra.
  - destruct Hc as (c & z & -> & Ez & Hc). injection Ez as <-.
    unfold num_mul, num_lift2, num_le. rewrite !Qred_correct.
    split; nra.
Qed.

Lemma cost_totals_witness :
  (Cost.attr_cases goa_heart_warm <= Fin 0)%num /\
  Cost.cost_min_total goa_heart_warm = Fin (-60) /\
  Cost.cost_max_total goa_heart_warm = Fin (-180) /\
  (Cost.cost_max_total goa_heart_warm <= Cost.cost_mean_total goa_heart_warm)%num /\
  (Cost.cost_mean_total goa_heart_warm <= Cost.cost_min_total goa_heart_warm)%num.
Proof.
  assert (Hin : In goa_heart_warm
                  (compute_health_cost_impacts power_interp 2024 35
                     [hp_heart] warm_pop warm_aqi))
    by (rewrite warm_run; simpl; auto).
  assert (H1 : (Cost.cost_min goa_heart_warm <= Cost.cost_mean goa_heart_warm)%num)
    by (vm_compute; discriminate).
  assert (H2 : (Cost.cost_mean goa_heart_warm <= Cost.cost_max goa_heart_warm)%num)
    by (vm_compute; discriminate).
  assert (Hc : (Cost.attr_cases goa_heart_warm <= Fin 0)%num)
    by (vm_compute; discriminate).
  split; [exact Hc|]. split; [reflexivity|]. split; [reflexivity|].
  exact (proj2 (cost_totals_follow_the_sign_of_the_cases
                  power_interp 2024 35 [hp_heart] warm_pop warm_aqi
                  goa_heart_warm Hin H1 H2) Hc).
Defined.
